(** * Backend_ia03: a shallow embedding of [backend.py]

    The Flask backend splits a script into scenes, attaches stock media
    to every scene, synthesises narration and composes SEO metadata.
    This development embeds its four endpoints and its helper functions
    and settles the properties stated about them.

    Layout: Python values and built-ins, the keyword extractor, the
    arithmetic of the scene count, the two Pixabay searches, the four
    endpoints; then the lemmas and theorems, in the same order. *)

From stdpp Require Import gmap strings list fin_maps sorting.
From Stdlib Require Import ZArith Ascii.

Local Open Scope Z_scope.

(** ** Python values *)

(** A Python [str] is a sequence of Unicode code points. *)
Definition char := N.
Definition str := list char.

(** A literal of the source, written in ASCII. *)
Definition py (s : string) : str := N_of_ascii <$> String.list_ascii_of_string s.

(** A Python [float] (binary64): [Dyadic m e] is the number [m * 2^e]. *)
Inductive float :=
| Dyadic (m e : Z)
| Infinity (negative : bool)
| NaN.

(** What [request.json], [json.loads] and [response.json()] produce.
    Objects are keyed by [str]; the endpoints only look keys up. *)
#[warnings="-register-all"]
Inductive json :=
| JNull
| JBool (b : bool)
| JInt (z : Z)
| JFloat (f : float)
| JStr (s : str)
| JArr (l : list json)
| JObj (m : gmap str json).

(** Exception classes that the code raises, catches or lets through.
    The [Req*] classes are [requests.exceptions.RequestException] and
    its subclasses. *)
Inductive exc_class :=
| AttributeError | TypeError | ValueError | KeyError | OverflowError
| ZeroDivisionError
| JSONDecodeError | OpenAIError
| ReqConnectionError | ReqTimeout | ReqHTTPError | ReqInvalidJSON
| RequestException.

(** An exception: its class and [str(e)].  The texts of the exceptions
    raised by the built-ins modelled here are abridged. *)
Record exn := Exn { exn_class : exc_class; exn_str : str }.

(** [isinstance(e, requests.exceptions.RequestException)] *)
Definition is_RequestException (e : exn) : bool :=
  match exn_class e with
  | ReqConnectionError | ReqTimeout | ReqHTTPError | ReqInvalidJSON
  | RequestException => true
  | _ => false
  end.

(** ** Fallible computations *)

Inductive result (A : Type) :=
| Ok (a : A)
| Raise (e : exn).
Arguments Ok {A} a.
Arguments Raise {A} e.

#[global] Instance result_ret : MRet result := λ A a, Ok a.
#[global] Instance result_bind : MBind result := λ A B f r,
  match r with
  | Ok a => f a
  | Raise e => Raise e
  end.

Definition raise {A} (c : exc_class) (msg : string) : result A :=
  Raise (Exn c (py msg)).

(** ** Built-ins on values *)

(** Truth value of an object, as [if x:] and [not x] test it. *)
Definition float_is_zero (f : float) : bool :=
  match f with
  | Dyadic m _ => m =? 0
  | _ => false
  end.

Definition truthy (v : json) : bool :=
  match v with
  | JNull => false
  | JBool b => b
  | JInt z => negb (z =? 0)
  | JFloat f => negb (float_is_zero f)
  | JStr s => negb (bool_decide (s = []))
  | JArr l => negb (bool_decide (length l = 0%nat))
  | JObj m => negb (bool_decide (size m = 0%nat))
  end.

(** [d.get(key, default)]; only a dict has the method. *)
Definition dict_get (d : json) (key : string) (dflt : json) : result json :=
  match d with
  | JObj m => Ok (default dflt (m !! py key))
  | _ => raise AttributeError "object has no attribute 'get'"
  end.

(** [d[key]] with a string key. *)
Definition getitem (d : json) (key : string) : result json :=
  match d with
  | JObj m =>
      match m !! py key with
      | Some v => Ok v
      | None => raise KeyError key
      end
  | _ => raise TypeError "indices must be integers or the object is not subscriptable"
  end.

(** Substring test, for [key in s] on a [str]. *)
Fixpoint is_prefix (p s : str) : bool :=
  match p, s with
  | [], _ => true
  | _ :: _, [] => false
  | a :: p', b :: s' => bool_decide (a = b) && is_prefix p' s'
  end.

Fixpoint is_substring (p s : str) : bool :=
  is_prefix p s ||
  match s with
  | [] => false
  | _ :: s' => is_substring p s'
  end.

Definition is_that_str (k : str) (v : json) : bool :=
  match v with
  | JStr s => bool_decide (s = k)
  | _ => false
  end.

(** [key in x] with a string key: a key of a dict, an element of a
    list, a substring of a string. *)
Definition contains (key : string) (x : json) : result bool :=
  match x with
  | JObj m => Ok (bool_decide (is_Some (m !! py key)))
  | JArr l => Ok (existsb (is_that_str (py key)) l)
  | JStr s => Ok (is_substring (py key) s)
  | _ => raise TypeError "argument is not iterable"
  end.

(** The elements a [for] loop visits.  A dict yields its keys; they
    come here in the order of the map, and nothing below depends on
    their order: the loops of the source fail on a key, or skip it,
    whichever comes first. *)
Definition iterate (x : json) : result (list json) :=
  match x with
  | JArr l => Ok l
  | JStr s => Ok ((λ c, JStr [c]) <$> s)
  | JObj m => Ok (JStr <$> (map_to_list m).*1)
  | _ => raise TypeError "object is not iterable"
  end.

(** Python's whitespace ([str.isspace]), which [str.strip()] removes. *)
Definition isspace (c : char) : bool :=
  ((9 <=? c) && (c <=? 13) || (28 <=? c) && (c <=? 32) ||
   (c =? 133) || (c =? 160) || (c =? 5760) ||
   (8192 <=? c) && (c <=? 8202) || (c =? 8232) || (c =? 8233) ||
   (c =? 8239) || (c =? 8287) || (c =? 12288))%N.

Fixpoint lstrip (s : str) : str :=
  match s with
  | [] => []
  | c :: r => if isspace c then lstrip r else s
  end.

Definition strip (s : str) : str := reverse (lstrip (reverse (lstrip s))).

(** [x.strip()]: only a [str] has the method. *)
Definition py_strip (x : json) : result str :=
  match x with
  | JStr s => Ok (strip s)
  | _ => raise AttributeError "object has no attribute 'strip'"
  end.

(** [sep.join(words)] *)
Fixpoint join (sep : str) (words : list str) : str :=
  match words with
  | [] => []
  | [w] => w
  | w :: rest => w ++ sep ++ join sep rest
  end.

(** [text.split(' ')[0]]: the text up to its first space. *)
Fixpoint first_piece (text : str) : str :=
  match text with
  | [] => []
  | c :: r => if (c =? 32)%N then [] else c :: first_piece r
  end.

(** The parts of the Python runtime that rest on large tables or on a
    grammar: they stay parameters of the development. *)
Class Builtins := {
  (** [str.lower()] *)
  str_lower : str → str;
  (** [str.isalnum()] of one character; with the underscore, this is
      what [\w] matches in a [str] pattern *)
  char_isalnum : char → bool;
  (** [int(s)] on a [str]; [None] stands for [ValueError] *)
  int_of_str : str → option Z;
  (** [json.loads] *)
  json_loads : str → result json;
}.

(** ** The keyword extractor *)

Module Keywords.
Section with_builtins.
Context `{Builtins}.

Definition is_word_char (c : char) : bool := char_isalnum c || (c =? 95)%N.

Definition flush (cur : str) : list str :=
  match cur with
  | [] => []
  | _ => [reverse cur]
  end.

(** [re.findall(r'\b\w+\b', s)]: the maximal runs of word characters
    of [s], from left to right.  [cur] holds the run being read,
    last character first. *)
Fixpoint findall_words (s : str) (cur : str) : list str :=
  match s with
  | [] => flush cur
  | c :: r =>
      if is_word_char c then findall_words r (c :: cur)
      else flush cur ++ findall_words r []
  end.

Definition stopwords : gset str :=
  list_to_set (
    (py <$> ["el"; "la"; "los"; "las"; "un"; "una"; "unos"; "unas"; "de";
             "en"; "y"; "o"; "es"; "para"; "con"; "del"; "al"; "se"; "por";
             "que"]%string)
    ++ [[109; 225; 115]%N] (* "más": m, U+00E1, s *)
    ++ (py <$> ["como"; "pero"; "no"; "su"; "sus"; "este"; "esta"; "estos";
                "estas"; "lo"; "mi"; "mis"]%string)).

(** [word not in stopwords and len(word) > 2] *)
Definition keeps (word : str) : bool :=
  bool_decide (word ∉ stopwords) && bool_decide (2 < length word)%nat.

(** [Counter(words)]: every distinct word with its number of
    occurrences, in the order of first occurrence. *)
Fixpoint counter_add (w : str) (c : list (str * nat)) : list (str * nat) :=
  match c with
  | [] => [(w, 1%nat)]
  | (k, n) :: r =>
      if bool_decide (k = w) then (k, S n) :: r else (k, n) :: counter_add w r
  end.

Definition Counter (words : list str) : list (str * nat) :=
  foldl (λ c w, counter_add w c) [] words.

(** Stable sort by decreasing count: an entry goes in front of the
    later entries whose count is not greater. *)
Fixpoint insert_by_count (x : str * nat) (l : list (str * nat)) : list (str * nat) :=
  match l with
  | [] => [x]
  | y :: r => if (x.2 <? y.2)%nat then y :: insert_by_count x r else x :: l
  end.

Definition sorted_by_count (c : list (str * nat)) : list (str * nat) :=
  foldr insert_by_count [] c.

(** [c.most_common(n)] for an integer [n]: nothing when [n <= 0]. *)
Definition most_common (n : Z) (c : list (str * nat)) : list (str * nat) :=
  take (Z.to_nat n) (sorted_by_count c).

Definition filtered_words (text : str) : list str :=
  filter (λ w, Is_true (keeps w)) (findall_words (str_lower text) []).

Definition extract_keywords (text : str) (num_keywords : Z) : list str :=
  let word_counts := Counter (filtered_words text) in
  let most_common := (most_common num_keywords word_counts).*1 in
  match most_common with
  | [] => [first_piece text]
  | _ => most_common
  end.

End with_builtins.
End Keywords.

(** An instance of the built-ins that agrees with Python on ASCII text;
    the examples run on it. *)
Definition ascii_lower_char (c : char) : char :=
  if ((65 <=? c) && (c <=? 90))%N then (c + 32)%N else c.

Definition ascii_isalnum (c : char) : bool :=
  ((48 <=? c) && (c <=? 57) || (65 <=? c) && (c <=? 90) ||
   (97 <=? c) && (c <=? 122))%N.

Fixpoint digits_value (s : str) (acc : Z) : option Z :=
  match s with
  | [] => Some acc
  | c :: r =>
      if ((48 <=? c) && (c <=? 57))%N
      then digits_value r (10 * acc + (Z.of_N c - 48))
      else None
  end.

Definition ascii_int_of_str (s : str) : option Z :=
  match s with
  | [] => None
  | _ => digits_value s 0
  end.

Definition ascii_builtins : Builtins := {|
  str_lower := fmap ascii_lower_char;
  char_isalnum := ascii_isalnum;
  int_of_str := ascii_int_of_str;
  json_loads := λ _, raise JSONDecodeError "Expecting value";
|}.

(** ** Numbers: true division, rounding, conversion *)

(** The integer nearest to the rational [n / d], for [0 < d]; a tie goes
    to the even neighbour. *)
Definition round_half_even (n d : Z) : Z :=
  let q := n / d in
  let r := n mod d in
  if 2 * r <? d then q
  else if d <? 2 * r then q + 1
  else if Z.even q then q else q + 1.

(** [floor (log2 (a / b))] for [0 < a] and [0 < b]. *)
Definition log2_quot (a b : Z) : Z :=
  let k := Z.log2 a - Z.log2 b in
  if a * 2 ^ Z.max 0 (- k) <? b * 2 ^ Z.max 0 k then k - 1 else k.

(** The binary64 number nearest to [a / b], for [0 < a] and [0 < b]:
    a 53-bit significand at the exponent of the quotient, no exponent
    below -1074; [None] when the result exceeds the largest float. *)
Definition nearest_binary64 (a b : Z) : option (Z * Z) :=
  let e := Z.max (log2_quot a b - 52) (-1074) in
  let m := round_half_even (a * 2 ^ Z.max 0 (- e)) (b * 2 ^ Z.max 0 e) in
  if (971 <? e) || ((e =? 971) && (m =? 2 ^ 53)) then None else Some (m, e).

(** [a / b] on two [int]s: the correctly rounded quotient. *)
Definition truediv (a b : Z) : result float :=
  if b =? 0 then raise ZeroDivisionError "division by zero"
  else if a =? 0 then Ok (Dyadic 0 0)
  else
    match nearest_binary64 (Z.abs a) (Z.abs b) with
    | Some (m, e) => Ok (Dyadic (Z.sgn a * Z.sgn b * m) e)
    | None => raise OverflowError "integer division result too large for a float"
    end.

(** [round(x)] on a [float]: the nearest [int], ties to even. *)
Definition py_round (x : float) : result Z :=
  match x with
  | Dyadic m e =>
      Ok (if 0 <=? e then m * 2 ^ e else round_half_even m (2 ^ (- e)))
  | Infinity _ => raise OverflowError "cannot convert float infinity to integer"
  | NaN => raise ValueError "cannot convert float NaN to integer"
  end.

(** [x < y] on two [float]s. *)
Definition float_ltb (x y : float) : bool :=
  match x, y with
  | Dyadic m1 e1, Dyadic m2 e2 =>
      let e := Z.min e1 e2 in m1 * 2 ^ (e1 - e) <? m2 * 2 ^ (e2 - e)
  | Dyadic _ _, Infinity negative => negb negative
  | Infinity negative, Dyadic _ _ => negative
  | Infinity n1, Infinity n2 => n1 && negb n2
  | _, _ => false
  end.

(** [int(x)] *)
Definition py_int `{Builtins} (x : json) : result Z :=
  match x with
  | JInt z => Ok z
  | JBool b => Ok (if b then 1 else 0)
  | JFloat (Dyadic m e) =>
      Ok (if 0 <=? e then m * 2 ^ e else Z.quot m (2 ^ (- e)))
  | JFloat (Infinity _) =>
      raise OverflowError "cannot convert float infinity to integer"
  | JFloat NaN => raise ValueError "cannot convert float NaN to integer"
  | JStr s =>
      match int_of_str s with
      | Some z => Ok z
      | None => raise ValueError "invalid literal for int() with base 10"
      end
  | JNull | JArr _ | JObj _ =>
      raise TypeError "int() argument must be a string, a bytes-like object or a real number"
  end.

(** Lines 64-65 of [generate_initial_content]. *)
Definition segundos_por_escena : Z := 7.

Definition num_escenas_esperadas (duracion_video_seg : Z) : result Z :=
  q ← truediv duracion_video_seg segundos_por_escena;
  r ← py_round q;
  mret (Z.max 1 r).

(** ** The outside world *)

(** A prompt: the template of the source and the values it
    interpolates. *)
Inductive prompt :=
| PromptDivision (num_escenas_esperadas : Z) (nicho idioma : json) (guion : str)
| PromptReescribir (tema nicho : json) (tono : str) (idioma : json)
    (keyword_str : str) (guion_antiguo : json)
| PromptTitulo (nicho guion_200 : json)
| PromptDescripcion (nicho guion : json)
| PromptHashtags (nicho guion_200 : json)
| Text (s : str).

(** [client.chat.completions.create(...)] *)
Record chat_request := {
  chat_model : string;
  chat_json_object : bool;
  chat_messages : list (string * prompt);
}.

(** [client.audio.speech.create(...)] *)
Record speech_request := {
  speech_model : string;
  speech_voice : json;
  speech_input : json;
}.

(** [requests.get(url, timeout=10)]: the URL is determined by the API
    key, the endpoint (images or videos), the query and the
    orientation. *)
Record pixabay_request := {
  px_key : option str;
  px_videos : bool;
  px_query : str;
  px_orientation : string;
  px_timeout : Z;
}.

Inductive call :=
| CallChat (r : chat_request)
| CallSpeech (r : speech_request)
| CallGet (r : pixabay_request).

(** A [requests.Response]: its status code and what [.json()] does. *)
Record http_response := {
  status_code : Z;
  response_json : result json;
}.

(** The collaborators.  Each answer may depend on the calls made so
    far, so that the same request can be answered differently twice. *)
Class Services := {
  (** [os.getenv("PIXABAY_API_KEY")] *)
  PIXABAY_API_KEY : option str;
  (** [requests.get]: a response, or the exception it raises *)
  requests_get : list call → pixabay_request → result http_response;
  (** the [choices[0].message.content] of a chat completion: a [str]
      or [None] *)
  chat_completions_create : list call → chat_request → result (option str);
  (** the chunks that [iter_bytes] yields for a speech response *)
  audio_speech_create : list call → speech_request → result (list (list Byte.byte));
  (** the successive values of [random.random()] *)
  random_random : nat → float;
  (** the successive values of [str(uuid.uuid4())] *)
  uuid4 : nat → str;
}.

(** What a request handler changes: the outbound calls made, and how
    many random numbers and identifiers were drawn. *)
Record state := {
  calls : list call;
  draws : nat;
  uuids : nat;
}.

Definition M (A : Type) : Type := state → result A * state.

#[global] Instance M_ret : MRet M := λ A a st, (Ok a, st).
#[global] Instance M_bind : MBind M := λ A B f m st,
  match m st with
  | (Ok a, st') => f a st'
  | (Raise e, st') => (Raise e, st')
  end.

(** A pure step of a handler. *)
Definition lift {A} (r : result A) : M A := λ st, (r, st).

(** [Response.raise_for_status()] of the requests library: it raises
    [HTTPError] when [400 <= status_code < 600] ("Client Error",
    "Server Error") and returns otherwise. *)
Definition raise_for_status (r : http_response) : result unit :=
  if (400 <=? status_code r) && (status_code r <? 600)
  then raise ReqHTTPError "Client Error or Server Error"
  else Ok tt.

Section with_services.
Context `{Builtins} `{Services}.

Definition record_call (c : call) (st : state) : state :=
  {| calls := calls st ++ [c]; draws := draws st; uuids := uuids st |}.

Definition http_get (r : pixabay_request) : M http_response := λ st,
  (requests_get (calls st) r, record_call (CallGet r) st).

Definition chat (r : chat_request) : M (option str) := λ st,
  (chat_completions_create (calls st) r, record_call (CallChat r) st).

Definition speech (r : speech_request) : M (list (list Byte.byte)) := λ st,
  (audio_speech_create (calls st) r, record_call (CallSpeech r) st).

Definition random : M float := λ st,
  (Ok (random_random (draws st)),
   {| calls := calls st; draws := S (draws st); uuids := uuids st |}).

Definition new_uuid : M str := λ st,
  (Ok (uuid4 (uuids st)),
   {| calls := calls st; draws := draws st; uuids := S (uuids st) |}).

(** ** The Pixabay searches *)

(** [x == 'literal'] *)
Definition eq_str (x : json) (literal : string) : bool := is_that_str (py literal) x.

Definition orientation_for (resolution_aspect_ratio : json) : string :=
  if eq_str resolution_aspect_ratio "9:16" then "vertical"
  else if eq_str resolution_aspect_ratio "16:9" then "horizontal"
  else if eq_str resolution_aspect_ratio "1:1" then "all"
  else "all".

(** The URL that a search fetches. *)
Definition search_request (videos : bool) (query : str)
    (resolution_aspect_ratio : json) : pixabay_request :=
  {| px_key := PIXABAY_API_KEY; px_videos := videos; px_query := query;
     px_orientation := orientation_for resolution_aspect_ratio;
     px_timeout := 10 |}.

(** [try: ... except requests.exceptions.RequestException: return None] *)
Definition except_RequestException (body : M json) : M json := λ st,
  match body st with
  | (Raise e, st') =>
      if is_RequestException e then (Ok JNull, st') else (Raise e, st')
  | r => r
  end.

(** The loop of [buscar_imagen_pixabay] over the hits still to visit;
    [best_image_url] is the value assigned so far. *)
Fixpoint best_image (hits : list json) (best_image_url : json) : result json :=
  match hits with
  | [] => Ok best_image_url
  | hit :: rest =>
      has_large ← contains "largeImageURL" hit;
      if has_large : bool then getitem hit "largeImageURL"
      else
        has_web ← contains "webformatURL" hit;
        if has_web : bool then
          url ← getitem hit "webformatURL";
          best_image rest url
        else best_image rest best_image_url
  end.

Definition buscar_imagen_pixabay (query : str) (resolution_aspect_ratio : json) : M json :=
  let url := search_request false query resolution_aspect_ratio in
  except_RequestException (
    response ← http_get url;
    lift (
      _ ← raise_for_status response;
      data ← response_json response;
      hits ← getitem data "hits";
      if truthy hits then
        hits ← iterate hits;
        best_image hits JNull
      else Ok JNull)).

(** The loop of [buscar_video_pixabay]. *)
Fixpoint best_video (hits : list json) : result json :=
  match hits with
  | [] => Ok JNull
  | hit :: rest =>
      has_videos ← contains "videos" hit;
      if has_videos : bool then
        videos ← getitem hit "videos";
        has_large ← contains "large" videos;
        if has_large : bool then
          large ← getitem videos "large";
          has_url ← contains "url" large;
          if has_url : bool then getitem large "url"
          else best_video rest
        else best_video rest
      else best_video rest
  end.

Definition buscar_video_pixabay (query : str) (resolution_aspect_ratio : json) : M json :=
  let url := search_request true query resolution_aspect_ratio in
  except_RequestException (
    response ← http_get url;
    lift (
      _ ← raise_for_status response;
      data ← response_json response;
      hits ← getitem data "hits";
      if truthy hits then
        hits ← iterate hits;
        best_video hits
      else Ok JNull)).

(** ** More built-ins used by the endpoints *)

(** [x[:k]] *)
Definition slice_to (k : nat) (x : json) : result json :=
  match x with
  | JArr l => Ok (JArr (take k l))
  | JStr s => Ok (JStr (take k s))
  | _ => raise TypeError "object is not subscriptable"
  end.

Fixpoint all_str (l : list json) : option (list str) :=
  match l with
  | [] => Some []
  | JStr s :: r => cons s <$> all_str r
  | _ :: _ => None
  end.

(** [sep.join(x)]: the items of [x] must all be [str]. *)
Definition join_json (sep : str) (x : json) : result str :=
  items ← iterate x;
  match all_str items with
  | Some words => Ok (join sep words)
  | None => raise TypeError "sequence item: expected str instance"
  end.

(** [d[key] = v] *)
Definition setitem (d : json) (key : string) (v : json) : result json :=
  match d with
  | JObj m => Ok (JObj (<[py key := v]> m))
  | _ => raise TypeError "object does not support item assignment"
  end.

(** [json.loads(content)] on the content of a completion. *)
Definition loads (content : option str) : result json :=
  match content with
  | Some s => json_loads s
  | None => raise TypeError "the JSON object must be str, bytes or bytearray, not NoneType"
  end.

(** [content.strip()] on the content of a completion. *)
Definition content_strip (content : option str) : result str :=
  match content with
  | Some s => Ok (strip s)
  | None => raise AttributeError "'NoneType' object has no attribute 'strip'"
  end.

(** [extract_keywords(text, n)] on any value: [text.lower()] needs a
    [str]. *)
Definition py_extract_keywords (text : json) (n : Z) : result (list str) :=
  match text with
  | JStr s => Ok (Keywords.extract_keywords s n)
  | _ => raise AttributeError "object has no attribute 'lower'"
  end.

(** [base64.b64encode(data).decode('utf-8')] *)
Definition b64_alphabet : str :=
  py "ABCDEFGHIJKLMNOPQRSTUVWXYZabcdefghijklmnopqrstuvwxyz0123456789+/".

Definition b64_digit (n : N) (shift : N) : char :=
  nth (N.to_nat (N.land (N.shiftr n shift) 63)) b64_alphabet 0%N.

Fixpoint b64encode (data : list Byte.byte) : str :=
  match data with
  | [] => []
  | [a] =>
      let n := (Byte.to_N a * 65536)%N in
      [b64_digit n 18; b64_digit n 12; 61%N; 61%N]
  | [a; b] =>
      let n := (Byte.to_N a * 65536 + Byte.to_N b * 256)%N in
      [b64_digit n 18; b64_digit n 12; b64_digit n 6; 61%N]
  | a :: b :: c :: rest =>
      let n := (Byte.to_N a * 65536 + Byte.to_N b * 256 + Byte.to_N c)%N in
      [b64_digit n 18; b64_digit n 12; b64_digit n 6; b64_digit n 0]
        ++ b64encode rest
  end.

(** ** The endpoints *)

Record response := {
  body : json;
  status : Z;
}.

Definition jsonify (fields : list (string * json)) : json :=
  JObj (list_to_map (prod_map py id <$> fields)).

(** [try: ... except Exception as e: return jsonify({"error": str(e)}), 500] *)
Definition handle (handler : M response) : state → response * state := λ st,
  match handler st with
  | (Ok r, st') => (r, st')
  | (Raise e, st') =>
      ({| body := jsonify [("error", JStr (exn_str e))]; status := 500 |}, st')
  end.

Fixpoint for_each {A B} (f : A → M B) (l : list A) : M (list B) :=
  match l with
  | [] => mret []
  | x :: r =>
      y ← f x;
      ys ← for_each f r;
      mret (y :: ys)
  end.

(** The literal [0.7]. *)
Definition float_0_7 : float := Dyadic 6305039478318694 (-53).

(** Lines 109-116, and again 214-221: the draw and the two searches.
    Returns [use_video] and [media_url]. *)
Definition draw_and_search (keywords : str) (resolucion : json) : M (bool * json) :=
  r ← random;
  let use_video := float_ltb r float_0_7 in
  media_url ← (if use_video then buscar_video_pixabay keywords resolucion
               else mret JNull);
  media_url ← (if negb (truthy media_url)
               then buscar_imagen_pixabay keywords resolucion
               else mret media_url);
  mret (use_video, media_url).

(** *** [/api/generate-initial-content] *)

Definition msg_guion_vacio : str :=
  py "El guion personalizado no puede estar vac" ++ [237%N] ++ py "o.".

(** The body of the loop over [scenes_from_gpt]. *)
Definition new_scene (resolucion : json) (scene : json) : M json :=
  kw ← lift (dict_get scene "keywords" (JArr []));
  kw ← lift (slice_to 3 kw);
  keywords ← lift (join_json (py " ") kw);
  '(use_video, media_url) ← draw_and_search keywords resolucion;
  scene_id ← lift (dict_get scene "id" JNull);
  scene_id ← (if truthy scene_id then mret scene_id
              else fresh ← new_uuid; mret (JStr fresh));
  script ← lift (dict_get scene "script" (JStr []));
  mret (jsonify [
    ("id", scene_id);
    ("script", script);
    ("imageUrl", if negb use_video then media_url else JNull);
    ("videoUrl", if use_video then media_url else JNull);
    ("audioBase64", JNull)]).

Definition generate_initial_content (data : json) : state → response * state :=
  handle (
    guion ← lift (dict_get data "guionPersonalizado" (JStr []));
    guion_personalizado ← lift (py_strip guion);
    duracion ← lift (dict_get data "duracion" JNull);
    duracion_video_seg ← lift (py_int duracion);
    resolucion ← lift (dict_get data "resolucion" JNull);
    nicho ← lift (dict_get data "nicho" JNull);
    idioma ← lift (dict_get data "idioma" JNull);
    if negb (truthy (JStr guion_personalizado)) then
      mret {| body := jsonify [("error", JStr msg_guion_vacio)]; status := 400 |}
    else
      num_escenas ← lift (num_escenas_esperadas duracion_video_seg);
      content ← chat {|
        chat_model := "gpt-4-turbo";
        chat_json_object := true;
        chat_messages :=
          [("system", PromptDivision num_escenas nicho idioma guion_personalizado);
           ("user", Text guion_personalizado)] |};
      parsed ← lift (loads content);
      scenes_from_gpt ← lift (dict_get parsed "scenes" (JArr []));
      scenes ← lift (iterate scenes_from_gpt);
      final_scenes_data ← for_each (new_scene resolucion) scenes;
      mret {| body := jsonify [("scenes", JArr final_scenes_data)]; status := 200 |}).

(** *** [/api/generate-audio] *)

(** The body of the loop over [scenes]. *)
Definition with_audio (voice : json) (scene : json) : M json :=
  script ← lift (dict_get scene "script" JNull);
  audio ← lift (if truthy script then dict_get scene "audioBase64" JNull
                else Ok JNull);
  if truthy script && negb (truthy audio) then
    input ← lift (getitem scene "script");
    chunks ← speech {| speech_model := "tts-1"; speech_voice := voice;
                       speech_input := input |};
    let audio_base64 := b64encode (concat chunks) in
    lift (setitem scene "audioBase64" (JStr audio_base64))
  else mret scene.

Definition generate_audio (data : json) : state → response * state :=
  handle (
    scenes ← lift (dict_get data "scenes" (JArr []));
    voice ← lift (dict_get data "voice" (JStr (py "nova")));
    scenes ← lift (iterate scenes);
    updated_scenes ← for_each (with_audio voice) scenes;
    mret {| body := jsonify [("scenes", JArr updated_scenes)]; status := 200 |}).

(** *** [/api/regenerate-scene-part] *)

Definition msg_faltan_datos : str :=
  py "Faltan datos en la petici" ++ [243%N] ++ py "n".

Definition msg_parte_no_valida : str :=
  py "Parte a regenerar no v" ++ [225%N] ++ py "lida".

Definition tonos : gmap str str :=
  list_to_map [
    (py "misterio", py "enigm" ++ [225%N] ++ py "tico y que genere suspenso");
    (py "finanzas", py "profesional, claro y confiable");
    (py "tecnologia", py "innovador, futurista y f" ++ [225%N] ++ py "cil de entender");
    (py "documentales", py "informativo, objetivo y narrativo");
    (py "anime", py "entusiasta y conocedor, como un verdadero fan");
    (py "biblia", py "respetuoso, solemne e inspirador");
    (py "extraterrestres", py "misterioso, especulativo y abierto a teor" ++ [237%N] ++ py "as");
    (py "tendencias", py "moderno, en" ++ [233%N] ++ py "rgico y llamativo");
    (py "politica", py "objetivo, anal" ++ [237%N] ++ py "tico y equilibrado")].

(** [tonos.get(nicho, "neutral y atractivo")]: a list or a dict is not
    hashable. *)
Definition definir_tono_por_nicho (nicho : json) : result str :=
  match nicho with
  | JStr s => Ok (default (py "neutral y atractivo") (tonos !! s))
  | JArr _ | JObj _ => raise TypeError "unhashable type"
  | _ => Ok (py "neutral y atractivo")
  end.

Definition regenerate_script (scene config : json) : M response :=
  text ← lift (dict_get scene "script" (JStr []));
  keywords_from_script ← lift (py_extract_keywords text 3);
  let keyword_str := join (py ", ") keywords_from_script in
  tema ← lift (dict_get config "tema" JNull);
  let tema := if truthy tema then tema else JStr (py "un tema relevante") in
  nicho ← lift (dict_get config "nicho" JNull);
  tono ← lift (definir_tono_por_nicho nicho);
  idioma ← lift (dict_get config "idioma" JNull);
  guion_antiguo ← lift (dict_get scene "script" JNull);
  content ← chat {|
    chat_model := "gpt-4-turbo";
    chat_json_object := false;
    chat_messages :=
      [("system", PromptReescribir tema nicho tono idioma keyword_str guion_antiguo)] |};
  new_script ← lift (content_strip content);
  mret {| body := jsonify [("newScript", JStr new_script)]; status := 200 |}.

Definition regenerate_media (scene config : json) : M response :=
  resolucion ← lift (dict_get config "resolucion" JNull);
  text ← lift (dict_get scene "script" (JStr []));
  keywords_for_search ← lift (py_extract_keywords text 3);
  let keyword_str := join (py " ") keywords_for_search in
  '(use_video, media_url) ← draw_and_search keyword_str resolucion;
  if use_video : bool then
    mret {| body := jsonify [("newVideoUrl", media_url); ("newImageUrl", JNull)];
            status := 200 |}
  else
    mret {| body := jsonify [("newImageUrl", media_url); ("newVideoUrl", JNull)];
            status := 200 |}.

Definition regenerate_audio (data scene : json) : M response :=
  voice ← lift (dict_get data "voice" (JStr (py "nova")));
  input ← lift (dict_get scene "script" JNull);
  chunks ← speech {| speech_model := "tts-1"; speech_voice := voice;
                     speech_input := input |};
  let audio_base64 := b64encode (concat chunks) in
  mret {| body := jsonify [("newAudioBase64", JStr audio_base64)]; status := 200 |}.

Definition regenerate_scene_part (data : json) : state → response * state :=
  handle (
    part_to_regenerate ← lift (dict_get data "part" JNull);
    scene ← lift (dict_get data "scene" JNull);
    config ← lift (dict_get data "config" JNull);
    if negb (truthy part_to_regenerate && truthy scene && truthy config) then
      mret {| body := jsonify [("error", JStr msg_faltan_datos)]; status := 400 |}
    else if eq_str part_to_regenerate "script" then regenerate_script scene config
    else if eq_str part_to_regenerate "media" then regenerate_media scene config
    else if eq_str part_to_regenerate "audio" then regenerate_audio data scene
    else
      mret {| body := jsonify [("error", JStr msg_parte_no_valida)]; status := 400 |}).

(** *** [/api/generate-seo] *)

Definition msg_guion_y_nicho : str :=
  py "Guion y nicho son requeridos para generar SEO".

(** One of the three blocks: a completion for [prompt], stored under
    [key]. *)
Definition seo_field (key : string) (p : prompt) (seo_data : gmap str json)
  : M (gmap str json) :=
  content ← chat {| chat_model := "gpt-4-turbo"; chat_json_object := false;
                    chat_messages := [("system", p)] |};
  text ← lift (content_strip content);
  mret (<[py key := JStr text]> seo_data).

Definition generate_seo (data : json) : state → response * state :=
  handle (
    guion ← lift (dict_get data "guion" JNull);
    nicho ← lift (dict_get data "nicho" JNull);
    seo_type ← lift (dict_get data "type" (JStr (py "all")));
    if negb (truthy guion) || negb (truthy nicho) then
      mret {| body := jsonify [("error", JStr msg_guion_y_nicho)]; status := 400 |}
    else
      let seo_data : gmap str json := ∅ in
      seo_data ← (if eq_str seo_type "all" || eq_str seo_type "titulo" then
                    guion_200 ← lift (slice_to 200 guion);
                    seo_field "titulo" (PromptTitulo nicho guion_200) seo_data
                  else mret seo_data);
      seo_data ← (if eq_str seo_type "all" || eq_str seo_type "descripcion" then
                    seo_field "descripcion" (PromptDescripcion nicho guion) seo_data
                  else mret seo_data);
      seo_data ← (if eq_str seo_type "all" || eq_str seo_type "hashtags" then
                    guion_200 ← lift (slice_to 200 guion);
                    seo_field "hashtags" (PromptHashtags nicho guion_200) seo_data
                  else mret seo_data);
      mret {| body := JObj seo_data; status := 200 |}).

End with_services.

(** ** Scripted collaborators, for the examples

    The n-th search, completion or synthesis is answered by the n-th
    entry of a list; past the end of its list a collaborator fails. *)

Definition is_get (c : call) : bool := match c with CallGet _ => true | _ => false end.
Definition is_chat (c : call) : bool := match c with CallChat _ => true | _ => false end.
Definition is_speech (c : call) : bool := match c with CallSpeech _ => true | _ => false end.

Definition how_many (kind : call → bool) (history : list call) : nat :=
  length (filter (λ c, Is_true (kind c)) history).

Definition scripted_services
    (gets : list (result http_response))
    (chats : list (result (option str)))
    (speeches : list (result (list (list Byte.byte))))
    (randoms : list float) : Services := {|
  PIXABAY_API_KEY := Some (py "pixabay-key");
  requests_get history _ :=
    nth (how_many is_get history) gets (raise ReqTimeout "Read timed out.");
  chat_completions_create history _ :=
    nth (how_many is_chat history) chats (raise OpenAIError "Connection error.");
  audio_speech_create history _ :=
    nth (how_many is_speech history) speeches (raise OpenAIError "Connection error.");
  random_random n := nth n randoms (Dyadic 0 0);
  uuid4 _ := py "00000000-0000-4000-8000-000000000000";
|}.

(** Built-ins whose [json.loads] returns [parsed] whatever the text. *)
Definition scripted_builtins (parsed : result json) : Builtins := {|
  str_lower := fmap ascii_lower_char;
  char_isalnum := ascii_isalnum;
  int_of_str := ascii_int_of_str;
  json_loads := λ _, parsed;
|}.

Definition obj (fields : list (string * json)) : json := jsonify fields.
Definition jstr (text : string) : json := JStr (py text).

(** A search response with status 200 and the given hits. *)
Definition hits_response (hits : list json) : result http_response :=
  Ok {| status_code := 200; response_json := Ok (obj [("hits", JArr hits)]) |}.

Definition initial_state : state := {| calls := []; draws := 0; uuids := 0 |}.

(** Two values that [random.random()] can return, next to 0.1 and
    equal to 0.9. *)
Definition float_0_1 : float := Dyadic 900719925474099 (-53).
Definition float_0_9 : float := Dyadic 8106479329266893 (-53).

(** ** The statements under study, as predicates *)

(** A keyword that passes the filter of [extract_keywords]. *)
Definition acceptable (w : str) : Prop :=
  (3 ≤ length w)%nat ∧ w ∉ Keywords.stopwords.

(** "No returned token is shorter than 3 characters or a stopword, and
    at most [n] tokens are returned." *)
Definition keywords_all_filtered `{Builtins} (text : str) (n : Z) : Prop :=
  Forall acceptable (Keywords.extract_keywords text n) ∧
  Z.of_nat (length (Keywords.extract_keywords text n)) ≤ n.

(** "max(1, round(duration / 7))", on the exact quotient.  No integer
    is half-way between two multiples of 7, so the rule for ties plays
    no part. *)
Definition target_scene_count (duration : Z) : Z :=
  Z.max 1 (round_half_even duration 7).

(** "The first hit's [largeImageURL], falling back to that same hit's
    [webformatURL]; none only when no hit carries either field": the
    URL of the first hit that carries one of the two fields. *)
Fixpoint first_usable_image (hits : list (gmap str json)) : json :=
  match hits with
  | [] => JNull
  | hit :: rest =>
      match hit !! py "largeImageURL", hit !! py "webformatURL" with
      | Some url, _ => url
      | None, Some url => url
      | None, None => first_usable_image rest
      end
  end.

(** A provider error: [requests.get] raises a [RequestException]
    (connection error, timeout), or the status is one that
    [raise_for_status] rejects. *)
Definition provider_error (reply : result http_response) : Prop :=
  (∃ e, reply = Raise e ∧ is_RequestException e = true) ∨
  (∃ r, reply = Ok r ∧ 400 ≤ status_code r < 600).

(** A successful reply whose list of hits is empty. *)
Definition zero_hits (reply : result http_response) : Prop :=
  ∃ r m, reply = Ok r ∧ ¬ (400 ≤ status_code r < 600) ∧
         response_json r = Ok (JObj m) ∧ m !! py "hits" = Some (JArr []).

(** [return None] for the exceptions that the searches catch. *)
Definition caught (r : result json) : result json :=
  match r with
  | Raise e => if is_RequestException e then Ok JNull else Raise e
  | Ok v => Ok v
  end.

(** What the image search takes from a list of hits: the
    [largeImageURL] of the first hit that has one; without any, the
    [webformatURL] of a hit that has one; without any of these, none. *)
Definition image_choice (hits : list (gmap str json)) (url : json) : Prop :=
  (∀ i hit u,
     hits !! i = Some hit → hit !! py "largeImageURL" = Some u →
     (∀ j h, (j < i)%nat → hits !! j = Some h → h !! py "largeImageURL" = None) →
     url = u) ∧
  ((∀ hit, hit ∈ hits → hit !! py "largeImageURL" = None) →
   (∃ hit, hit ∈ hits ∧ hit !! py "webformatURL" = Some url) ∨
   ((∀ hit, hit ∈ hits → hit !! py "webformatURL" = None) ∧ url = JNull)).

(** Two hits: the first with a [webformatURL] only, the second with a
    [largeImageURL]. *)
Definition web_then_large : list (gmap str json) :=
  [ {[ py "webformatURL" := jstr "https://pixabay.com/get/first_640.jpg" ]};
    {[ py "largeImageURL" := jstr "https://pixabay.com/get/second_1280.jpg" ]} ].

Definition web_then_large_services : Services :=
  scripted_services [hits_response (JObj <$> web_then_large)] [] [] [].

(** The scenes of a response of [generate_initial_content] or
    [generate_audio]; none in an error response. *)
Definition response_scenes (r : response) : list json :=
  match body r with
  | JObj m =>
      match m !! py "scenes" with
      | Some (JArr scenes) => scenes
      | _ => []
      end
  | _ => []
  end.

(** An object that has both media fields, at least one of them
    [null]. *)
Definition media_exclusive (image_key video_key : string) (o : json) : Prop :=
  ∃ m, o = JObj m ∧
       is_Some (m !! py image_key) ∧ is_Some (m !! py video_key) ∧
       (m !! py image_key = Some JNull ∨ m !! py video_key = Some JNull).

(** The scene that [generate_initial_content] appends. *)
Definition scene_record (scene_id script : json) (use_video : bool)
    (media_url : json) : json :=
  jsonify [
    ("id", scene_id);
    ("script", script);
    ("imageUrl", if negb use_video then media_url else JNull);
    ("videoUrl", if use_video then media_url else JNull);
    ("audioBase64", JNull)].

(** Every reply of the provider is an error or an empty list of hits. *)
Definition provider_gives_nothing `{Services} : Prop :=
  ∀ history url,
    provider_error (requests_get history url) ∨
    zero_hits (requests_get history url).

(** The response of a media regeneration that found nothing. *)
Definition no_media_response : response :=
  {| body := jsonify [("newVideoUrl", JNull); ("newImageUrl", JNull)];
     status := 200 |}.

(** A provider that answers 503, then an empty list of hits, then
    times out. *)
Definition failing_services : Services :=
  scripted_services
    [Ok {| status_code := 503;
           response_json := raise ReqInvalidJSON "Expecting value" |};
     hits_response []]
    [Ok (Some (py "{ ... }"))] [] [float_0_1; float_0_9].

(** A provider that answers 300 (Multiple Choices) with a body that
    lists one hit. *)
Definition found_response : http_response :=
  {| status_code := 300;
     response_json :=
       Ok (obj [("hits", JArr [obj [
         ("largeImageURL", jstr "https://pixabay.com/get/cat_1280.jpg");
         ("videos", obj [("large", obj [
            ("url", jstr "https://cdn.pixabay.com/video/cat_large.mp4")])])]])]) |}.

Definition multiple_choices_services : Services :=
  scripted_services [Ok found_response; Ok found_response] [] [] [].

(** A request to regenerate the media of a scene. *)
Definition regenerate_media_request : json :=
  obj [("part", jstr "media");
       ("scene", obj [("id", jstr "escena-1"); ("script", jstr "Un gato duerme al sol.")]);
       ("config", obj [("resolucion", jstr "9:16"); ("nicho", jstr "tendencias")])].

(** An error response: the given status and a body with an [error]
    field. *)
Definition is_error_response (code : Z) (r : response) : Prop :=
  status r = code ∧ ∃ msg, body r = jsonify [("error", JStr msg)].

(** A request with an empty script and no duration. *)
Definition request_without_duracion : json :=
  obj [("guionPersonalizado", jstr ""); ("resolucion", jstr "16:9")].

(** A request with a blank script and a duration that is no number. *)
Definition request_with_bad_duracion : json :=
  obj [("guionPersonalizado", jstr "   "); ("duracion", jstr "siete")].

(** A request with a blank script and a duration of 30 seconds. *)
Definition request_with_blank_script : json :=
  obj [("guionPersonalizado", jstr "  "); ("duracion", JInt 30)].

(** The keys of the SEO mapping. *)
Definition all_seo_fields : gset str :=
  {[ py "titulo"; py "descripcion"; py "hashtags" ]}.

(** "The returned mapping contains exactly the requested fields", for
    a request [request] and a returned mapping [seo_data]. *)
Definition exactly_requested (request seo_data : gmap str json) : Prop :=
  (request !! py "type" = Some (jstr "titulo") →
   dom seo_data = {[ py "titulo" ]}) ∧
  (request !! py "type" = Some (jstr "descripcion") →
   dom seo_data = {[ py "descripcion" ]}) ∧
  (request !! py "type" = Some (jstr "hashtags") →
   dom seo_data = {[ py "hashtags" ]}) ∧
  (request !! py "type" = None ∨ request !! py "type" = Some (jstr "all") →
   dom seo_data = all_seo_fields).

(** A generative service that answers three completions. *)
Definition seo_services : Services :=
  scripted_services []
    [Ok (Some (py "  Lo que nadie te dijo del ahorro "));
     Ok (Some (py "Aprende a ahorrar. Suscribete."));
     Ok (Some (py "#finanzas #ahorro"))]
    [] [].

Definition seo_request (seo_type : string) : gmap str json :=
  list_to_map [(py "guion", jstr "Ahorrar es un habito.");
               (py "nicho", jstr "finanzas");
               (py "type", jstr seo_type)].






(** A speech service that answers three bytes, then one. *)
Definition audible_services : Services :=
  scripted_services [] []
    [Ok [[Byte.x4d; Byte.x61]; [Byte.x6e]]; Ok [[Byte.x01]]] [].

Definition hola_scene (audio : list (string * json)) : json :=
  obj ([("id", jstr "escena-1"); ("script", jstr "Hola")] ++ audio).

Definition audio_request : gmap str json :=
  list_to_map [(py "scenes", JArr [hola_scene []; hola_scene [("audioBase64", jstr "AAAA")]]);
               (py "voice", jstr "alloy")].

Definition regenerate_audio_request : gmap str json :=
  list_to_map [(py "part", jstr "audio");
               (py "scene", hola_scene [("audioBase64", jstr "AAAA")]);
               (py "config", obj [("nicho", jstr "tendencias")])].

(** A request for the scenes of a short script, and the answer of the
    generative service once parsed: one scene. *)
Definition request_gato : json :=
  obj [("guionPersonalizado", jstr "Un gato duerme al sol.");
       ("duracion", JInt 7); ("resolucion", jstr "9:16");
       ("nicho", jstr "tendencias"); ("idioma", jstr "es")].

Definition parsed_gato : json :=
  obj [("scenes", JArr [
    obj [("script", jstr "Un gato duerme al sol.");
         ("keywords", JArr [jstr "gato"; jstr "sol"])]])].

(** The draw is 0.1, the video search finds no hit and the image
    search finds one. *)
Definition image_only_services : Services :=
  scripted_services
    [hits_response [];
     hits_response [obj [("largeImageURL", jstr "https://pixabay.com/get/cat_1280.jpg")]]]
    [Ok (Some (py "{ ... }"))] [] [float_0_1].

(** A scene of the generative service whose keywords, when present,
    are a list of strings. *)
Definition has_keyword_list (scene : json) : Prop :=
  ∃ (m : gmap str json) (keywords : list str),
    scene = JObj m ∧
    default (JArr []) (m !! py "keywords") = JArr (JStr <$> keywords).

(** A scene built without media. *)
Definition without_media (o : json) : Prop :=
  ∃ scene_id script use_video, o = scene_record scene_id script use_video JNull.

(** ** Further statements *)

(** The number of occurrences of [w] among [words]. *)
Definition occurrences (w : str) (words : list str) : nat :=
  length (filter (λ x, x = w) words).

(** The URL that the video search takes from a hit: [videos.large.url],
    through objects. *)
Definition video_url (hit : gmap str json) : option json :=
  match hit !! py "videos" with
  | Some (JObj videos) =>
      match videos !! py "large" with
      | Some (JObj large) => large !! py "url"
      | _ => None
      end
  | _ => None
  end.

(** A video hit as the provider documents it: [videos], when present,
    is an object, and so is its [large] member. *)
Definition video_hit_shaped (hit : gmap str json) : Prop :=
  ∀ v, hit !! py "videos" = Some v →
    ∃ videos, v = JObj videos ∧
      ∀ l, videos !! py "large" = Some l → ∃ large : gmap str json, l = JObj large.

(** Every reply is a success whose JSON object has no [hits] member. *)
Definition provider_omits_hits `{Services} : Prop :=
  ∀ history url, ∃ r (data : gmap str json),
    requests_get history url = Ok r ∧ ¬ (400 ≤ status_code r < 600) ∧
    response_json r = Ok (JObj data) ∧ data !! py "hits" = None.

(** A provider whose first hit has no large video and whose second
    has one. *)
Definition two_video_hits : list (gmap str json) :=
  [ {[ py "videos" := obj [("small", obj [("url", jstr "https://cdn.pixabay.com/video/a_small.mp4")])] ]};
    {[ py "videos" := obj [("large", obj [("url", jstr "https://cdn.pixabay.com/video/b_large.mp4")])] ]} ].

Definition two_video_hits_services : Services :=
  scripted_services [hits_response (JObj <$> two_video_hits)] [] [] [].

(** A provider that answers 200 with an object without [hits]. *)
Definition no_hits_member_services : Services := {|
  PIXABAY_API_KEY := Some (py "pixabay-key");
  requests_get _ _ :=
    Ok {| status_code := 200;
          response_json := Ok (obj [("error", jstr "rate limit")]) |};
  chat_completions_create _ _ := raise OpenAIError "Connection error.";
  audio_speech_create _ _ := raise OpenAIError "Connection error.";
  random_random _ := float_0_1;
  uuid4 _ := py "00000000-0000-4000-8000-000000000000";
|}.

(** The calls that one media selection may make. *)
Definition selection_calls `{Services} (query : str) (res : json) : list (list call) :=
  [ [CallGet (search_request false query res)];
    [CallGet (search_request true query res)];
    [CallGet (search_request true query res);
     CallGet (search_request false query res)] ].

(** The test of line 148: the scene has a script and no audio yet. *)
Definition needs_audio (scene : json) : bool :=
  match scene with
  | JObj m =>
      truthy (default JNull (m !! py "script"))
      && negb (truthy (default JNull (m !! py "audioBase64")))
  | _ => false
  end.

(** The synthesis that the batch requests for a scene. *)
Definition scene_speech (voice scene : json) : speech_request :=
  {| speech_model := "tts-1";
     speech_voice := voice;
     speech_input :=
       match scene with
       | JObj m => default JNull (m !! py "script")
       | _ => JNull
       end |}.

(** [out] is [scene], or [scene] with a string put under
    [audioBase64]. *)
Definition only_audio_differs (scene out : json) : Prop :=
  ∃ m, scene = JObj m ∧
       (out = scene ∨
        ∃ payload, out = JObj (<[py "audioBase64" := JStr payload]> m)).

(** A speech service that answers one byte, then fails. *)
Definition audible_then_failing_services : Services :=
  scripted_services [] [] [Ok [[Byte.x01]]] [].

Definition two_scenes_request : gmap str json :=
  list_to_map [(py "scenes", JArr [hola_scene []; hola_scene []])].

(** The test of line 185: [all([part_to_regenerate, scene, config])]. *)
Definition has_all_parts (data : gmap str json) : bool :=
  truthy (default JNull (data !! py "part"))
  && truthy (default JNull (data !! py "scene"))
  && truthy (default JNull (data !! py "config")).

(** The part is one that lines 188, 209 and 228 recognise. *)
Definition known_part (data : gmap str json) : bool :=
  let part := default JNull (data !! py "part") in
  eq_str part "script" || eq_str part "media" || eq_str part "audio".

(** The 400 of [regenerate_scene_part]: the message of line 186 when
    something is missing, that of line 244 otherwise. *)
Definition rejection (data : gmap str json) : response :=
  {| body := jsonify [("error",
                JStr (if has_all_parts data then msg_parte_no_valida
                      else msg_faltan_datos))];
     status := 400 |}.

(** The test of line 263: both [guion] and [nicho] are there. *)
Definition has_guion_and_nicho (data : gmap str json) : bool :=
  truthy (default JNull (data !! py "guion"))
  && truthy (default JNull (data !! py "nicho")).

(** The type is one that lines 267, 279 and 292 recognise. *)
Definition known_seo_type (data : gmap str json) : bool :=
  let seo_type := default (jstr "all") (data !! py "type") in
  eq_str seo_type "all" || eq_str seo_type "titulo"
  || eq_str seo_type "descripcion" || eq_str seo_type "hashtags".

(** A string that neither starts nor ends with white space. *)
Definition trimmed (s : str) : Prop :=
  (∀ c, head s = Some c → isspace c = false) ∧
  (∀ c, last s = Some c → isspace c = false).

(** What every endpoint answers: 200, or 400 or 500 with a body that
    is an object with the one field [error], a string. *)
Definition answers_as_documented (r : response) : Prop :=
  status r = 200 ∨ is_error_response 400 r ∨ is_error_response 500 r.

(** A request for the SEO of a kind that the code does not know. *)
Definition seo_request_resumen : gmap str json := seo_request "resumen".

(** A request to regenerate the thumbnail, which is no part of a
    scene. *)
Definition regenerate_thumbnail_request : gmap str json :=
  list_to_map [(py "part", jstr "thumbnail");
               (py "scene", obj [("script", jstr "Hola")]);
               (py "config", obj [("nicho", jstr "anime")])].

(** One [if] block of [generate_seo], from the mapping and state
    before it to those after it: a completion, trimmed and stored under
    [key] after one call, or nothing at all. *)
Definition seo_step `{Services} (c : bool) (key : string)
    (d d' : gmap str json) (st st' : state) : Prop :=
  if c then
    ∃ content q, d' = <[py key := JStr (strip content)]> d ∧
                 st' = {| calls := calls st ++ [CallChat q];
                          draws := draws st; uuids := uuids st |}
  else d' = d ∧ st' = st.

(** The completion request of [generate_initial_content]. *)
Definition division_request (num_escenas : Z) (nicho idioma : json)
    (guion_personalizado : str) : chat_request :=
  {| chat_model := "gpt-4-turbo";
     chat_json_object := true;
     chat_messages :=
       [("system", PromptDivision num_escenas nicho idioma guion_personalizado);
        ("user", Text guion_personalizado)] |}.

(** The scene [out] that [generate_initial_content] makes of a scene
    of the generative service: the same script (empty when there is
    none), the same [id] when it has one and a string otherwise, no
    audio. *)
Definition scene_from (scene out : json) : Prop :=
  ∃ (m : gmap str json) scene_id use_video media_url,
    scene = JObj m ∧
    out = scene_record scene_id (default (JStr []) (m !! py "script"))
            use_video media_url ∧
    (if truthy (default JNull (m !! py "id"))
     then scene_id = default JNull (m !! py "id")
     else ∃ fresh, scene_id = JStr fresh).

(** A generative service that is down. *)
Definition chat_down_services : Services := scripted_services [] [] [] [].

(** A request to rewrite a script whose [nicho] is a list. *)
Definition regenerate_script_request_with_list : gmap str json :=
  list_to_map [(py "part", jstr "script");
               (py "scene", obj [("script", jstr "Un gato duerme al sol.")]);
               (py "config", obj [("nicho", JArr [jstr "anime"; jstr "biblia"])])].

(** A request to rewrite a script. *)
Definition regenerate_script_request : gmap str json :=
  list_to_map [(py "part", jstr "script");
               (py "scene", obj [("script", jstr "Un gato duerme al sol.")]);
               (py "config", obj [("nicho", jstr "anime"); ("idioma", jstr "es")])].

(** A generative service that answers a script between blanks. *)
Definition rewriting_services : Services :=
  scripted_services [] [Ok (Some (py "  El gato suena.  "))] [] [].

(** The scene has a non-empty script. *)
Definition has_script (scene : json) : bool :=
  match scene with
  | JObj m => truthy (default JNull (m !! py "script"))
  | _ => false
  end.

(** Services for a whole run: one completion, a video search without
    hits, an image search with one, and one synthesis. *)
Definition pipeline_services : Services :=
  scripted_services
    [hits_response [];
     hits_response [obj [("largeImageURL", jstr "https://pixabay.com/get/cat_1280.jpg")]]]
    [Ok (Some (py "{ ... }"))] [Ok [[Byte.x01]]] [float_0_1].

(** The batch request made of the scenes that the first endpoint
    answered to [request_gato]. *)
Definition audio_request_after_gato : gmap str json :=
  {[ py "scenes" :=
       JArr (response_scenes
               (@generate_initial_content (scripted_builtins (Ok parsed_gato))
                  pipeline_services request_gato initial_state).1) ]}.

(** A request for the SEO of a script, of the given kind. *)
Definition seo_request_for (guion : str) (seo_type : json)
    (data : gmap str json) : gmap str json :=
  <[py "guion" := JStr guion]> (<[py "type" := seo_type]> data).

(** Two scripts that differ after their first 200 characters. *)
Definition long_script (ending : string) : str :=
  replicate 200 97%N ++ py ending.

(** * Properties *)

(** ** Keyword extractor *)

Section keyword_facts.
Context `{Builtins}.
Import Keywords.

Lemma counter_add_keys w c k :
  k ∈ (counter_add w c).*1 → k = w ∨ k ∈ c.*1.
Proof.
  induction c as [|[k' n] c IH]; simpl.
  - intros Hk. apply list_elem_of_singleton in Hk. by left.
  - case_bool_decide; simpl; rewrite !elem_of_cons; intros [->|Hk]; auto.
    destruct (IH Hk); auto.
Qed.

Lemma counter_add_nonempty w c : counter_add w c ≠ [].
Proof. destruct c as [|[k n] c]; simpl; [done|]. by case_bool_decide. Qed.

Lemma foldl_counter_add_keys ws c k :
  k ∈ (foldl (λ c w, counter_add w c) c ws).*1 → k ∈ c.*1 ∨ k ∈ ws.
Proof.
  revert c. induction ws as [|w ws IH]; simpl; intros c Hk; [by left|].
  destruct (IH _ Hk) as [Hc|Hws].
  - destruct (counter_add_keys _ _ _ Hc) as [->|Hc']; [right; left|by left].
  - right. by right.
Qed.

Lemma Counter_keys ws k : k ∈ (Counter ws).*1 → k ∈ ws.
Proof.
  intros Hk. destruct (foldl_counter_add_keys _ _ _ Hk) as [Hnil|Hws]; [|done].
  by apply elem_of_nil in Hnil.
Qed.

Lemma foldl_counter_add_nonempty ws c :
  c ≠ [] → foldl (λ c w, counter_add w c) c ws ≠ [].
Proof.
  revert c. induction ws as [|w ws IH]; simpl; [done|].
  intros c _. apply IH, counter_add_nonempty.
Qed.

Lemma Counter_nonempty ws : ws ≠ [] → Counter ws ≠ [].
Proof.
  destruct ws as [|w ws]; [done|]. intros _.
  change (Counter (w :: ws)) with (foldl (λ c w, counter_add w c) (counter_add w []) ws).
  apply foldl_counter_add_nonempty, counter_add_nonempty.
Qed.

Lemma insert_by_count_perm x l : insert_by_count x l ≡ₚ x :: l.
Proof.
  induction l as [|y l IH]; simpl; [done|].
  case_match; [|done]. rewrite IH. apply Permutation_swap.
Qed.

Lemma sorted_by_count_perm c : sorted_by_count c ≡ₚ c.
Proof.
  induction c as [|x c IH]; simpl; [done|].
  by rewrite insert_by_count_perm, IH.
Qed.

(** The entries come out by decreasing count. *)
Lemma insert_by_count_sorted x l :
  Sorted (λ a b, (b.2 ≤ a.2)%nat) l →
  Sorted (λ a b, (b.2 ≤ a.2)%nat) (insert_by_count x l).
Proof.
  induction 1 as [|y l Hs IH Hhd]; simpl.
  - by repeat constructor.
  - destruct (Nat.ltb_spec x.2 y.2) as [Hlt|Hge].
    + constructor; [done|].
      destruct Hhd as [|z l Hz]; simpl in *.
      * constructor. lia.
      * case_match; constructor; [done|lia].
    + constructor; [by constructor|constructor; lia].
Qed.

Lemma sorted_by_count_sorted c :
  Sorted (λ a b, (b.2 ≤ a.2)%nat) (sorted_by_count c).
Proof.
  induction c as [|x c IH]; simpl; [constructor|].
  by apply insert_by_count_sorted.
Qed.

Lemma most_common_keys n ws k :
  k ∈ (most_common n (Counter ws)).*1 → k ∈ ws.
Proof.
  unfold most_common. intros Hk. apply Counter_keys.
  apply list_elem_of_fmap in Hk as (e & -> & He).
  apply list_elem_of_fmap. exists e. split; [done|].
  rewrite <- (sorted_by_count_perm (Counter ws)).
  apply elem_of_take in He as (i & Hi & _).
  by eapply list_elem_of_lookup_2.
Qed.

Lemma filtered_words_keeps text w :
  w ∈ filtered_words text → acceptable w.
Proof.
  unfold filtered_words. intros Hw.
  apply list_elem_of_filter in Hw as [Hkeep _].
  unfold keeps in Hkeep. apply andb_prop_elim in Hkeep as [Hstop Hlen].
  apply bool_decide_unpack in Hstop, Hlen. split; [lia|done].
Qed.

Lemma extract_keywords_fallback text n :
  n ≤ 0 ∨ filtered_words text = [] →
  extract_keywords text n = [first_piece text].
Proof.
  unfold extract_keywords, most_common. intros [Hn|Hnone].
  - replace (Z.to_nat n) with 0%nat by lia. done.
  - rewrite Hnone. by destruct (Z.to_nat n).
Qed.

Lemma extract_keywords_most_common text n :
  1 ≤ n → filtered_words text ≠ [] →
  extract_keywords text n = (most_common n (Counter (filtered_words text))).*1
  ∧ extract_keywords text n ≠ [].
Proof.
  intros Hn Hsome. unfold extract_keywords.
  pose proof (Counter_nonempty _ Hsome) as Hc.
  assert (sorted_by_count (Counter (filtered_words text)) ≠ []) as Hs.
  { intros Hnil. apply Hc, Permutation_nil_r.
    by rewrite <- Hnil, sorted_by_count_perm. }
  unfold most_common.
  destruct (sorted_by_count (Counter (filtered_words text))) as [|e l]; [done|].
  destruct (Z.to_nat n) as [|k] eqn:Hk; [lia|]. done.
Qed.

(** C3, as the code has it: with a positive [n] and a token that
    survives the filter, every returned token has at least 3 characters
    and is no stopword, and at most [n] are returned; otherwise the
    result is the fallback, the text up to its first space, alone. *)
Theorem extract_keywords_filtered_or_fallback text n :
  Z.of_nat (length (extract_keywords text n)) ≤ Z.max 1 n ∧
  ((1 ≤ n ∧ filtered_words text ≠ [] ∧ Forall acceptable (extract_keywords text n)
    ∧ Z.of_nat (length (extract_keywords text n)) ≤ n)
   ∨ ((n ≤ 0 ∨ filtered_words text = []) ∧
      extract_keywords text n = [first_piece text])).
Proof.
  destruct (decide (1 ≤ n ∧ filtered_words text ≠ [])) as [[Hn Hsome]|Hno].
  - destruct (extract_keywords_most_common text n Hn Hsome) as [Heq _].
    assert (Z.of_nat (length (extract_keywords text n)) ≤ n) as Hlen.
    { rewrite Heq. unfold most_common. rewrite length_fmap, length_take. lia. }
    split; [lia|]. left. repeat split; [done..| |done].
    rewrite Heq. apply Forall_forall. intros w Hw.
    eapply filtered_words_keeps, most_common_keys, Hw.
  - assert (n ≤ 0 ∨ filtered_words text = []) as Hfb.
    { destruct (decide (1 ≤ n)); [|left; lia].
      right. destruct (filtered_words text); [done|]. destruct Hno. done. }
    rewrite (extract_keywords_fallback _ _ Hfb). simpl. split; [lia|].
    by right.
Qed.

End keyword_facts.

(** The fallback breaks the filter: the text "el" comes back although
    it is a stopword of 2 characters; and with [n = 0] one token comes
    back. *)
Lemma keywords_all_filtered_fails :
  ¬ @keywords_all_filtered ascii_builtins (py "el") 3 ∧
  ¬ @keywords_all_filtered ascii_builtins (py "casa casa gato") 0.
Proof.
  split; intros [Hall Hlen].
  - assert (@Keywords.extract_keywords ascii_builtins (py "el") 3 = [py "el"])
      as Heq by (by vm_compute).
    rewrite Heq in Hall. apply Forall_cons_1 in Hall as [[Hshort _] _].
    vm_compute in Hshort. lia.
  - assert (@Keywords.extract_keywords ascii_builtins (py "casa casa gato") 0
            = [py "casa"]) as Heq by (by vm_compute).
    rewrite Heq in Hlen. simpl in Hlen. lia.
Qed.

Example extract_keywords_punctuation :
  @Keywords.extract_keywords ascii_builtins
    (py "Hola, mundo_feliz!! hola x1 2024") 3
  = [py "hola"; py "mundo_feliz"; py "2024"] ∧
  @Keywords.extract_keywords ascii_builtins
    (py "a b c d casa perro casa perro gato") 2
  = [py "casa"; py "perro"] ∧
  @Keywords.extract_keywords ascii_builtins (py " de la") 3 = [[]].
Proof. by vm_compute. Qed.

Example extract_keywords_ranks_by_count :
  @Keywords.extract_keywords ascii_builtins
    (py "el gato y el Gato con la casa de la casa azul") 3
  = [py "gato"; py "casa"; py "azul"].
Proof. by vm_compute. Qed.

(** ** Scene count *)

Section rounding.

(** [round_half_even n d] is within one half of [n / d]. *)
Lemma round_half_even_near n d :
  0 < d → - d ≤ 2 * n - 2 * d * round_half_even n d ≤ d.
Proof.
  intros Hd. unfold round_half_even.
  pose proof (Z.div_mod n d ltac:(lia)) as Hdm.
  pose proof (Z.mod_pos_bound n d Hd) as Hr.
  repeat case_match; repeat match goal with
  | H : (_ <? _) = true |- _ => apply Z.ltb_lt in H
  | H : (_ <? _) = false |- _ => apply Z.ltb_ge in H
  end; nia.
Qed.

(** An integer strictly within one half of [n / d] is the rounding. *)
Lemma round_half_even_unique n d z :
  0 < d → - d < 2 * n - 2 * d * z < d → round_half_even n d = z.
Proof.
  intros Hd Hz. unfold round_half_even.
  pose proof (Z.div_mod n d ltac:(lia)) as Hdm.
  pose proof (Z.mod_pos_bound n d Hd) as Hr.
  repeat case_match; repeat match goal with
  | H : (_ <? _) = true |- _ => apply Z.ltb_lt in H
  | H : (_ <? _) = false |- _ => apply Z.ltb_ge in H
  end; nia.
Qed.

(** A quotient by 7 below [2^50] has its binary exponent below 50. *)
Lemma log2_quot_7_bound a :
  0 < a < 7 * 2 ^ 50 → log2_quot a 7 ≤ 49.
Proof.
  intros [Ha Hlt]. unfold log2_quot.
  change (Z.log2 7) with 2.
  assert (Z.log2 a < 53) as Hlog.
  { apply Z.log2_lt_pow2; [done|]. lia. }
  destruct (decide (Z.log2 a = 52)) as [->|Hne].
  - change (52 - 2) with 50. change (Z.max 0 (- 50)) with 0.
    change (Z.max 0 50) with 50. rewrite Z.pow_0_r.
    destruct (Z.ltb_spec (a * 1) (7 * 2 ^ 50)); lia.
  - case_match; lia.
Qed.

End rounding.

Section scene_count.

(** Below [7 * 2^50] the float quotient keeps at least 3 binary digits
    after the point: its significand is the quotient scaled by
    [2^(-e)] with [e <= -3], rounded. *)
Lemma nearest_binary64_by_7 a :
  0 < a < 7 * 2 ^ 50 →
  ∃ e, e ≤ -3 ∧
    nearest_binary64 a 7 = Some (round_half_even (a * 2 ^ (- e)) 7, e).
Proof.
  intros Ha. pose proof (log2_quot_7_bound a Ha) as Hk.
  unfold nearest_binary64.
  set (e := Z.max (log2_quot a 7 - 52) (-1074)).
  assert (-1074 ≤ e ≤ -3) as He by lia.
  exists e. split; [lia|].
  rewrite (Z.max_r 0 (- e)) by lia. rewrite (Z.max_l 0 e) by lia.
  rewrite Z.pow_0_r, Z.mul_1_r.
  destruct (Z.ltb_spec 971 e); [lia|].
  destruct (Z.eqb_spec e 971); [lia|]. done.
Qed.

Lemma pow2_ge_8 e : e ≤ -3 → 8 ≤ 2 ^ (- e).
Proof.
  intros He. change 8 with (2 ^ 3).
  apply Z.pow_le_mono_r; lia.
Qed.

(** Rounding the float quotient gives the integer nearest to the exact
    quotient. *)
Lemma round_truediv_7 d :
  - (7 * 2 ^ 50) < d < 7 * 2 ^ 50 →
  ∃ x, truediv d 7 = Ok x ∧ py_round x = Ok (round_half_even d 7).
Proof.
  intros Hd. unfold truediv. simpl (7 =? 0).
  destruct (Z.eqb_spec d 0) as [->|Hnz].
  { exists (Dyadic 0 0). done. }
  change (Z.abs 7) with 7.
  destruct (nearest_binary64_by_7 (Z.abs d) ltac:(lia)) as (e & He & ->).
  eexists. split; [done|]. unfold py_round.
  destruct (Z.leb_spec 0 e); [lia|]. f_equal.
  pose proof (pow2_ge_8 e He) as HP.
  set (P := 2 ^ (- e)) in *.
  pose proof (round_half_even_near (Z.abs d * P) 7 ltac:(lia)) as Hm.
  pose proof (round_half_even_near d 7 ltac:(lia)) as Hz.
  set (m := round_half_even (Z.abs d * P) 7) in *.
  set (z := round_half_even d 7) in *.
  assert (-6 ≤ 2 * d - 14 * z ≤ 6) as Hz' by lia.
  apply round_half_even_unique; [lia|].
  change (Z.sgn 7) with 1.
  destruct (Z.abs_spec d) as [[Hpos Habs]|[Hneg Habs]]; rewrite Habs in Hm.
  - rewrite Z.sgn_pos by lia. nia.
  - rewrite Z.sgn_neg by lia. nia.
Qed.

(** C5, as the code has it: for a duration of magnitude below
    [7 * 2^50] seconds the target is the exact [max(1, round(d / 7))];
    it is 10 for 70 seconds and 1 from 1 to 10 seconds. *)
Theorem num_escenas_esperadas_exact d :
  - (7 * 2 ^ 50) < d < 7 * 2 ^ 50 →
  num_escenas_esperadas d = Ok (target_scene_count d)
  ∧ (d = 70 → target_scene_count d = 10)
  ∧ (1 ≤ d ≤ 10 → target_scene_count d = 1).
Proof.
  intros Hd. split; [|split].
  - unfold num_escenas_esperadas, segundos_por_escena.
    destruct (round_truediv_7 d Hd) as (x & -> & Hx). simpl.
    rewrite Hx. done.
  - by intros ->.
  - intros Hsmall. unfold target_scene_count.
    rewrite (round_half_even_unique d 7 (if d <? 4 then 0 else 1)); [|lia|].
    + case_match; lia.
    + destruct (Z.ltb_spec d 4); lia.
Qed.

Lemma num_escenas_esperadas_70 :
  - (7 * 2 ^ 50) < 70 < 7 * 2 ^ 50 ∧ num_escenas_esperadas 70 = Ok 10.
Proof.
  split; [lia|].
  destruct (num_escenas_esperadas_exact 70 ltac:(lia)) as (Hcode & H70 & _).
  rewrite Hcode, (H70 eq_refl). done.
Defined.

(** Past [7 * 2^50] the float quotient can fall on a half-way point
    that the exact quotient misses: 7881299347898378 / 7 is
    1125899906842625 + 3/7, the float is 1125899906842625.5, and
    [round] takes it to the even 1125899906842626. *)
Lemma num_escenas_esperadas_inexact :
  num_escenas_esperadas 7881299347898378 = Ok 1125899906842626 ∧
  target_scene_count 7881299347898378 = 1125899906842625 ∧
  num_escenas_esperadas 7881299347898378
    ≠ Ok (target_scene_count 7881299347898378).
Proof. repeat split; by vm_compute. Qed.

(** The literal [0.7] is the float nearest to 7/10. *)
Example float_0_7_nearest : truediv 7 10 = Ok float_0_7.
Proof. by vm_compute. Qed.

Example num_escenas_esperadas_1_to_10 :
  num_escenas_esperadas <$> [1; 2; 3; 4; 5; 6; 7; 8; 9; 10]
  = replicate 10 (Ok 1).
Proof. by vm_compute. Qed.

End scene_count.

(** ** Pixabay searches *)

Section search_facts.
Context `{Builtins} `{Services}.

Lemma contains_obj (key : string) (m : gmap str json) :
  contains key (JObj m) = Ok (bool_decide (is_Some (m !! py key))).
Proof. done. Qed.

(** The loop of the image search on hits that are objects: a hit with
    [largeImageURL] ends it. *)
Lemma best_image_large (m : gmap str json) url rest best :
  m !! py "largeImageURL" = Some url →
  best_image (JObj m :: rest) best = Ok url.
Proof.
  intros Hm. simpl. rewrite bool_decide_true by (by rewrite Hm).
  simpl. by rewrite Hm.
Qed.

Lemma best_image_web (m : gmap str json) url rest best :
  m !! py "largeImageURL" = None → m !! py "webformatURL" = Some url →
  best_image (JObj m :: rest) best = best_image rest url.
Proof.
  intros Hl Hw. simpl.
  rewrite bool_decide_false by (rewrite Hl; by intros [??]). simpl.
  rewrite bool_decide_true by (by rewrite Hw). simpl. by rewrite Hw.
Qed.

Lemma best_image_skip (m : gmap str json) rest best :
  m !! py "largeImageURL" = None → m !! py "webformatURL" = None →
  best_image (JObj m :: rest) best = best_image rest best.
Proof.
  intros Hl Hw. simpl.
  rewrite bool_decide_false by (rewrite Hl; by intros [??]). simpl.
  rewrite bool_decide_false by (rewrite Hw; by intros [??]). done.
Qed.

(** With a [largeImageURL] somewhere, the first one is returned,
    whatever came before it. *)
Lemma best_image_first_large (hits : list (gmap str json)) best i hit url :
  hits !! i = Some hit → hit !! py "largeImageURL" = Some url →
  (∀ j h, (j < i)%nat → hits !! j = Some h → h !! py "largeImageURL" = None) →
  best_image (JObj <$> hits) best = Ok url.
Proof.
  revert best i. induction hits as [|m hits IH]; intros best i Hi Hurl Hbefore.
  { done. }
  destruct i as [|i]; simpl in Hi.
  - injection Hi as ->. by apply best_image_large.
  - assert (m !! py "largeImageURL" = None) as Hl.
    { apply (Hbefore 0%nat); [lia|done]. }
    assert (∀ best', best_image (JObj <$> hits) best' = Ok url) as Hrest.
    { intros best'. apply (IH best' i); [done..|].
      intros j h Hj Hh. apply (Hbefore (S j)); [lia|done]. }
    rewrite fmap_cons.
    destruct (m !! py "webformatURL") as [u|] eqn:Hw.
    + by rewrite (best_image_web _ _ _ _ Hl Hw).
    + by rewrite (best_image_skip _ _ _ Hl Hw).
Qed.

(** Without any [largeImageURL], the result is the [webformatURL] of a
    hit, or the value held before the loop when no hit has one. *)
Lemma best_image_no_large (hits : list (gmap str json)) best :
  (∀ hit, hit ∈ hits → hit !! py "largeImageURL" = None) →
  ∃ url, best_image (JObj <$> hits) best = Ok url ∧
    ((∃ hit, hit ∈ hits ∧ hit !! py "webformatURL" = Some url) ∨
     ((∀ hit, hit ∈ hits → hit !! py "webformatURL" = None) ∧ url = best)).
Proof.
  revert best. induction hits as [|m hits IH]; intros best Hno.
  { exists best. split; [done|]. right. split; [|done].
    intros hit Hhit. by apply elem_of_nil in Hhit. }
  assert (m !! py "largeImageURL" = None) as Hl by (apply Hno; left).
  assert (∀ hit, hit ∈ hits → hit !! py "largeImageURL" = None) as Hno'.
  { intros hit Hhit. apply Hno. by right. }
  rewrite fmap_cons.
  destruct (m !! py "webformatURL") as [u|] eqn:Hw.
  - rewrite (best_image_web _ _ _ _ Hl Hw).
    destruct (IH u Hno') as (url & -> & [(hit & Hhit & Hurl)|[Hnone ->]]).
    + exists url. split; [done|]. left. exists hit. split; [by right|done].
    + exists u. split; [done|]. left. exists m. split; [left|done].
  - rewrite (best_image_skip _ _ _ Hl Hw).
    destruct (IH best Hno') as (url & -> & [(hit & Hhit & Hurl)|[Hnone ->]]).
    + exists url. split; [done|]. left. exists hit. split; [by right|done].
    + exists best. split; [done|]. right. split; [|done].
      intros hit Hhit. apply elem_of_cons in Hhit as [->|Hhit]; auto.
Qed.

(** What each search returns, read off the reply to its one request. *)
Lemma buscar_imagen_pixabay_unfold query res st :
  buscar_imagen_pixabay query res st =
  (caught (
     response ← requests_get (calls st) (search_request false query res);
     _ ← raise_for_status response;
     data ← response_json response;
     hits ← getitem data "hits";
     if truthy hits then hits ← iterate hits; best_image hits JNull
     else Ok JNull),
   record_call (CallGet (search_request false query res)) st).
Proof.
  unfold buscar_imagen_pixabay, except_RequestException, mbind, M_bind, http_get, lift.
  destruct (requests_get _ _) as [response|e]; simpl.
  - destruct (result_bind _ _ _ _) as [url|e]; simpl; [done|].
    by destruct (is_RequestException e).
  - by destruct (is_RequestException e).
Qed.

Lemma buscar_video_pixabay_unfold query res st :
  buscar_video_pixabay query res st =
  (caught (
     response ← requests_get (calls st) (search_request true query res);
     _ ← raise_for_status response;
     data ← response_json response;
     hits ← getitem data "hits";
     if truthy hits then hits ← iterate hits; best_video hits
     else Ok JNull),
   record_call (CallGet (search_request true query res)) st).
Proof.
  unfold buscar_video_pixabay, except_RequestException, mbind, M_bind, http_get, lift.
  destruct (requests_get _ _) as [response|e]; simpl.
  - destruct (result_bind _ _ _ _) as [url|e]; simpl; [done|].
    by destruct (is_RequestException e).
  - by destruct (is_RequestException e).
Qed.

Lemma raise_for_status_ok r :
  ¬ (400 ≤ status_code r < 600) → raise_for_status r = Ok tt.
Proof.
  intros Hst. unfold raise_for_status.
  destruct (Z.leb_spec 400 (status_code r)), (Z.ltb_spec (status_code r) 600);
    simpl; try done; lia.
Qed.

Lemma raise_for_status_error r :
  400 ≤ status_code r < 600 →
  ∃ e, raise_for_status r = Raise e ∧ is_RequestException e = true.
Proof.
  intros Hst. unfold raise_for_status.
  destruct (Z.leb_spec 400 (status_code r)), (Z.ltb_spec (status_code r) 600);
    simpl; try lia. by eexists.
Qed.

End search_facts.

Section image_search.
Context `{Builtins} `{Services}.

Lemma best_image_choice (hits : list (gmap str json)) :
  ∃ url, best_image (JObj <$> hits) JNull = Ok url ∧ image_choice hits url.
Proof.
  destruct (list_find (λ h, is_Some (h !! py "largeImageURL")) hits)
    as [[i hit]|] eqn:Hfind.
  - apply list_find_Some in Hfind as (Hi & [u Hu] & Hbefore).
    assert (∀ j h, (j < i)%nat → hits !! j = Some h →
                   h !! py "largeImageURL" = None) as Hnone.
    { intros j h Hj Hh. apply eq_None_not_Some. by eapply Hbefore. }
    exists u. split; [by eapply best_image_first_large|]. split.
    + intros i' hit' u' Hi' Hu' Hnone'.
      destruct (Nat.lt_trichotomy i i') as [Hlt|[->|Hgt]].
      * rewrite (Hnone' i hit Hlt Hi) in Hu. done.
      * congruence.
      * rewrite (Hnone i' hit' Hgt Hi') in Hu'. done.
    + intros Hno. rewrite (Hno hit) in Hu; [done|].
      by eapply list_elem_of_lookup_2.
  - apply list_find_None in Hfind.
    assert (∀ hit, hit ∈ hits → hit !! py "largeImageURL" = None) as Hno.
    { intros hit Hhit. apply eq_None_not_Some.
      by apply (proj1 (Forall_forall _ _) Hfind). }
    destruct (best_image_no_large hits JNull Hno) as (url & Hurl & Hweb).
    exists url. split; [done|]. split; [|done].
    intros i hit u Hi Hu _. rewrite (Hno hit) in Hu; [done|].
    by eapply list_elem_of_lookup_2.
Qed.

(** Hits without any of the two fields leave the value as it is. *)
Lemma best_image_none (hits : list (gmap str json)) best :
  (∀ hit, hit ∈ hits → hit !! py "largeImageURL" = None) →
  (∀ hit, hit ∈ hits → hit !! py "webformatURL" = None) →
  best_image (JObj <$> hits) best = Ok best.
Proof.
  induction hits as [|m hits IH]; intros Hl Hw; [done|].
  rewrite fmap_cons, best_image_skip by (apply Hl || apply Hw; left).
  apply IH; intros hit Hhit; [apply Hl|apply Hw]; by right.
Qed.

(** Without any [largeImageURL], the loop keeps the [webformatURL] it
    met last. *)
Lemma best_image_last_web (before after : list (gmap str json))
    (hit : gmap str json) (url best : json) :
  (∀ h, h ∈ before ++ hit :: after → h !! py "largeImageURL" = None) →
  hit !! py "webformatURL" = Some url →
  (∀ h, h ∈ after → h !! py "webformatURL" = None) →
  best_image (JObj <$> (before ++ hit :: after)) best = Ok url.
Proof.
  revert best. induction before as [|m before IH]; intros best Hl Hurl Hw.
  - simpl app. rewrite fmap_cons.
    rewrite (best_image_web _ url) by (done || apply Hl; left).
    apply best_image_none; [|done].
    intros h Hh. apply Hl. by right.
  - assert (m !! py "largeImageURL" = None) as Hm by (apply Hl; left).
    assert (∀ h, h ∈ before ++ hit :: after → h !! py "largeImageURL" = None)
      as Hl' by (intros h Hh; apply Hl; by right).
    simpl app. rewrite fmap_cons.
    destruct (m !! py "webformatURL") as [u|] eqn:Hmw.
    + rewrite (best_image_web _ u) by done. by apply IH.
    + rewrite best_image_skip by done. by apply IH.
Qed.

(** C4, as the code has it: from a reply whose hits are objects, the
    image search returns the [largeImageURL] of the first hit that has
    one, else the [webformatURL] of a hit that has one, else none. *)
Theorem buscar_imagen_pixabay_choice (hits : list (gmap str json))
    (query : str) (res : json) (st : state) (r : http_response)
    (data : gmap str json) :
  requests_get (calls st) (search_request false query res) = Ok r →
  ¬ (400 ≤ status_code r < 600) →
  response_json r = Ok (JObj data) →
  data !! py "hits" = Some (JArr (JObj <$> hits)) →
  ∃ url, (buscar_imagen_pixabay query res st).1 = Ok url ∧ image_choice hits url.
Proof.
  intros Hreply Hstatus Hjson Hhits.
  rewrite buscar_imagen_pixabay_unfold, Hreply. simpl.
  rewrite (raise_for_status_ok _ Hstatus). simpl.
  rewrite Hjson. simpl. rewrite Hhits. simpl.
  destruct (best_image_choice hits) as (url & Hurl & Hchoice).
  exists url. split; [|done].
  destruct hits as [|hit hits].
  - simpl in *. by injection Hurl as <-.
  - rewrite fmap_cons in *. cbn [truthy length bool_decide decide_rel negb].
    rewrite bool_decide_false by done. simpl negb. cbv iota.
    change (iterate ?x ≫= ?f) with (f (JObj hit :: (JObj <$> hits))).
    cbv beta. by rewrite Hurl.
Qed.

End image_search.

Lemma buscar_imagen_pixabay_two_hits :
  let reply := hits_response (JObj <$> web_then_large) in
  (@requests_get web_then_large_services [] (@search_request web_then_large_services false (py "gato") JNull) = reply
   ∧ ¬ (400 ≤ 200 < 600)) ∧
  ∃ url, (@buscar_imagen_pixabay web_then_large_services (py "gato") JNull initial_state).1
         = Ok url ∧ image_choice web_then_large url.
Proof.
  split; [split; [done|lia]|].
  eapply (@buscar_imagen_pixabay_choice web_then_large_services web_then_large
            (py "gato") JNull initial_state); [done|simpl; lia|done|done].
Defined.

(** Given a first hit with only a [webformatURL] and a second hit with
    a [largeImageURL], the search returns the second hit's URL, where
    the first usable hit is the first one. *)
Lemma buscar_imagen_pixabay_not_first_hit :
  (@buscar_imagen_pixabay web_then_large_services (py "gato") JNull initial_state).1
    = Ok (jstr "https://pixabay.com/get/second_1280.jpg") ∧
  first_usable_image web_then_large = jstr "https://pixabay.com/get/first_640.jpg".
Proof. split; by vm_compute. Qed.

Section no_result.
Context `{Builtins} `{Services}.

Lemma caught_provider_error (reply : result http_response)
    (k : http_response → result json) :
  provider_error reply →
  caught (response ← reply; _ ← raise_for_status response; k response) = Ok JNull.
Proof.
  intros [(e & -> & He)|(r & -> & Hst)]; simpl.
  - by rewrite He.
  - destruct (raise_for_status_error r Hst) as (e & -> & He). simpl.
    by rewrite He.
Qed.

Lemma caught_zero_hits (reply : result http_response)
    (loop : list json → result json) :
  zero_hits reply →
  caught (response ← reply; _ ← raise_for_status response;
          data ← response_json response; hits ← getitem data "hits";
          if truthy hits then hits ← iterate hits; loop hits else Ok JNull)
  = Ok JNull.
Proof.
  intros (r & m & -> & Hst & Hjson & Hhits). simpl.
  rewrite (raise_for_status_ok r Hst). simpl. rewrite Hjson. simpl.
  by rewrite Hhits.
Qed.

(** One request: a provider error or an empty list of hits makes the
    video search return [None]. *)
Lemma buscar_video_pixabay_no_result (query : str) (res : json) (st : state) :
  let url := search_request true query res in
  provider_error (requests_get (calls st) url) ∨
  zero_hits (requests_get (calls st) url) →
  buscar_video_pixabay query res st = (Ok JNull, record_call (CallGet url) st).
Proof.
  intros url Hreply. rewrite buscar_video_pixabay_unfold. f_equal.
  destruct Hreply as [Herr|Hzero].
  - by apply (caught_provider_error _ _ Herr).
  - by apply (caught_zero_hits _ _ Hzero).
Qed.

Lemma buscar_imagen_pixabay_no_result (query : str) (res : json) (st : state) :
  let url := search_request false query res in
  provider_error (requests_get (calls st) url) ∨
  zero_hits (requests_get (calls st) url) →
  buscar_imagen_pixabay query res st = (Ok JNull, record_call (CallGet url) st).
Proof.
  intros url Hreply. rewrite buscar_imagen_pixabay_unfold. f_equal.
  destruct Hreply as [Herr|Hzero].
  - by apply (caught_provider_error _ _ Herr).
  - by apply (caught_zero_hits _ _ Hzero).
Qed.

End no_result.

(** ** Reasoning about handlers *)

Lemma ret_Ok_inv {A : Type} (a a' : A) (st st1 : state) :
  mret (M := M) a st = (Ok a', st1) → a' = a ∧ st1 = st.
Proof. unfold mret, M_ret. by intros [= -> ->]. Qed.

Lemma lift_Ok_inv {A : Type} (r : result A) st a st1 :
  lift r st = (Ok a, st1) → r = Ok a ∧ st1 = st.
Proof. unfold lift. by intros [= -> ->]. Qed.

Lemma bind_Ok {A B : Type} (m : M A) (f : A → M B) st a st1 :
  m st = (Ok a, st1) → (m ≫= f) st = f a st1.
Proof. intros Hm. unfold mbind, M_bind. by rewrite Hm. Qed.

Lemma bind_lift_Ok {A B : Type} (r : result A) (f : A → M B) st a :
  r = Ok a → (lift r ≫= f) st = f a st.
Proof. by intros ->. Qed.

Lemma bind_Raise {A B : Type} (m : M A) (f : A → M B) st e st1 :
  m st = (Raise e, st1) → (m ≫= f) st = (Raise e, st1).
Proof. intros Hm. unfold mbind, M_bind. by rewrite Hm. Qed.

Lemma bind_Ok_inv {A B : Type} (m : M A) (f : A → M B) st b st2 :
  (m ≫= f) st = (Ok b, st2) →
  ∃ a st1, m st = (Ok a, st1) ∧ f a st1 = (Ok b, st2).
Proof.
  unfold mbind, M_bind. destruct (m st) as [[a|e] st1]; [|done].
  intros Hf. by exists a, st1.
Qed.

Lemma for_each_Forall {A B : Type} (f : A → M B) (P : B → Prop) l :
  (∀ x st y st1, f x st = (Ok y, st1) → P y) →
  ∀ st ys st1, for_each f l st = (Ok ys, st1) → Forall P ys.
Proof.
  intros Hf. induction l as [|x l IH]; simpl; intros st ys st1 Hrun.
  - apply ret_Ok_inv in Hrun as [-> _]. constructor.
  - apply bind_Ok_inv in Hrun as (y & st2 & Hy & Hrun).
    apply bind_Ok_inv in Hrun as (ys' & st3 & Hys & Hrun).
    apply ret_Ok_inv in Hrun as [-> _].
    constructor; [by eapply Hf|by eapply IH].
Qed.

(** Destructs a successful run of a handler into its steps. *)
Ltac step_run H :=
  let a := fresh "v" in
  let st := fresh "st" in
  let Hstep := fresh "Hstep" in
  apply bind_Ok_inv in H as (a & st & Hstep & H);
  try (apply lift_Ok_inv in Hstep as [Hstep ->]).

(** ** Media fields *)

Section media_fields.
Context `{Builtins} `{Services}.

Lemma scene_record_exclusive scene_id script use_video media_url :
  media_exclusive "imageUrl" "videoUrl"
    (scene_record scene_id script use_video media_url).
Proof.
  eexists. split; [done|]. unfold jsonify. simpl.
  repeat split.
  - rewrite lookup_insert_ne by done. rewrite lookup_insert_ne by done.
    by rewrite lookup_insert_eq.
  - do 3 (rewrite lookup_insert_ne by done). by rewrite lookup_insert_eq.
  - destruct use_video; simpl.
    + left. do 2 (rewrite lookup_insert_ne by done). by rewrite lookup_insert_eq.
    + right. do 3 (rewrite lookup_insert_ne by done). by rewrite lookup_insert_eq.
Qed.

(** Every scene that [new_scene] returns has the shape of the dict
    literal of the source. *)
Lemma new_scene_record resolucion scene st o st1 :
  new_scene resolucion scene st = (Ok o, st1) →
  ∃ scene_id script use_video media_url,
    o = scene_record scene_id script use_video media_url.
Proof.
  unfold new_scene. intros Hrun.
  do 3 step_run Hrun.
  apply bind_Ok_inv in Hrun as ([use_video media_url] & st2 & Hsearch & Hrun).
  step_run Hrun. step_run Hrun. step_run Hrun.
  apply ret_Ok_inv in Hrun as [-> _]. by eexists _, _, _, _.
Qed.

End media_fields.

Section exclusive_media.
Context `{Builtins} `{Services}.

Lemma response_scenes_error msg code :
  response_scenes {| body := jsonify [("error", msg)]; status := code |} = [].
Proof. unfold response_scenes, jsonify. simpl. by rewrite lookup_insert_ne. Qed.

Lemma response_scenes_ok scenes code :
  response_scenes {| body := jsonify [("scenes", JArr scenes)]; status := code |}
  = scenes.
Proof. unfold response_scenes, jsonify. simpl. by rewrite lookup_insert_eq. Qed.

Lemma generate_initial_content_scenes data st :
  Forall (media_exclusive "imageUrl" "videoUrl")
    (response_scenes (generate_initial_content data st).1).
Proof.
  unfold generate_initial_content, handle.
  match goal with |- context [match ?run st with _ => _ end] =>
    destruct (run st) as [[r|e] st1] eqn:Hrun end; simpl;
    [|by rewrite response_scenes_error].
  do 7 step_run Hrun.
  destruct (negb (truthy (JStr v0))).
  { apply ret_Ok_inv in Hrun as [-> _]. by rewrite response_scenes_error. }
  step_run Hrun. step_run Hrun. do 3 step_run Hrun.
  apply bind_Ok_inv in Hrun as (final & st2 & Hloop & Hrun).
  apply ret_Ok_inv in Hrun as [-> _]. rewrite response_scenes_ok.
  eapply for_each_Forall; [|exact Hloop].
  intros scene st3 o st4 Hscene.
  apply new_scene_record in Hscene as (scene_id & script & use_video & url & ->).
  apply scene_record_exclusive.
Qed.

Lemma regenerate_media_exclusive scene config st r st1 :
  regenerate_media scene config st = (Ok r, st1) →
  media_exclusive "newImageUrl" "newVideoUrl" (body r).
Proof.
  unfold regenerate_media. intros Hrun. do 3 step_run Hrun.
  apply bind_Ok_inv in Hrun as ([use_video media_url] & st2 & Hsearch & Hrun).
  destruct use_video; apply ret_Ok_inv in Hrun as [-> _]; simpl;
    eexists; (split; [done|]); unfold jsonify; simpl; repeat split.
  - rewrite lookup_insert_ne by done. by rewrite lookup_insert_eq.
  - by rewrite lookup_insert_eq.
  - left. rewrite lookup_insert_ne by done. by rewrite lookup_insert_eq.
  - by rewrite lookup_insert_eq.
  - rewrite lookup_insert_ne by done. by rewrite lookup_insert_eq.
  - right. rewrite lookup_insert_ne by done. by rewrite lookup_insert_eq.
Qed.

Lemma regenerate_scene_part_media_exclusive (data : gmap str json) st :
  data !! py "part" = Some (jstr "media") →
  status (regenerate_scene_part (JObj data) st).1 = 200 →
  media_exclusive "newImageUrl" "newVideoUrl"
    (body (regenerate_scene_part (JObj data) st).1).
Proof.
  intros Hpart. unfold regenerate_scene_part, handle.
  match goal with |- context [match ?run st with _ => _ end] =>
    destruct (run st) as [[r|e] st1] eqn:Hrun end; simpl; [|done].
  intros Hstatus. do 3 step_run Hrun.
  simpl in Hstep. rewrite Hpart in Hstep. injection Hstep as <-.
  destruct (negb _).
  { apply ret_Ok_inv in Hrun as [-> _]. done. }
  change (eq_str (jstr "media") "script") with false in Hrun.
  change (eq_str (jstr "media") "media") with true in Hrun.
  cbv iota in Hrun. by eapply regenerate_media_exclusive.
Qed.

(** C2: no scene returned by [generate_initial_content] and no
    response of a media regeneration has both its image field and its
    video field set. *)
Theorem media_fields_exclusive (data : json) (st : state) :
  Forall (media_exclusive "imageUrl" "videoUrl")
    (response_scenes (generate_initial_content data st).1) ∧
  (∀ request : gmap str json,
     data = JObj request →
     request !! py "part" = Some (jstr "media") →
     status (regenerate_scene_part data st).1 = 200 →
     media_exclusive "newImageUrl" "newVideoUrl"
       (body (regenerate_scene_part data st).1)).
Proof.
  split; [apply generate_initial_content_scenes|].
  intros request -> Hpart Hstatus.
  by apply regenerate_scene_part_media_exclusive.
Qed.

End exclusive_media.

Section never_aborts.
Context `{Builtins} `{Services}.

Lemma all_str_fmap (words : list str) : all_str (JStr <$> words) = Some words.
Proof.
  induction words as [|w words IH]; [done|].
  rewrite fmap_cons. cbn [all_str]. by rewrite IH.
Qed.

Lemma slice_to_strs k (words : list str) :
  slice_to k (JArr (JStr <$> words)) = Ok (JArr (JStr <$> take k words)).
Proof. unfold slice_to. by rewrite fmap_take. Qed.

Lemma join_json_strs sep (words : list str) :
  join_json sep (JArr (JStr <$> words)) = Ok (join sep words).
Proof.
  unfold join_json, iterate. cbn [mbind result_bind]. by rewrite all_str_fmap.
Qed.

Lemma draw_and_search_no_result query res st :
  provider_gives_nothing →
  ∃ st1, draw_and_search query res st
         = (Ok (float_ltb (random_random (draws st)) float_0_7, JNull), st1).
Proof.
  intros Hnothing. unfold draw_and_search.
  rewrite (bind_Ok random _ st _ _ eq_refl).
  destruct (float_ltb _ _).
  - rewrite (bind_Ok _ _ _ _ _ (buscar_video_pixabay_no_result _ _ _ (Hnothing _ _))).
    simpl negb. cbv iota.
    rewrite (bind_Ok _ _ _ _ _ (buscar_imagen_pixabay_no_result _ _ _ (Hnothing _ _))).
    by eexists.
  - rewrite (bind_Ok (mret JNull) _ _ _ _ eq_refl).
    simpl negb. cbv iota.
    rewrite (bind_Ok _ _ _ _ _ (buscar_imagen_pixabay_no_result _ _ _ (Hnothing _ _))).
    by eexists.
Qed.

Lemma new_scene_no_result (res : json) (scene : gmap str json)
    (keywords : list str) (st : state) :
  provider_gives_nothing →
  default (JArr []) (scene !! py "keywords") = JArr (JStr <$> keywords) →
  ∃ scene_id use_video st1,
    new_scene res (JObj scene) st
    = (Ok (scene_record scene_id (default (JStr []) (scene !! py "script"))
             use_video JNull), st1).
Proof.
  intros Hnothing Hkw. unfold new_scene.
  rewrite (bind_lift_Ok _ _ st (JArr (JStr <$> keywords)))
    by (simpl; by rewrite Hkw).
  rewrite (bind_lift_Ok _ _ st _ (slice_to_strs _ _)).
  rewrite (bind_lift_Ok _ _ st _ (join_json_strs _ _)).
  destruct (draw_and_search_no_result (join (py " ") (take 3 keywords)) res st
              Hnothing) as (st1 & Hsearch).
  rewrite (bind_Ok _ _ _ _ _ Hsearch). cbv beta iota.
  destruct (truthy (default JNull (scene !! py "id"))) eqn:Hid;
    eexists _, (float_ltb (random_random (draws st)) float_0_7), _;
    rewrite (bind_lift_Ok (dict_get (JObj scene) "id" JNull) _ st1 _ eq_refl);
    rewrite Hid;
    unfold scene_record; by destruct (float_ltb _ _).
Qed.

Lemma for_each_new_scene_no_result (res : json) (scenes : list json)
    (st : state) :
  provider_gives_nothing →
  Forall has_keyword_list scenes →
  ∃ out st1, for_each (new_scene res) scenes st = (Ok out, st1) ∧
             length out = length scenes ∧ Forall without_media out.
Proof.
  intros Hnothing Hscenes. revert st.
  induction Hscenes as [|scene scenes (m & keywords & -> & Hkw) _ IH];
    intros st; simpl.
  { by exists [], st. }
  destruct (new_scene_no_result res m keywords st Hnothing Hkw)
    as (scene_id & use_video & st1 & Hscene).
  rewrite (bind_Ok _ _ _ _ _ Hscene).
  destruct (IH st1) as (out & st2 & Hrest & Hlen & Hout).
  rewrite (bind_Ok _ _ _ _ _ Hrest).
  eexists _, _. split; [done|]. split; [simpl; by rewrite Hlen|].
  constructor; [by eexists _, _, _|done].
Qed.

(** The whole of [generate_initial_content] when the searches give
    nothing: the request is answered 200, with one scene for each scene
    of the generative service and no media in any. *)
Lemma generate_initial_content_no_result (request parsed : gmap str json)
    (scenes : list json) (guion content : str) (duracion n : Z) (st : state) :
  provider_gives_nothing →
  default (JStr []) (request !! py "guionPersonalizado") = JStr guion →
  strip guion ≠ [] →
  py_int (default JNull (request !! py "duracion")) = Ok duracion →
  num_escenas_esperadas duracion = Ok n →
  (∀ history r, chat_completions_create history r = Ok (Some content)) →
  json_loads content = Ok (JObj parsed) →
  default (JArr []) (parsed !! py "scenes") = JArr scenes →
  Forall has_keyword_list scenes →
  status (generate_initial_content (JObj request) st).1 = 200 ∧
  length (response_scenes (generate_initial_content (JObj request) st).1)
    = length scenes ∧
  Forall without_media
    (response_scenes (generate_initial_content (JObj request) st).1).
Proof.
  intros Hnothing Hguion Hne Hduracion Hn Hchat Hloads Hparsed Hscenes.
  unfold generate_initial_content, handle.
  rewrite (bind_lift_Ok (dict_get (JObj request) "guionPersonalizado" (JStr []))
             _ st _ eq_refl); cbv beta.
  rewrite Hguion.
  rewrite (bind_lift_Ok (py_strip (JStr guion)) _ st _ eq_refl); cbv beta.
  rewrite (bind_lift_Ok (dict_get (JObj request) "duracion" JNull) _ st _ eq_refl);
    cbv beta.
  rewrite (bind_lift_Ok _ _ st _ Hduracion); cbv beta.
  rewrite (bind_lift_Ok (dict_get (JObj request) "resolucion" JNull) _ st _ eq_refl);
    cbv beta.
  rewrite (bind_lift_Ok (dict_get (JObj request) "nicho" JNull) _ st _ eq_refl);
    cbv beta.
  rewrite (bind_lift_Ok (dict_get (JObj request) "idioma" JNull) _ st _ eq_refl);
    cbv beta.
  assert (truthy (JStr (strip guion)) = true) as ->
    by (simpl; by rewrite bool_decide_false).
  cbn [negb]. cbv iota.
  rewrite (bind_lift_Ok _ _ st _ Hn); cbv beta.
  erewrite bind_Ok by (unfold chat; by rewrite Hchat). cbv beta.
  rewrite (bind_lift_Ok (loads (Some content)) _ _ (JObj parsed)) by done;
    cbv beta.
  rewrite (bind_lift_Ok (dict_get (JObj parsed) "scenes" (JArr [])) _ _
             (JArr scenes)) by (simpl; by rewrite Hparsed); cbv beta.
  rewrite (bind_lift_Ok (iterate (JArr scenes)) _ _ _ eq_refl); cbv beta.
  match goal with |- context [(for_each ?f scenes ≫= _) ?st0] =>
    destruct (for_each_new_scene_no_result
                (default JNull (request !! py "resolucion")) scenes st0
                Hnothing Hscenes) as (out & st1 & Hloop & Hlen & Hout) end.
  rewrite !(bind_Ok _ _ _ _ _ Hloop). cbn [fst].
  unfold mret, M_ret. cbn [fst]. by rewrite response_scenes_ok.
Qed.

End never_aborts.

Section never_aborts_endpoint.
Context `{Builtins} `{Services}.

Lemma truthy_obj_lookup (m : gmap str json) (k : str) (v : json) :
  m !! k = Some v → truthy (JObj m) = true.
Proof.
  intros Hk. simpl. rewrite bool_decide_false; [done|].
  intros Hsize. apply map_size_empty_iff in Hsize. by rewrite Hsize in Hk.
Qed.

Lemma regenerate_media_no_result (scene config : gmap str json) (text : str)
    (st : state) :
  provider_gives_nothing →
  scene !! py "script" = Some (JStr text) →
  ∃ st1, regenerate_media (JObj scene) (JObj config) st
         = (Ok no_media_response, st1).
Proof.
  intros Hnothing Hscript. unfold regenerate_media.
  rewrite (bind_lift_Ok (dict_get (JObj config) "resolucion" JNull) _ st _ eq_refl).
  rewrite (bind_lift_Ok _ _ st (JStr text)) by (simpl; by rewrite Hscript).
  rewrite (bind_lift_Ok (py_extract_keywords (JStr text) 3) _ st _ eq_refl).
  cbv zeta.
  destruct (draw_and_search_no_result
              (join (py " ") (Keywords.extract_keywords text 3))
              (default JNull (config !! py "resolucion")) st Hnothing)
    as (st1 & Hsearch).
  rewrite (bind_Ok _ _ _ _ _ Hsearch). cbv beta iota.
  exists st1. by destruct (float_ltb _ _).
Qed.

Lemma regenerate_scene_part_no_result (data scene config : gmap str json)
    (text : str) (st : state) :
  provider_gives_nothing →
  data !! py "part" = Some (jstr "media") →
  data !! py "scene" = Some (JObj scene) →
  scene !! py "script" = Some (JStr text) →
  data !! py "config" = Some (JObj config) →
  truthy (JObj config) = true →
  (regenerate_scene_part (JObj data) st).1 = no_media_response.
Proof.
  intros Hnothing Hpart Hscene Hscript Hconfig Htrue.
  unfold regenerate_scene_part, handle.
  rewrite (bind_lift_Ok _ _ st (jstr "media")) by (simpl; by rewrite Hpart).
  rewrite (bind_lift_Ok _ _ st (JObj scene)) by (simpl; by rewrite Hscene).
  rewrite (bind_lift_Ok _ _ st (JObj config)) by (simpl; by rewrite Hconfig).
  rewrite (truthy_obj_lookup _ _ _ Hscript), Htrue.
  change (truthy (jstr "media")) with true.
  change (eq_str (jstr "media") "script") with false.
  change (eq_str (jstr "media") "media") with true.
  cbn [andb negb]. cbv iota.
  destruct (regenerate_media_no_result scene config text st Hnothing Hscript)
    as (st1 & ->).
  done.
Qed.

(** C9, as the code has it: a [RequestException] raised by
    [requests.get], a 4xx or 5xx status and an empty list of hits all
    make a search return [None] after its one request; the scenes are
    then built, and the media regeneration answered, with both media
    fields [null] and the status 200. *)
Theorem provider_failure_is_no_result (query : str) (res : json) (st : state) :
  provider_gives_nothing →
  buscar_video_pixabay query res st
    = (Ok JNull, record_call (CallGet (search_request true query res)) st) ∧
  buscar_imagen_pixabay query res st
    = (Ok JNull, record_call (CallGet (search_request false query res)) st) ∧
  (∀ (scene : gmap str json) (keywords : list str),
     default (JArr []) (scene !! py "keywords") = JArr (JStr <$> keywords) →
     ∃ scene_id use_video st1,
       new_scene res (JObj scene) st
       = (Ok (scene_record scene_id (default (JStr []) (scene !! py "script"))
                use_video JNull), st1)) ∧
  (∀ (request parsed : gmap str json) (scenes : list json)
     (guion content : str) (duracion n : Z),
     default (JStr []) (request !! py "guionPersonalizado") = JStr guion →
     strip guion ≠ [] →
     py_int (default JNull (request !! py "duracion")) = Ok duracion →
     num_escenas_esperadas duracion = Ok n →
     (∀ history r, chat_completions_create history r = Ok (Some content)) →
     json_loads content = Ok (JObj parsed) →
     default (JArr []) (parsed !! py "scenes") = JArr scenes →
     Forall has_keyword_list scenes →
     status (generate_initial_content (JObj request) st).1 = 200 ∧
     length (response_scenes (generate_initial_content (JObj request) st).1)
       = length scenes ∧
     Forall without_media
       (response_scenes (generate_initial_content (JObj request) st).1)) ∧
  (∀ (data scene config : gmap str json) (text : str),
     data !! py "part" = Some (jstr "media") →
     data !! py "scene" = Some (JObj scene) →
     scene !! py "script" = Some (JStr text) →
     data !! py "config" = Some (JObj config) →
     truthy (JObj config) = true →
     (regenerate_scene_part (JObj data) st).1 = no_media_response).
Proof.
  intros Hnothing. split; [|split; [|split; [|split]]].
  - by apply buscar_video_pixabay_no_result.
  - by apply buscar_imagen_pixabay_no_result.
  - intros scene keywords Hkw. by eapply new_scene_no_result.
  - intros request parsed scenes guion content duracion n.
    by apply generate_initial_content_no_result.
  - intros data scene config text. by apply regenerate_scene_part_no_result.
Qed.

End never_aborts_endpoint.

Lemma failing_services_give_nothing : @provider_gives_nothing failing_services.
Proof.
  intros history url. simpl.
  destruct (how_many is_get history) as [|[|n]]; simpl.
  - left. right. eexists. split; [done|]. simpl. lia.
  - right. eexists _, _. split; [done|]. split; [simpl; lia|]. by split.
  - left. left. eexists. split; [by destruct n|done].
Defined.

Lemma provider_failure_is_no_result_run :
  @provider_gives_nothing failing_services ∧
  (@regenerate_scene_part ascii_builtins failing_services
     regenerate_media_request initial_state).1 = no_media_response.
Proof.
  split; [exact failing_services_give_nothing|].
  destruct (@provider_failure_is_no_result ascii_builtins failing_services
              [] JNull initial_state failing_services_give_nothing)
    as (_ & _ & _ & _ & Hregenerate).
  eapply Hregenerate; by vm_compute.
Defined.

Example generate_initial_content_without_media :
  (@generate_initial_content (scripted_builtins (Ok parsed_gato))
     failing_services request_gato initial_state).1
  = {| body := jsonify [("scenes", JArr [
         obj [("id", jstr "00000000-0000-4000-8000-000000000000");
              ("script", jstr "Un gato duerme al sol.");
              ("imageUrl", JNull); ("videoUrl", JNull);
              ("audioBase64", JNull)]])];
       status := 200 |}.
Proof. by vm_compute. Qed.

(** A status outside 2xx that [raise_for_status] lets through (it
    raises for 400 to 599 only): on a 300 whose body lists a hit, both
    searches return the hit's URL instead of [None]. *)
Lemma non_2xx_status_is_not_caught :
  ¬ (200 ≤ status_code found_response < 300) ∧
  (@buscar_imagen_pixabay multiple_choices_services (py "gato") JNull initial_state).1
    = Ok (jstr "https://pixabay.com/get/cat_1280.jpg") ∧
  (@buscar_video_pixabay multiple_choices_services (py "gato") JNull initial_state).1
    = Ok (jstr "https://cdn.pixabay.com/video/cat_large.mp4").
Proof. split; [simpl; lia|]. split; by vm_compute. Qed.

(** ** Validation in [generate_initial_content] *)

Section validation.
Context `{Builtins} `{Services}.

Lemma lstrip_blank (g : str) : Forall (λ c, isspace c = true) g → lstrip g = [].
Proof. induction 1 as [|c g Hc _ IH]; simpl; [done|]. by rewrite Hc. Qed.

Lemma strip_blank (g : str) : Forall (λ c, isspace c = true) g → strip g = [].
Proof. intros Hg. unfold strip. by rewrite (lstrip_blank g Hg). Qed.

Lemma py_int_None : ∃ e, py_int JNull = Raise e.
Proof. by eexists. Qed.

(** C10: [int(data.get('duracion'))] runs before the test of the
    script, so a missing or unconvertible [duracion] gives a 500 with
    an [error] field, whatever the script is, and no call goes out. *)
Theorem duracion_is_converted_first (request : gmap str json) (st : state) :
  request !! py "duracion" = None ∨
  (∃ e, py_int (default JNull (request !! py "duracion")) = Raise e) →
  is_error_response 500 (generate_initial_content (JObj request) st).1 ∧
  (generate_initial_content (JObj request) st).2 = st.
Proof.
  intros Hbad.
  assert (∃ e, py_int (default JNull (request !! py "duracion")) = Raise e)
    as [e He].
  { destruct Hbad as [->|?]; [apply py_int_None|done]. }
  unfold generate_initial_content, handle.
  rewrite (bind_lift_Ok (dict_get (JObj request) "guionPersonalizado" (JStr []))
             _ st _ eq_refl); cbv beta.
  destruct (py_strip (default (JStr []) (request !! py "guionPersonalizado")))
    as [guion|e'] eqn:Hstrip.
  - rewrite (bind_lift_Ok _ _ st _ eq_refl); cbv beta.
    rewrite (bind_lift_Ok (dict_get (JObj request) "duracion" JNull) _ st _ eq_refl);
      cbv beta.
    erewrite bind_Raise by (unfold lift; by rewrite He).
    simpl. split; [|done]. split; [done|by eexists].
  - erewrite bind_Raise by done.
    simpl. split; [|done]. split; [done|by eexists].
Qed.

(** C8, as the code has it: with a [duracion] that converts, an empty
    or blank script is answered by the 400 and its message, and no call
    goes out. *)
Theorem empty_script_is_rejected (request : gmap str json) (st : state)
    (guion : str) (duracion : Z) :
  default (JStr []) (request !! py "guionPersonalizado") = JStr guion →
  Forall (λ c, isspace c = true) guion →
  py_int (default JNull (request !! py "duracion")) = Ok duracion →
  generate_initial_content (JObj request) st
  = ({| body := jsonify [("error", JStr msg_guion_vacio)]; status := 400 |}, st).
Proof.
  intros Hguion Hblank Hduracion.
  unfold generate_initial_content, handle.
  rewrite (bind_lift_Ok (dict_get (JObj request) "guionPersonalizado" (JStr []))
             _ st _ eq_refl); cbv beta.
  rewrite Hguion.
  rewrite (bind_lift_Ok (py_strip (JStr guion)) _ st [])
    by (simpl; by rewrite (strip_blank guion)); cbv beta.
  rewrite (bind_lift_Ok (dict_get (JObj request) "duracion" JNull) _ st _ eq_refl);
    cbv beta.
  rewrite (bind_lift_Ok _ _ st _ Hduracion); cbv beta.
  rewrite (bind_lift_Ok (dict_get (JObj request) "resolucion" JNull) _ st _ eq_refl);
    cbv beta.
  rewrite (bind_lift_Ok (dict_get (JObj request) "nicho" JNull) _ st _ eq_refl);
    cbv beta.
  rewrite (bind_lift_Ok (dict_get (JObj request) "idioma" JNull) _ st _ eq_refl);
    cbv beta.
  done.
Qed.

End validation.

Lemma duracion_is_converted_first_run :
  (∃ e, @py_int ascii_builtins (jstr "siete") = Raise e) ∧
  is_error_response 500
    (@generate_initial_content ascii_builtins failing_services
       request_with_bad_duracion initial_state).1.
Proof.
  split; [by eexists|].
  refine (proj1 (@duracion_is_converted_first ascii_builtins failing_services
                   _ initial_state _)).
  right. by eexists.
Defined.

Lemma empty_script_is_rejected_run :
  Forall (λ c, isspace c = true) (py "  ") ∧
  @generate_initial_content ascii_builtins failing_services
    request_with_blank_script initial_state
  = ({| body := jsonify [("error", JStr msg_guion_vacio)]; status := 400 |},
     initial_state).
Proof.
  split; [by repeat constructor|].
  eapply (@empty_script_is_rejected ascii_builtins failing_services
            _ initial_state (py "  ") 30); [done| |done].
  by repeat constructor.
Defined.

(** With an empty script and no [duracion], the answer is the 500 of
    the failed conversion, not the 400. *)
Lemma empty_script_without_duracion :
  status (@generate_initial_content ascii_builtins failing_services
            request_without_duracion initial_state).1 = 500.
Proof. by vm_compute. Qed.

(** ** SEO *)

Section seo.
Context `{Builtins} `{Services}.

Lemma seo_field_inv (key : string) (p : prompt)
    (seo_data seo_data' : gmap str json) (st st1 : state) :
  seo_field key p seo_data st = (Ok seo_data', st1) →
  ∃ text, seo_data' = <[py key := JStr text]> seo_data.
Proof.
  unfold seo_field. intros Hrun. do 2 step_run Hrun.
  apply ret_Ok_inv in Hrun as [-> _]. by eexists.
Qed.

(** One [if] block of [generate_seo]: the key is stored when the
    condition holds, and nothing changes otherwise. *)
Lemma seo_block_inv (c : bool) (key : string) (block : M (gmap str json))
    (seo_data seo_data' : gmap str json) (st st1 : state) :
  (∀ st d st1, block st = (Ok d, st1) →
               ∃ text, d = <[py key := JStr text]> seo_data) →
  (if c then block else mret seo_data) st = (Ok seo_data', st1) →
  dom seo_data' = (if c then {[ py key ]} else ∅) ∪ dom seo_data.
Proof.
  intros Hblock Hrun. destruct c.
  - destruct (Hblock _ _ _ Hrun) as [text ->]. by rewrite dom_insert_L.
  - apply ret_Ok_inv in Hrun as [-> _]. by rewrite (left_id_L ∅ (∪)).
Qed.

(** C7: when [generate_seo] answers 200, the body is a mapping whose
    keys are the one requested field, or all three for [all] and for a
    request without [type]. *)
Theorem generate_seo_exactly_requested (request : gmap str json) (st : state) :
  status (generate_seo (JObj request) st).1 = 200 →
  ∃ seo_data, body (generate_seo (JObj request) st).1 = JObj seo_data ∧
              exactly_requested request seo_data.
Proof.
  unfold generate_seo, handle.
  match goal with |- context [match ?run st with _ => _ end] =>
    destruct (run st) as [[r|e] st1] eqn:Hrun end; simpl; [|done].
  intros Hstatus. do 3 step_run Hrun.
  simpl in Hstep1. injection Hstep1 as <-.
  destruct (negb (truthy v) || negb (truthy v0)).
  { apply ret_Ok_inv in Hrun as [-> _]. done. }
  apply bind_Ok_inv in Hrun as (d1 & st2 & Hd1 & Hrun).
  apply bind_Ok_inv in Hrun as (d2 & st3 & Hd2 & Hrun).
  apply bind_Ok_inv in Hrun as (d3 & st4 & Hd3 & Hrun).
  apply ret_Ok_inv in Hrun as [-> _]. simpl. exists d3. split; [done|].
  apply (seo_block_inv _ "titulo") in Hd1; last first.
  { intros st' d st'' Hblock. step_run Hblock. by eapply seo_field_inv. }
  apply (seo_block_inv _ "descripcion") in Hd2; last first.
  { intros st' d st'' Hblock. by eapply seo_field_inv. }
  apply (seo_block_inv _ "hashtags") in Hd3; last first.
  { intros st' d st'' Hblock. step_run Hblock. by eapply seo_field_inv. }
  unfold exactly_requested, all_seo_fields.
  rewrite Hd3, Hd2, Hd1, dom_empty_L. clear.
  repeat split.
  - intros ->. simpl. set_solver.
  - intros ->. simpl. set_solver.
  - intros ->. simpl. set_solver.
  - intros [->| ->]; simpl; set_solver.
Qed.

(** The 200 is reached whenever the script is a non-empty string, the
    niche is set and every completion has a content. *)
Lemma generate_seo_succeeds (request : gmap str json) (st : state)
    (guion : str) (nicho : json) :
  request !! py "guion" = Some (JStr guion) → guion ≠ [] →
  request !! py "nicho" = Some nicho → truthy nicho = true →
  (∀ history r, ∃ content, chat_completions_create history r = Ok (Some content)) →
  status (generate_seo (JObj request) st).1 = 200.
Proof.
  intros Hguion Hne Hnicho Htrue Hchat.
  assert (∀ key p d st0, ∃ d' st1, seo_field key p d st0 = (Ok d', st1)) as Hfield.
  { intros key p d st0. unfold seo_field.
    destruct (Hchat (calls st0)
                {| chat_model := "gpt-4-turbo"; chat_json_object := false;
                   chat_messages := [("system", p)] |}) as [content Hcontent].
    erewrite bind_Ok by (unfold chat; by rewrite Hcontent). cbv beta.
    rewrite (bind_lift_Ok (content_strip (Some content)) _ _ _ eq_refl).
    by eexists _, _. }
  unfold generate_seo, handle.
  rewrite (bind_lift_Ok _ _ st (JStr guion)) by (simpl; by rewrite Hguion);
    cbv beta.
  rewrite (bind_lift_Ok _ _ st nicho) by (simpl; by rewrite Hnicho); cbv beta.
  rewrite (bind_lift_Ok (dict_get (JObj request) "type" (JStr (py "all")))
             _ st _ eq_refl); cbv beta.
  assert (truthy (JStr guion) = true) as ->
    by (simpl; by rewrite bool_decide_false).
  rewrite Htrue. cbn [negb orb]. cbv iota zeta.
  set (seo_type := default (JStr (py "all")) (request !! py "type")).
  match goal with |- context [(?block ≫= _) st] =>
    assert (∃ d1 st1, block st = (Ok d1, st1)) as (d1 & st1 & Hd1) end.
  { destruct (eq_str seo_type "all" || eq_str seo_type "titulo");
      [|exists ∅, st; done].
    exact (Hfield "titulo" (PromptTitulo nicho (JStr (take 200 guion))) ∅ st). }
  rewrite (bind_Ok _ _ _ _ _ Hd1); cbv beta.
  match goal with |- context [(?block ≫= _) st1] =>
    assert (∃ d2 st2, block st1 = (Ok d2, st2)) as (d2 & st2 & Hd2) end.
  { destruct (eq_str seo_type "all" || eq_str seo_type "descripcion");
      [|exists d1, st1; done].
    apply Hfield. }
  rewrite (bind_Ok _ _ _ _ _ Hd2); cbv beta.
  match goal with |- context [(?block ≫= _) st2] =>
    assert (∃ d3 st3, block st2 = (Ok d3, st3)) as (d3 & st3 & Hd3) end.
  { destruct (eq_str seo_type "all" || eq_str seo_type "hashtags");
      [|exists d2, st2; done].
    exact (Hfield "hashtags" (PromptHashtags nicho (JStr (take 200 guion))) d2 st2). }
  rewrite (bind_Ok _ _ _ _ _ Hd3). done.
Qed.

End seo.

Lemma generate_seo_titulo_run :
  status (@generate_seo seo_services
            (JObj (seo_request "titulo")) initial_state).1 = 200 ∧
  ∃ seo_data,
    body (@generate_seo seo_services
            (JObj (seo_request "titulo")) initial_state).1 = JObj seo_data ∧
    exactly_requested (seo_request "titulo") seo_data.
Proof.
  split; [by vm_compute|].
  apply (@generate_seo_exactly_requested seo_services).
  by vm_compute.
Defined.

Example generate_seo_titulo :
  (@generate_seo seo_services
     (JObj (seo_request "titulo")) initial_state).1
  = {| body := jsonify [("titulo", jstr "Lo que nadie te dijo del ahorro")];
       status := 200 |}.
Proof. by vm_compute. Qed.

Example generate_seo_all :
  (@generate_seo seo_services
     (JObj (seo_request "all")) initial_state).1
  = {| body := jsonify [("titulo", jstr "Lo que nadie te dijo del ahorro");
                        ("descripcion", jstr "Aprende a ahorrar. Suscribete.");
                        ("hashtags", jstr "#finanzas #ahorro")];
       status := 200 |}.
Proof. by vm_compute. Qed.

(** ** Narration *)

Example b64encode_Man :
  b64encode [Byte.x4d; Byte.x61; Byte.x6e] = py "TWFu" ∧
  b64encode [Byte.x4d; Byte.x61] = py "TWE=" ∧
  b64encode [Byte.x4d] = py "TQ==".
Proof. by vm_compute. Qed.


Section narration.
Context `{Builtins} `{Services}.





Lemma generate_audio_inv (data : gmap str json) (scenes : list json) (st : state) :
  data !! py "scenes" = Some (JArr scenes) →
  status (generate_audio (JObj data) st).1 = 200 →
  ∃ out,
    for_each (with_audio (default (JStr (py "nova")) (data !! py "voice")))
      scenes st = (Ok out, (generate_audio (JObj data) st).2) ∧
    (generate_audio (JObj data) st).1
      = {| body := jsonify [("scenes", JArr out)]; status := 200 |}.
Proof.
  intros Hscenes. unfold generate_audio, handle.
  rewrite (bind_lift_Ok _ _ st (JArr scenes)) by (simpl; by rewrite Hscenes);
    cbv beta.
  rewrite (bind_lift_Ok (dict_get (JObj data) "voice" (JStr (py "nova")))
             _ st _ eq_refl); cbv beta.
  rewrite (bind_lift_Ok (iterate (JArr scenes)) _ st _ eq_refl); cbv beta.
  destruct (for_each _ scenes st) as [[out|e] st1] eqn:Hloop.
  - rewrite !(bind_Ok _ _ _ _ _ Hloop). simpl. intros _. by exists out.
  - rewrite !(bind_Raise _ _ _ _ _ Hloop). done.
Qed.




End narration.

(** ** Which field receives the URL *)

Section fallback.
Context `{Builtins} `{Services}.

(** When the draw selects video, the video search returns nothing and
    the image search returns [url], the pair handed to the caller is
    [(True, url)]: the caller then stores [url] under the video key. *)
Lemma draw_and_search_fallback (query : str) (res video url : json)
    (st st1 st2 : state) :
  float_ltb (random_random (draws st)) float_0_7 = true →
  buscar_video_pixabay query res
    {| calls := calls st; draws := S (draws st); uuids := uuids st |}
    = (Ok video, st1) →
  truthy video = false →
  buscar_imagen_pixabay query res st1 = (Ok url, st2) →
  draw_and_search query res st = (Ok (true, url), st2).
Proof.
  intros Hdraw Hvideo Hnothing Himage. unfold draw_and_search.
  rewrite (bind_Ok random _ st _ _ eq_refl). cbv beta zeta. rewrite Hdraw.
  rewrite (bind_Ok _ _ _ _ _ Hvideo). cbv beta. rewrite Hnothing.
  by rewrite (bind_Ok _ _ _ _ _ Himage).
Qed.

End fallback.

(** C1 fails on the code: the draw selects video, the video search
    finds nothing, the image search finds a JPEG, and both endpoints
    return the JPEG under the video key with the image key [null]. *)
Lemma image_url_lands_in_video_field :
  response_scenes
    (@generate_initial_content (scripted_builtins (Ok parsed_gato))
       image_only_services request_gato initial_state).1
  = [obj [("id", jstr "00000000-0000-4000-8000-000000000000");
          ("script", jstr "Un gato duerme al sol.");
          ("imageUrl", JNull);
          ("videoUrl", jstr "https://pixabay.com/get/cat_1280.jpg");
          ("audioBase64", JNull)]] ∧
  (@regenerate_scene_part ascii_builtins image_only_services
     regenerate_media_request initial_state).1
  = {| body := jsonify [("newVideoUrl", jstr "https://pixabay.com/get/cat_1280.jpg");
                        ("newImageUrl", JNull)];
       status := 200 |}.
Proof. split; by vm_compute. Qed.

Lemma media_fields_exclusive_run :
  Forall (media_exclusive "imageUrl" "videoUrl")
    (response_scenes
       (@generate_initial_content (scripted_builtins (Ok parsed_gato))
          image_only_services request_gato initial_state).1) ∧
  media_exclusive "newImageUrl" "newVideoUrl"
    (body (@regenerate_scene_part ascii_builtins image_only_services
             regenerate_media_request initial_state).1).
Proof.
  split.
  - exact (proj1 (@media_fields_exclusive (scripted_builtins (Ok parsed_gato))
                    image_only_services request_gato initial_state)).
  - eapply (proj2 (@media_fields_exclusive ascii_builtins image_only_services
                     regenerate_media_request initial_state));
      by vm_compute.
Defined.

(** ** Narration, on scripted services *)




Example regenerate_audio_overwrites :
  (@regenerate_scene_part ascii_builtins audible_services
     (JObj regenerate_audio_request) initial_state).1
  = {| body := jsonify [("newAudioBase64", jstr "TWFu")]; status := 200 |}.
Proof. by vm_compute. Qed.

(** * Further properties *)

(** ** Keyword extractor: ranking *)

Section keyword_ranking.
Context `{Builtins}.
Import Keywords.

(** The total that a counter holds for [w]. *)
Lemma counter_add_fst w c :
  (counter_add w c).*1 = if bool_decide (w ∈ c.*1) then c.*1 else c.*1 ++ [w].
Proof.
  induction c as [|[k n] c IH]; [done|]. cbn [counter_add].
  destruct (bool_decide_reflect (k = w)) as [->|Hk]; rewrite !fmap_cons; cbn [fst].
  - by rewrite bool_decide_true by left.
  - rewrite IH. destruct (bool_decide_reflect (w ∈ c.*1)) as [Hin|Hin].
    + by rewrite bool_decide_true by (by right).
    + rewrite bool_decide_false; [done|].
      intros [->|?]%elem_of_cons; done.
Qed.

Lemma counter_add_NoDup w c : NoDup c.*1 → NoDup (counter_add w c).*1.
Proof.
  intros Hc. rewrite counter_add_fst. case_bool_decide as Hin; [done|].
  apply NoDup_app. split; [done|]. split; [|apply NoDup_singleton].
  intros x Hx ->%list_elem_of_singleton. done.
Qed.

Lemma foldl_counter_add_NoDup ws c :
  NoDup c.*1 → NoDup (foldl (λ c w, counter_add w c) c ws).*1.
Proof.
  revert c. induction ws as [|w ws IH]; simpl; [done|].
  intros c Hc. by apply IH, counter_add_NoDup.
Qed.

Lemma Counter_NoDup ws : NoDup (Counter ws).*1.
Proof. apply foldl_counter_add_NoDup. constructor. Qed.

Lemma foldl_counter_add_complete ws c w :
  w ∈ c.*1 ∨ w ∈ ws → w ∈ (foldl (λ c w, counter_add w c) c ws).*1.
Proof.
  revert c. induction ws as [|w' ws IH]; simpl; intros c [Hc|Hws].
  - done.
  - by apply elem_of_nil in Hws.
  - apply IH. left. rewrite counter_add_fst.
    case_bool_decide; [done|]. apply elem_of_app. by left.
  - apply elem_of_cons in Hws as [->|Hws]; apply IH; [left|by right].
    rewrite counter_add_fst. case_bool_decide; [done|].
    apply elem_of_app. right. by left.
Qed.

Lemma Counter_complete ws w : w ∈ ws → w ∈ (Counter ws).*1.
Proof. intros Hw. apply foldl_counter_add_complete. by right. Qed.

(** What a counter has tallied for [w], summed over its entries. *)
Definition tally (c : list (str * nat)) (w : str) : nat :=
  sum_list (snd <$> filter (λ e, e.1 = w) c).

Lemma tally_counter_add w' c w :
  tally (counter_add w' c) w
  = (tally c w + if bool_decide (w' = w) then 1 else 0)%nat.
Proof.
  unfold tally. induction c as [|[k n] c IH]; cbn [counter_add].
  - rewrite filter_cons. cbn [fst]. destruct (decide (w' = w)) as [->|Hne].
    + by rewrite bool_decide_true by done.
    + by rewrite bool_decide_false by done.
  - destruct (bool_decide_reflect (k = w')) as [->|Hk].
    + rewrite !filter_cons. cbn [fst].
      destruct (decide (w' = w)) as [->|Hne].
      * rewrite bool_decide_true by done. rewrite !fmap_cons.
        cbn [snd sum_list sum_list_with]. unfold id. lia.
      * rewrite bool_decide_false by done. lia.
    + rewrite !filter_cons. cbn [fst].
      destruct (decide (k = w)); rewrite ?fmap_cons;
        cbn [snd sum_list sum_list_with]; rewrite IH; lia.
Qed.

Lemma tally_foldl ws c w :
  tally (foldl (λ c w, counter_add w c) c ws) w
  = (tally c w + occurrences w ws)%nat.
Proof.
  revert c. induction ws as [|w' ws IH]; simpl; intros c.
  - unfold occurrences. simpl. lia.
  - rewrite IH, tally_counter_add. unfold occurrences.
    rewrite filter_cons. case_decide; case_bool_decide; simpl; try done; lia.
Qed.

Lemma filter_absent_key (c : list (str * nat)) (k : str) :
  k ∉ c.*1 → filter (λ e : str * nat, e.1 = k) c = [].
Proof.
  induction c as [|[k' n'] c IH]; [done|]. rewrite fmap_cons. cbn [fst].
  intros Hk. apply not_elem_of_cons in Hk as [Hne Hk].
  rewrite filter_cons. cbn [fst]. rewrite decide_False by done. by apply IH.
Qed.

Lemma tally_NoDup c w n : NoDup c.*1 → (w, n) ∈ c → tally c w = n.
Proof.
  unfold tally. induction c as [|[k m] c IH]; intros Hnd Hin.
  { by apply elem_of_nil in Hin. }
  rewrite fmap_cons in Hnd. cbn [fst] in Hnd.
  apply NoDup_cons in Hnd as [Hk Hnd]. rewrite filter_cons. cbn [fst].
  apply elem_of_cons in Hin as [[= -> ->]|Hin].
  - rewrite decide_True by done.
    assert (filter (λ e : str * nat, e.1 = k) c = []) as ->.
    { by apply filter_absent_key. }
    rewrite fmap_cons. cbn. unfold id. lia.
  - rewrite decide_False; [by apply IH|].
    intros ->. apply Hk, list_elem_of_fmap. by exists (w, n).
Qed.

(** Each entry of [Counter words] holds the number of occurrences of
    its word. *)
Lemma Counter_count ws w n : (w, n) ∈ Counter ws → n = occurrences w ws.
Proof.
  intros Hin. rewrite <- (tally_NoDup _ _ _ (Counter_NoDup ws) Hin).
  unfold Counter. by rewrite tally_foldl.
Qed.

Lemma StronglySorted_lookup {A} (R : relation A) (l : list A) i j x y :
  StronglySorted R l → (i < j)%nat →
  l !! i = Some x → l !! j = Some y → R x y.
Proof.
  intros Hl. revert i j. induction Hl as [|z l Hl IH Hz]; intros i j Hij Hi Hj.
  { done. }
  destruct j as [|j]; [lia|]. simpl in Hj.
  destruct i as [|i]; simpl in Hi.
  - injection Hi as ->. eapply Forall_forall; [exact Hz|].
    by eapply list_elem_of_lookup_2.
  - apply (IH i j); [lia|done..].
Qed.

#[local] Instance by_count_transitive :
  Transitive (λ a b : str * nat, (b.2 ≤ a.2)%nat).
Proof. intros a b c ??. lia. Qed.

(** The entries that [extract_keywords] ranks, when it does not fall
    back: the keywords are their first components. *)
Lemma extract_keywords_ranked text n :
  extract_keywords text n = [first_piece text] ∧
    (most_common n (Counter (filtered_words text))) = [] ∨
  extract_keywords text n = (most_common n (Counter (filtered_words text))).*1.
Proof.
  unfold extract_keywords.
  destruct (most_common n (Counter (filtered_words text))) as [|e l];
    [by left|by right].
Qed.

(** X1: the keywords returned are pairwise distinct, and there is
    always at least one. *)
Theorem extract_keywords_distinct text n :
  NoDup (extract_keywords text n) ∧ extract_keywords text n ≠ [].
Proof.
  destruct (extract_keywords_ranked text n) as [[-> _]|Heq].
  { split; [apply NoDup_singleton|done]. }
  split.
  - rewrite Heq. unfold most_common. rewrite fmap_take.
    eapply sublist_NoDup; [|apply sublist_take].
    rewrite (sorted_by_count_perm (Counter (filtered_words text))).
    apply Counter_NoDup.
  - unfold extract_keywords. by destruct (_.*1).
Qed.

(** X2: the keywords come out by decreasing number of occurrences
    among the words that pass the filter. *)
Theorem extract_keywords_by_frequency text n (i j : nat) (a b : str) :
  (i < j)%nat →
  extract_keywords text n !! i = Some a →
  extract_keywords text n !! j = Some b →
  (occurrences b (filtered_words text) ≤ occurrences a (filtered_words text))%nat.
Proof.
  intros Hij Ha Hb.
  destruct (extract_keywords_ranked text n) as [[Heq _]|Heq]; rewrite Heq in Ha, Hb.
  { destruct j as [|j]; [lia|]. done. }
  unfold most_common in Ha, Hb.
  rewrite list_lookup_fmap in Ha, Hb.
  destruct (take _ _ !! i) as [[a' na]|] eqn:Hia; [|done].
  destruct (take _ _ !! j) as [[b' nb]|] eqn:Hjb; [|done].
  simpl in Ha, Hb. injection Ha as ->. injection Hb as ->.
  apply lookup_take_Some in Hia as [Hia _].
  apply lookup_take_Some in Hjb as [Hjb _].
  pose proof (Sorted_StronglySorted _ _
    (sorted_by_count_sorted (Counter (filtered_words text)))) as Hsorted.
  pose proof (StronglySorted_lookup _ _ i j _ _ Hsorted Hij Hia Hjb) as Hle.
  simpl in Hle.
  assert (∀ w m, sorted_by_count (Counter (filtered_words text)) !! i = Some (w, m)
                 ∨ sorted_by_count (Counter (filtered_words text)) !! j = Some (w, m)
                 → m = occurrences w (filtered_words text)) as Hcount.
  { intros w m Hw. apply Counter_count.
    rewrite <- (sorted_by_count_perm (Counter (filtered_words text))).
    destruct Hw as [Hw|Hw]; by eapply list_elem_of_lookup_2. }
  rewrite <- (Hcount a na) by (by left). rewrite <- (Hcount b nb) by (by right).
  done.
Qed.

(** X3: when [n] is at least the number of distinct words that pass
    the filter, and there is one, the keywords are exactly these
    words. *)
Theorem extract_keywords_exhaustive text n (w : str) :
  filtered_words text ≠ [] →
  Z.of_nat (length (remove_dups (filtered_words text))) ≤ n →
  w ∈ extract_keywords text n ↔ w ∈ filtered_words text.
Proof.
  intros Hsome Hn.
  assert ((Counter (filtered_words text)).*1 ≡ₚ remove_dups (filtered_words text))
    as Hkeys.
  { apply NoDup_Permutation; [apply Counter_NoDup|apply NoDup_remove_dups|].
    intros x. rewrite elem_of_remove_dups. split.
    - apply Counter_keys.
    - apply Counter_complete. }
  assert (1 ≤ n) as Hpos.
  { destruct (remove_dups (filtered_words text)) as [|x l] eqn:Hrd; [|simpl in Hn; lia].
    destruct (filtered_words text) as [|y fw]; [done|].
    assert (y ∈ remove_dups (y :: fw)) as Hy by (apply elem_of_remove_dups; left).
    rewrite Hrd in Hy. by apply elem_of_nil in Hy. }
  destruct (extract_keywords_most_common text n Hpos Hsome) as [-> _].
  unfold most_common. rewrite take_ge.
  - rewrite sorted_by_count_perm. split; [apply Counter_keys|apply Counter_complete].
  - rewrite (Permutation_length (sorted_by_count_perm _)).
    rewrite <- (length_fmap fst), Hkeys. lia.
Qed.

End keyword_ranking.

Lemma extract_keywords_by_frequency_run :
  let text := py "el gato y el Gato con la casa de la casa azul" in
  (1 < 2)%nat ∧
  @Keywords.extract_keywords ascii_builtins text 3 !! 1%nat = Some (py "casa") ∧
  @Keywords.extract_keywords ascii_builtins text 3 !! 2%nat = Some (py "azul") ∧
  (occurrences (py "azul") (@Keywords.filtered_words ascii_builtins text)
   ≤ occurrences (py "casa") (@Keywords.filtered_words ascii_builtins text))%nat.
Proof.
  intros text. split; [lia|]. split; [by vm_compute|]. split; [by vm_compute|].
  apply (@extract_keywords_by_frequency ascii_builtins text 3 1 2);
    [lia|by vm_compute..].
Defined.

Lemma extract_keywords_exhaustive_run :
  let text := py "el gato y el Gato con la casa de la casa azul" in
  @Keywords.filtered_words ascii_builtins text ≠ [] ∧
  Z.of_nat (length (remove_dups (@Keywords.filtered_words ascii_builtins text))) ≤ 3 ∧
  (py "azul" ∈ @Keywords.extract_keywords ascii_builtins text 3
   ↔ py "azul" ∈ @Keywords.filtered_words ascii_builtins text).
Proof.
  intros text.
  assert (@Keywords.filtered_words ascii_builtins text ≠ []) as Hsome
    by (by vm_compute).
  assert (Z.of_nat (length (remove_dups (@Keywords.filtered_words ascii_builtins text)))
          ≤ 3) as Hn by (vm_compute; discriminate).
  split; [done|]. split; [done|].
  exact (@extract_keywords_exhaustive ascii_builtins text 3 (py "azul") Hsome Hn).
Defined.

(** ** Keyword extractor: ties *)

Section keyword_ties.
Context `{Builtins}.
Import Keywords.

(** [x] stands before [y] in [l]. *)
Definition precedes {A} (l : list A) (x y : A) : Prop :=
  ∃ i j, (i < j)%nat ∧ l !! i = Some x ∧ l !! j = Some y.

Lemma precedes_app_cons {A} (l1 l2 : list A) (x y z : A) :
  precedes (l1 ++ l2) x y → precedes (l1 ++ z :: l2) x y.
Proof.
  intros (i & j & Hij & Hi & Hj).
  assert (∀ k v, (l1 ++ l2) !! k = Some v →
                 ∃ k', (l1 ++ z :: l2) !! k' = Some v ∧
                       k' = if decide (k < length l1)%nat then k else S k) as Hshift.
  { intros k v Hk. destruct (decide (k < length l1)%nat) as [Hlt|Hge].
    - exists k. split; [|done]. rewrite lookup_app_l in Hk by done.
      by rewrite lookup_app_l.
    - exists (S k). split; [|done]. rewrite lookup_app_r in Hk by lia.
      rewrite lookup_app_r by lia.
      replace (S k - length l1)%nat with (S (k - length l1)) by lia. done. }
  destruct (Hshift i x Hi) as (i' & Hi' & ->).
  destruct (Hshift j y Hj) as (j' & Hj' & ->).
  eexists _, _. split; [|done]. repeat case_decide; lia.
Qed.

(** Where [insert_by_count] puts an entry: after the entries of
    greater count that lead the list. *)
Lemma insert_by_count_split x l :
  ∃ l1 l2, l = l1 ++ l2 ∧ insert_by_count x l = l1 ++ x :: l2 ∧
           Forall (λ y, (x.2 < y.2)%nat) l1.
Proof.
  induction l as [|y l IH]; simpl.
  { by exists [], []. }
  destruct (Nat.ltb_spec x.2 y.2) as [Hlt|Hge].
  - destruct IH as (l1 & l2 & -> & -> & Hl1).
    exists (y :: l1), l2. split; [done|]. split; [done|]. by constructor.
  - by exists [], (y :: l).
Qed.

(** The sort is stable: an entry stays before a later entry whose
    count is not greater. *)
Lemma sorted_by_count_stable c (i j : nat) x y :
  (i < j)%nat → c !! i = Some x → c !! j = Some y → (y.2 ≤ x.2)%nat →
  precedes (sorted_by_count c) x y.
Proof.
  revert i j. induction c as [|z c IH]; intros i j Hij Hi Hj Hle; [done|].
  simpl. destruct (insert_by_count_split z (sorted_by_count c))
    as (l1 & l2 & Hsplit & -> & Hl1).
  destruct j as [|j]; [lia|]. simpl in Hj.
  destruct i as [|i]; simpl in Hi.
  - injection Hi as ->.
    assert (y ∈ l1 ++ l2) as Hy.
    { rewrite <- Hsplit, sorted_by_count_perm. by eapply list_elem_of_lookup_2. }
    apply elem_of_app in Hy as [Hy|Hy].
    + pose proof (proj1 (Forall_forall _ _) Hl1 y Hy). simpl in *. lia.
    + apply list_elem_of_lookup in Hy as [k Hk].
      exists (length l1), (S (length l1 + k)). split; [lia|]. split.
      * by rewrite lookup_app_r, Nat.sub_diag by lia.
      * rewrite lookup_app_r by lia.
        replace (S (length l1 + k) - length l1)%nat with (S k) by lia. done.
  - apply precedes_app_cons. rewrite <- Hsplit.
    apply (IH i j); [lia|done..].
Qed.

(** New keys are appended to the counter. *)
Lemma foldl_counter_add_prefix ws c :
  ∃ ext, (foldl (λ c w, counter_add w c) c ws).*1 = c.*1 ++ ext.
Proof.
  revert c. induction ws as [|w ws IH]; simpl; intros c.
  { exists []. by rewrite app_nil_r. }
  destruct (IH (counter_add w c)) as [ext ->]. rewrite counter_add_fst.
  case_bool_decide; [by exists ext|].
  exists (w :: ext). by rewrite <- app_assoc.
Qed.

(** The keys of a counter are in the order of first occurrence. *)
Lemma foldl_counter_add_order ws c (p q : nat) (a b : str) :
  NoDup c.*1 → (p < q)%nat →
  (foldl (λ c w, counter_add w c) c ws).*1 !! p = Some a →
  (foldl (λ c w, counter_add w c) c ws).*1 !! q = Some b →
  b ∉ c.*1 →
  a ∈ c.*1 ∨ ∃ l1 l2, ws = l1 ++ a :: l2 ∧ b ∉ l1.
Proof.
  revert c. induction ws as [|w ws IH]; simpl; intros c Hnd Hpq Hp Hq Hb.
  { left. by eapply list_elem_of_lookup_2. }
  pose proof (counter_add_NoDup w c Hnd) as Hnd'.
  destruct (decide (b ∈ (counter_add w c).*1)) as [Hin|Hout].
  - left. rewrite counter_add_fst in Hin.
    case_bool_decide as Hw; [done|].
    apply elem_of_app in Hin as [?|Hin]; [done|].
    apply list_elem_of_singleton in Hin as ->.
    destruct (foldl_counter_add_prefix ws (counter_add w c)) as [ext Hext].
    pose proof (foldl_counter_add_NoDup ws _ Hnd') as Hall.
    rewrite Hext in Hp, Hq, Hall. rewrite counter_add_fst in Hp, Hq, Hall.
    rewrite bool_decide_false in Hp, Hq, Hall by done.
    assert (((c.*1 ++ [w]) ++ ext) !! length c.*1 = Some w) as Hat.
    { rewrite lookup_app_l by (rewrite length_app; simpl; lia).
      by rewrite lookup_app_r, Nat.sub_diag by lia. }
    pose proof (NoDup_lookup _ _ _ _ Hall Hq Hat) as ->.
    rewrite <- app_assoc, lookup_app_l in Hp by done.
    by eapply list_elem_of_lookup_2.
  - destruct (IH _ Hnd' Hpq Hp Hq Hout) as [Ha|(l1 & l2 & -> & Hl1)].
    + rewrite counter_add_fst in Ha. case_bool_decide as Hw; [by left|].
      apply elem_of_app in Ha as [?|Ha]; [by left|].
      apply list_elem_of_singleton in Ha as ->.
      right. exists [], ws. split; [done|apply not_elem_of_nil].
    + right. exists (w :: l1), l2. split; [done|].
      apply not_elem_of_cons. split; [|done].
      intros ->. apply Hout. rewrite counter_add_fst.
      case_bool_decide; [done|]. apply elem_of_app. right. by left.
Qed.

(** X4: between two keywords with the same number of occurrences, the
    one returned first is the one met first in the text: it occurs
    among the filtered words before any occurrence of the other. *)
Theorem extract_keywords_ties text n (i j : nat) (a b : str) :
  (i < j)%nat →
  extract_keywords text n !! i = Some a →
  extract_keywords text n !! j = Some b →
  occurrences a (filtered_words text) = occurrences b (filtered_words text) →
  ∃ l1 l2, filtered_words text = l1 ++ a :: l2 ∧ b ∉ l1.
Proof.
  intros Hij Ha Hb Htie.
  destruct (extract_keywords_ranked text n) as [[Heq _]|Heq]; rewrite Heq in Ha, Hb.
  { destruct j as [|j]; [lia|]. done. }
  set (fw := filtered_words text) in *.
  unfold most_common in Ha, Hb. rewrite list_lookup_fmap in Ha, Hb.
  destruct (take _ _ !! i) as [[a' na]|] eqn:Hia; [|done].
  destruct (take _ _ !! j) as [[b' nb]|] eqn:Hjb; [|done].
  simpl in Ha, Hb. injection Ha as ->. injection Hb as ->.
  apply lookup_take_Some in Hia as [Hia _].
  apply lookup_take_Some in Hjb as [Hjb _].
  pose proof (Counter_NoDup fw) as Hkeys.
  assert (NoDup (sorted_by_count (Counter fw))) as Hsorted.
  { eapply NoDup_fmap_1. rewrite (sorted_by_count_perm (Counter fw)). exact Hkeys. }
  assert ((a, na) ∈ Counter fw) as Hain.
  { rewrite <- (sorted_by_count_perm (Counter fw)). by eapply list_elem_of_lookup_2. }
  assert ((b, nb) ∈ Counter fw) as Hbin.
  { rewrite <- (sorted_by_count_perm (Counter fw)). by eapply list_elem_of_lookup_2. }
  assert (na = nb) as <-.
  { rewrite (Counter_count _ _ _ Hain), (Counter_count _ _ _ Hbin). done. }
  apply list_elem_of_lookup in Hain as [p Hp], Hbin as [q Hq].
  assert (p < q)%nat as Hpq.
  { destruct (Nat.lt_trichotomy p q) as [?|[->|Hqp]]; [done|..].
    - rewrite Hp in Hq. injection Hq as <-.
      pose proof (NoDup_lookup _ _ _ _ Hsorted Hia Hjb). lia.
    - destruct (sorted_by_count_stable _ q p (b, na) (a, na) Hqp Hq Hp ltac:(done))
        as (i' & j' & Hij' & Hi' & Hj').
      pose proof (NoDup_lookup _ _ _ _ Hsorted Hia Hj').
      pose proof (NoDup_lookup _ _ _ _ Hsorted Hjb Hi'). lia. }
  destruct (foldl_counter_add_order fw [] p q a b) as [Hnil|Hsplit];
    [constructor|done|..|done].
  - change (foldl _ [] fw) with (Counter fw). by rewrite list_lookup_fmap, Hp.
  - change (foldl _ [] fw) with (Counter fw). by rewrite list_lookup_fmap, Hq.
  - apply not_elem_of_nil.
  - by apply elem_of_nil in Hnil.
Qed.

End keyword_ties.

Lemma extract_keywords_ties_run :
  let text := py "el gato y el Gato con la casa de la casa azul" in
  (0 < 1)%nat ∧
  @Keywords.extract_keywords ascii_builtins text 3 !! 0%nat = Some (py "gato") ∧
  @Keywords.extract_keywords ascii_builtins text 3 !! 1%nat = Some (py "casa") ∧
  occurrences (py "gato") (@Keywords.filtered_words ascii_builtins text)
    = occurrences (py "casa") (@Keywords.filtered_words ascii_builtins text) ∧
  ∃ l1 l2, @Keywords.filtered_words ascii_builtins text = l1 ++ py "gato" :: l2
           ∧ py "casa" ∉ l1.
Proof.
  intros text. split; [lia|]. split; [by vm_compute|]. split; [by vm_compute|].
  split; [by vm_compute|].
  apply (@extract_keywords_ties ascii_builtins text 3 0 1);
    [lia|by vm_compute..].
Defined.

(** ** Searches: what is chosen, what is not caught, what is called *)

Section search_more.
Context `{Builtins} `{Services}.

Lemma best_video_found (hit : gmap str json) (url : json) (rest : list json) :
  video_hit_shaped hit → video_url hit = Some url →
  best_video (JObj hit :: rest) = Ok url.
Proof.
  intros Hshape Hurl. unfold video_url in Hurl.
  destruct (hit !! py "videos") as [v|] eqn:Hv; [|done].
  destruct (Hshape v) as (videos & -> & Hlarge); [done|].
  destruct (videos !! py "large") as [l|] eqn:Hl; [|done].
  destruct (Hlarge l) as (large & ->); [done|].
  cbn [best_video]. rewrite contains_obj, bool_decide_true by (by rewrite Hv).
  cbn [mbind result_bind getitem]. rewrite Hv. cbn [mbind result_bind].
  rewrite contains_obj, bool_decide_true by (by rewrite Hl).
  cbn [mbind result_bind getitem]. rewrite Hl. cbn [mbind result_bind].
  rewrite contains_obj, bool_decide_true by (by rewrite Hurl).
  cbn [mbind result_bind getitem]. by rewrite Hurl.
Qed.

Lemma best_video_skip (hit : gmap str json) (rest : list json) :
  video_hit_shaped hit → video_url hit = None →
  best_video (JObj hit :: rest) = best_video rest.
Proof.
  intros Hshape Hurl. unfold video_url in Hurl. cbn [best_video].
  destruct (hit !! py "videos") as [v|] eqn:Hv; last first.
  { rewrite contains_obj, bool_decide_false by (rewrite Hv; by intros [??]). done. }
  destruct (Hshape v) as (videos & -> & Hlarge); [done|].
  rewrite contains_obj, bool_decide_true by (by rewrite Hv).
  cbn [mbind result_bind getitem]. rewrite Hv. cbn [mbind result_bind].
  destruct (videos !! py "large") as [l|] eqn:Hl; last first.
  { rewrite contains_obj, bool_decide_false by (rewrite Hl; by intros [??]). done. }
  destruct (Hlarge l) as (large & ->); [done|].
  rewrite contains_obj, bool_decide_true by (by rewrite Hl).
  cbn [mbind result_bind getitem]. rewrite Hl. cbn [mbind result_bind].
  rewrite contains_obj, bool_decide_false by (rewrite Hurl; by intros [??]). done.
Qed.

Lemma best_video_first (hits : list (gmap str json)) :
  Forall video_hit_shaped hits →
  best_video (JObj <$> hits) = Ok (default JNull (head (omap video_url hits))).
Proof.
  induction 1 as [|hit hits Hshape _ IH]; [done|].
  rewrite fmap_cons. cbn [omap list_omap].
  destruct (video_url hit) as [url|] eqn:Hurl.
  - by rewrite (best_video_found _ url).
  - by rewrite best_video_skip.
Qed.

(** X5: from a reply whose hits have the documented shape, the video
    search returns the [videos.large.url] of the first hit that has
    one, and [None] when no hit has one. *)
Theorem buscar_video_pixabay_first_large (hits : list (gmap str json))
    (query : str) (res : json) (st : state) (r : http_response)
    (data : gmap str json) :
  requests_get (calls st) (search_request true query res) = Ok r →
  ¬ (400 ≤ status_code r < 600) →
  response_json r = Ok (JObj data) →
  data !! py "hits" = Some (JArr (JObj <$> hits)) →
  Forall video_hit_shaped hits →
  (buscar_video_pixabay query res st).1
  = Ok (default JNull (head (omap video_url hits))).
Proof.
  intros Hreply Hstatus Hjson Hhits Hshape.
  rewrite buscar_video_pixabay_unfold, Hreply. simpl.
  rewrite (raise_for_status_ok _ Hstatus). simpl.
  rewrite Hjson. simpl. rewrite Hhits. simpl.
  pose proof (best_video_first hits Hshape) as Hbest.
  destruct hits as [|hit hits]; [done|].
  rewrite fmap_cons in *. cbn [truthy length bool_decide decide_rel negb].
  rewrite bool_decide_false by done. simpl negb. cbv iota.
  change (iterate ?x ≫= ?f) with (f (JObj hit :: (JObj <$> hits))).
  cbv beta. by rewrite Hbest.
Qed.

Lemma caught_missing_hits (reply : result http_response)
    (loop : list json → result json) :
  (∃ r (data : gmap str json),
     reply = Ok r ∧ ¬ (400 ≤ status_code r < 600) ∧
     response_json r = Ok (JObj data) ∧ data !! py "hits" = None) →
  caught (response ← reply; _ ← raise_for_status response;
          data ← response_json response; hits ← getitem data "hits";
          if truthy hits then hits ← iterate hits; loop hits else Ok JNull)
  = raise KeyError "hits".
Proof.
  intros (r & data & -> & Hst & Hjson & Hhits). simpl.
  rewrite (raise_for_status_ok r Hst). simpl. rewrite Hjson. simpl.
  by rewrite Hhits.
Qed.

Lemma draw_and_search_missing_hits (query : str) (res : json) (st : state) :
  provider_omits_hits →
  ∃ st1, draw_and_search query res st = (raise KeyError "hits", st1).
Proof.
  intros Homits. unfold draw_and_search.
  rewrite (bind_Ok random _ st _ _ eq_refl). cbv beta zeta.
  destruct (float_ltb _ _).
  - eexists. eapply bind_Raise.
    rewrite buscar_video_pixabay_unfold. f_equal.
    apply caught_missing_hits, Homits.
  - rewrite (bind_Ok (mret JNull) _ _ _ _ eq_refl). cbv beta.
    cbn [truthy negb]. cbv iota.
    eexists. eapply bind_Raise.
    rewrite buscar_imagen_pixabay_unfold. f_equal.
    apply caught_missing_hits, Homits.
Qed.

(** X6: a successful reply whose JSON object has no [hits] member is
    not caught: both searches raise [KeyError], and the media
    regeneration is answered 500. *)
Theorem missing_hits_is_not_caught (query : str) (res : json) (st : state)
    (data scene config : gmap str json) (text : str) :
  provider_omits_hits →
  data !! py "part" = Some (jstr "media") →
  data !! py "scene" = Some (JObj scene) →
  scene !! py "script" = Some (JStr text) →
  data !! py "config" = Some (JObj config) →
  truthy (JObj config) = true →
  (∃ e, (buscar_imagen_pixabay query res st).1 = Raise e ∧
        exn_class e = KeyError) ∧
  (∃ e, (buscar_video_pixabay query res st).1 = Raise e ∧
        exn_class e = KeyError) ∧
  is_error_response 500 (regenerate_scene_part (JObj data) st).1.
Proof.
  intros Homits Hpart Hscene Hscript Hconfig Htrue.
  split; [|split].
  - rewrite buscar_imagen_pixabay_unfold. cbn [fst]. eexists.
    split; [apply caught_missing_hits, Homits|done].
  - rewrite buscar_video_pixabay_unfold. cbn [fst]. eexists.
    split; [apply caught_missing_hits, Homits|done].
  - unfold regenerate_scene_part, handle.
    rewrite (bind_lift_Ok _ _ st (jstr "media")) by (simpl; by rewrite Hpart).
    rewrite (bind_lift_Ok _ _ st (JObj scene)) by (simpl; by rewrite Hscene).
    rewrite (bind_lift_Ok _ _ st (JObj config)) by (simpl; by rewrite Hconfig).
    rewrite (truthy_obj_lookup _ _ _ Hscript), Htrue.
    change (truthy (jstr "media")) with true.
    change (eq_str (jstr "media") "script") with false.
    change (eq_str (jstr "media") "media") with true.
    cbn [andb negb]. cbv iota. unfold regenerate_media.
    rewrite (bind_lift_Ok (dict_get (JObj config) "resolucion" JNull) _ st _ eq_refl).
    rewrite (bind_lift_Ok _ _ st (JStr text)) by (simpl; by rewrite Hscript).
    rewrite (bind_lift_Ok (py_extract_keywords (JStr text) 3) _ st _ eq_refl).
    cbv zeta.
    destruct (draw_and_search_missing_hits
                (join (py " ") (Keywords.extract_keywords text 3))
                (default JNull (config !! py "resolucion")) st Homits)
      as (st1 & Hsearch).
    rewrite (bind_Raise _ _ _ _ _ Hsearch). split; [done|by eexists].
Qed.

Lemma draw_and_search_state (query : str) (res : json) (st : state) :
  ∃ r made,
    draw_and_search query res st
    = (r, {| calls := calls st ++ made; draws := S (draws st); uuids := uuids st |})
    ∧ made ∈ selection_calls query res.
Proof.
  unfold draw_and_search, selection_calls.
  unfold mbind, M_bind, random, mret, M_ret.
  destruct (float_ltb _ _).
  - rewrite buscar_video_pixabay_unfold.
    destruct (caught _) as [video|e]; cbn [snd].
    + destruct (negb (truthy video)).
      * rewrite buscar_imagen_pixabay_unfold.
        destruct (caught _) as [url|e]; unfold record_call; cbn [calls draws uuids];
          rewrite <- app_assoc; do 2 eexists; (split; [done|]); set_solver.
      * unfold record_call; cbn [calls draws uuids].
        do 2 eexists. split; [done|]. set_solver.
    + unfold record_call; cbn [calls draws uuids].
      do 2 eexists. split; [done|]. set_solver.
  - cbn [truthy negb]. rewrite buscar_imagen_pixabay_unfold.
    destruct (caught _) as [url|e]; unfold record_call; cbn [calls draws uuids];
      do 2 eexists; (split; [done|]); set_solver.
Qed.

(** X7: one media selection draws one random number and makes one or
    two requests, whatever their outcome: the image search alone, the
    video search alone, or the video search followed by the image
    search. *)
Theorem draw_and_search_calls (query : str) (res : json) (st : state) :
  draws (draw_and_search query res st).2 = S (draws st) ∧
  uuids (draw_and_search query res st).2 = uuids st ∧
  ∃ made, calls (draw_and_search query res st).2 = calls st ++ made ∧
          made ∈ selection_calls query res.
Proof.
  destruct (draw_and_search_state query res st) as (r & made & -> & Hmade).
  split; [done|]. split; [done|]. by exists made.
Qed.

End search_more.

Lemma buscar_video_pixabay_first_large_run :
  (@requests_get two_video_hits_services []
     (@search_request two_video_hits_services true (py "gato") JNull)
   = hits_response (JObj <$> two_video_hits)) ∧
  ¬ (400 ≤ 200 < 600) ∧
  Forall video_hit_shaped two_video_hits ∧
  (@buscar_video_pixabay two_video_hits_services (py "gato") JNull initial_state).1
  = Ok (jstr "https://cdn.pixabay.com/video/b_large.mp4").
Proof.
  assert (Forall video_hit_shaped two_video_hits) as Hshape.
  { unfold two_video_hits.
    repeat (apply Forall_cons; split); [| |apply Forall_nil_2];
      unfold video_hit_shaped; intros v Hv; apply lookup_singleton_Some in Hv as [_ <-];
      eexists; (split; [reflexivity|]); intros l Hl; vm_compute in Hl;
      first [discriminate | injection Hl as <-; by eexists]. }
  split; [done|]. split; [lia|]. split; [done|].
  by rewrite (@buscar_video_pixabay_first_large two_video_hits_services
                two_video_hits (py "gato") JNull initial_state _ _
                eq_refl ltac:(simpl; lia) eq_refl eq_refl Hshape).
Defined.


Lemma no_hits_member_services_omit_hits :
  @provider_omits_hits no_hits_member_services.
Proof.
  intros history url. do 2 eexists. split; [reflexivity|].
  split; [simpl; lia|]. split; [reflexivity|]. by vm_compute.
Qed.

Lemma missing_hits_is_not_caught_run :
  @provider_omits_hits no_hits_member_services ∧
  is_error_response 500
    (@regenerate_scene_part ascii_builtins no_hits_member_services
       regenerate_media_request initial_state).1.
Proof.
  split; [exact no_hits_member_services_omit_hits|].
  refine (proj2 (proj2 (@missing_hits_is_not_caught ascii_builtins
    no_hits_member_services [] JNull initial_state _ _ _ _
    no_hits_member_services_omit_hits _ _ _ _ _))); reflexivity.
Defined.


(** ** The audio batch: what it returns, what it calls, how it fails *)

Section audio_batch.
Context `{Services}.

Lemma with_audio_run (voice : json) (m : gmap str json) (st : state) :
  with_audio voice (JObj m) st =
  if needs_audio (JObj m) then
    (chunks ← audio_speech_create (calls st) (scene_speech voice (JObj m));
     Ok (JObj (<[py "audioBase64" := JStr (b64encode (concat chunks))]> m)),
     record_call (CallSpeech (scene_speech voice (JObj m))) st)
  else (Ok (JObj m), st).
Proof.
  unfold with_audio, needs_audio.
  rewrite (bind_lift_Ok (dict_get (JObj m) "script" JNull) _ st _ eq_refl);
    cbv beta.
  destruct (truthy (default JNull (m !! py "script"))) eqn:Hscript.
  - rewrite (bind_lift_Ok (dict_get (JObj m) "audioBase64" JNull) _ st _ eq_refl);
      cbv beta.
    destruct (truthy (default JNull (m !! py "audioBase64"))); [done|].
    cbn [andb negb].
    assert (getitem (JObj m) "script" = Ok (default JNull (m !! py "script")))
      as Hitem.
    { simpl. destruct (m !! py "script"); [done|]. by simpl in Hscript. }
    rewrite (bind_lift_Ok _ _ st _ Hitem); cbv beta.
    unfold mbind at 1, M_bind at 1, speech, scene_speech.
    by destruct (audio_speech_create _ _).
  - by rewrite (bind_lift_Ok (Ok JNull) _ st _ eq_refl).
Qed.

Lemma with_audio_object (voice scene out : json) (st st1 : state) :
  with_audio voice scene st = (Ok out, st1) → ∃ m, scene = JObj m.
Proof.
  destruct scene as [| | | | | |m]; try done. by exists m.
Qed.

Lemma with_audio_Ok_inv (voice : json) (m : gmap str json) (out : json)
    (st st1 : state) :
  with_audio voice (JObj m) st = (Ok out, st1) →
  (needs_audio (JObj m) = false ∧ out = JObj m ∧ st1 = st) ∨
  (needs_audio (JObj m) = true ∧
   (∃ payload, out = JObj (<[py "audioBase64" := JStr payload]> m)) ∧
   st1 = record_call (CallSpeech (scene_speech voice (JObj m))) st).
Proof.
  rewrite with_audio_run. destruct (needs_audio (JObj m)).
  - destruct (audio_speech_create _ _) as [chunks|e]; [|done].
    intros [= <- <-]. right. split; [done|]. split; [by eexists|done].
  - intros [= <- <-]. by left.
Qed.

Lemma for_each_with_audio_shape (voice : json) (scenes out : list json)
    (st st1 : state) :
  for_each (with_audio voice) scenes st = (Ok out, st1) →
  Forall2 only_audio_differs scenes out.
Proof.
  revert out st. induction scenes as [|scene scenes IH];
    simpl; intros out st Hrun.
  - apply ret_Ok_inv in Hrun as [-> _]. constructor.
  - apply bind_Ok_inv in Hrun as (scene' & st2 & Hscene & Hrun).
    apply bind_Ok_inv in Hrun as (out' & st3 & Hrest & Hrun).
    apply ret_Ok_inv in Hrun as [-> ->]. constructor; [|by eapply IH].
    destruct (with_audio_object _ _ _ _ _ Hscene) as [m ->].
    exists m. split; [done|].
    apply with_audio_Ok_inv in Hscene as [(_ & -> & _)|(_ & Hout & _)];
      [by left|by right].
Qed.

Lemma for_each_with_audio_calls (voice : json) (scenes out : list json)
    (st st1 : state) :
  for_each (with_audio voice) scenes st = (Ok out, st1) →
  st1 = {| calls := calls st ++
                    (CallSpeech ∘ scene_speech voice <$>
                       filter (λ scene, Is_true (needs_audio scene)) scenes);
           draws := draws st; uuids := uuids st |}.
Proof.
  revert out st st1. induction scenes as [|scene scenes IH];
    cbn [for_each]; intros out st st1 Hrun.
  - apply ret_Ok_inv in Hrun as [_ ->].
    rewrite filter_nil, fmap_nil, app_nil_r. by destruct st.
  - apply bind_Ok_inv in Hrun as (scene' & st2 & Hscene & Hrun).
    apply bind_Ok_inv in Hrun as (out' & st3 & Hrest & Hrun).
    apply ret_Ok_inv in Hrun as [_ ->].
    destruct (with_audio_object _ _ _ _ _ Hscene) as [m ->].
    rewrite (IH _ _ _ Hrest).
    apply with_audio_Ok_inv in Hscene as [(Hno & _ & ->)|(Hyes & _ & ->)].
    + rewrite filter_cons_False; [done|]. rewrite Hno. exact id.
    + rewrite filter_cons_True by (by rewrite Hyes).
      rewrite fmap_cons. unfold record_call; cbn [calls draws uuids compose].
      by rewrite <- app_assoc.
Qed.

Lemma for_each_aborts {A B : Type} (f : A → M B) (done : list A) (x : A)
    (rest : list A) (out : list B) (e : exn) (st st1 st2 : state) :
  for_each f done st = (Ok out, st1) →
  f x st1 = (Raise e, st2) →
  for_each f (done ++ x :: rest) st = (Raise e, st2).
Proof.
  revert out st. induction done as [|y done IH]; simpl; intros out st Hdone Hx.
  - apply ret_Ok_inv in Hdone as [_ ->]. by rewrite (bind_Raise _ _ _ _ _ Hx).
  - apply bind_Ok_inv in Hdone as (y' & st3 & Hy & Hdone).
    apply bind_Ok_inv in Hdone as (out' & st4 & Hrest & Hdone).
    apply ret_Ok_inv in Hdone as [_ ->].
    rewrite (bind_Ok _ _ _ _ _ Hy).
    by rewrite (bind_Raise _ _ _ _ _ (IH _ _ Hrest Hx)).
Qed.

(** X8: a batch answered 200 returns the scenes it received, as many
    and in the same order, each one unchanged or with a string put under
    [audioBase64] and nothing else touched. *)
Theorem generate_audio_keeps_scenes (data : gmap str json)
    (scenes : list json) (st : state) :
  data !! py "scenes" = Some (JArr scenes) →
  status (generate_audio (JObj data) st).1 = 200 →
  Forall2 only_audio_differs scenes
    (response_scenes (generate_audio (JObj data) st).1).
Proof.
  intros Hscenes Hstatus.
  destruct (generate_audio_inv data scenes st Hscenes Hstatus)
    as (out & Hloop & ->).
  rewrite response_scenes_ok. by eapply for_each_with_audio_shape.
Qed.

(** X9: a batch answered 200 has made exactly one synthesis request
    for each scene that has a script and no audio, in the order of the
    scenes, with the requested voice ("nova" when none is given) and the
    scene's script as input; it has made no other call. *)
Theorem generate_audio_calls (data : gmap str json) (scenes : list json)
    (st : state) :
  data !! py "scenes" = Some (JArr scenes) →
  status (generate_audio (JObj data) st).1 = 200 →
  (generate_audio (JObj data) st).2
  = {| calls := calls st ++
         (CallSpeech ∘ scene_speech (default (jstr "nova") (data !! py "voice"))
            <$> filter (λ scene, Is_true (needs_audio scene)) scenes);
       draws := draws st; uuids := uuids st |}.
Proof.
  intros Hscenes Hstatus.
  destruct (generate_audio_inv data scenes st Hscenes Hstatus)
    as (out & Hloop & _).
  by apply for_each_with_audio_calls in Hloop.
Qed.

(** X10: when the synthesis fails for a scene, the batch stops there:
    the answer is 500 with the text of the error, the audio made for the
    scenes before it is not returned, and no request is made for the
    scenes after it. *)
Theorem generate_audio_aborts (data : gmap str json)
    (done rest out : list json) (scene : json) (e : exn) (st st1 : state) :
  let voice := default (jstr "nova") (data !! py "voice") in
  data !! py "scenes" = Some (JArr (done ++ scene :: rest)) →
  for_each (with_audio voice) done st = (Ok out, st1) →
  needs_audio scene = true →
  audio_speech_create (calls st1) (scene_speech voice scene) = Raise e →
  generate_audio (JObj data) st
  = ({| body := jsonify [("error", JStr (exn_str e))]; status := 500 |},
     record_call (CallSpeech (scene_speech voice scene)) st1).
Proof.
  intros voice Hscenes Hdone Hneeds Hfail.
  assert (with_audio voice scene st1
          = (Raise e, record_call (CallSpeech (scene_speech voice scene)) st1))
    as Hscene.
  { destruct scene as [| | | | | |m]; try done.
    by rewrite with_audio_run, Hneeds, Hfail. }
  unfold generate_audio, handle.
  rewrite (bind_lift_Ok _ _ st (JArr (done ++ scene :: rest)))
    by (simpl; by rewrite Hscenes); cbv beta.
  rewrite (bind_lift_Ok (dict_get (JObj data) "voice" (JStr (py "nova")))
             _ st _ eq_refl); cbv beta.
  rewrite (bind_lift_Ok (iterate (JArr (done ++ scene :: rest))) _ st _ eq_refl);
    cbv beta.
  by rewrite (bind_Raise _ _ _ _ _
                (for_each_aborts _ done scene rest out e st st1 _ Hdone Hscene)).
Qed.

End audio_batch.

Lemma generate_audio_keeps_scenes_run :
  status (@generate_audio audible_services (JObj audio_request) initial_state).1
    = 200 ∧
  Forall2 only_audio_differs
    [hola_scene []; hola_scene [("audioBase64", jstr "AAAA")]]
    (response_scenes
       (@generate_audio audible_services (JObj audio_request) initial_state).1).
Proof.
  split; [by vm_compute|].
  by apply (@generate_audio_keeps_scenes audible_services audio_request
              [hola_scene []; hola_scene [("audioBase64", jstr "AAAA")]]
              initial_state eq_refl); vm_compute.
Defined.

Lemma generate_audio_calls_run :
  status (@generate_audio audible_services (JObj audio_request) initial_state).1
    = 200 ∧
  calls (@generate_audio audible_services (JObj audio_request) initial_state).2
  = [CallSpeech {| speech_model := "tts-1"; speech_voice := jstr "alloy";
                   speech_input := jstr "Hola" |}].
Proof.
  split; [by vm_compute|].
  rewrite (@generate_audio_calls audible_services audio_request
             [hola_scene []; hola_scene [("audioBase64", jstr "AAAA")]]
             initial_state eq_refl); by vm_compute.
Defined.

Lemma generate_audio_aborts_run :
  @generate_audio audible_then_failing_services (JObj two_scenes_request)
    initial_state
  = ({| body := jsonify [("error", jstr "Connection error.")]; status := 500 |},
     {| calls := [CallSpeech (scene_speech (jstr "nova") (hola_scene []));
                  CallSpeech (scene_speech (jstr "nova") (hola_scene []))];
        draws := 0; uuids := 0 |}).
Proof.
  by rewrite (@generate_audio_aborts audible_then_failing_services
                two_scenes_request [hola_scene []] [] _ (hola_scene [])
                _ initial_state _ eq_refl eq_refl eq_refl eq_refl).
Defined.


(** ** Rejections and statuses *)

Section statuses.
Context `{Builtins} `{Services}.

Lemma content_strip_Ok (content : option str) (text : str) :
  content_strip content = Ok text → ∃ s, content = Some s ∧ text = strip s.
Proof. destruct content as [s|]; [|done]. intros [= <-]. by exists s. Qed.

Lemma chat_state (q : chat_request) (st st1 : state) (r : result (option str)) :
  chat q st = (r, st1) → st1 = record_call (CallChat q) st.
Proof. unfold chat. by intros [= _ <-]. Qed.

Lemma speech_state (q : speech_request) (st st1 : state)
    (r : result (list (list Byte.byte))) :
  speech q st = (r, st1) → st1 = record_call (CallSpeech q) st.
Proof. unfold speech. by intros [= _ <-]. Qed.

Lemma regenerate_script_Ok (scene config : json) (st st1 : state) (r : response) :
  regenerate_script scene config st = (Ok r, st1) →
  ∃ content q,
    r = {| body := jsonify [("newScript", JStr (strip content))]; status := 200 |}
    ∧ st1 = record_call (CallChat q) st.
Proof.
  unfold regenerate_script. intros Hrun. do 7 step_run Hrun.
  apply bind_Ok_inv in Hrun as (content & st2 & Hchat & Hrun).
  step_run Hrun. apply ret_Ok_inv in Hrun as [-> ->].
  apply content_strip_Ok in Hstep6 as (s & -> & ->).
  apply chat_state in Hchat. by eexists _, _.
Qed.

Lemma regenerate_media_Ok (scene config : json) (st st1 : state) (r : response) :
  regenerate_media scene config st = (Ok r, st1) → status r = 200.
Proof.
  unfold regenerate_media. intros Hrun. do 3 step_run Hrun.
  apply bind_Ok_inv in Hrun as ([use_video url] & st2 & _ & Hrun).
  destruct use_video; by apply ret_Ok_inv in Hrun as [-> _].
Qed.

Lemma regenerate_audio_Ok (data scene : json) (st st1 : state) (r : response) :
  regenerate_audio data scene st = (Ok r, st1) → status r = 200.
Proof.
  unfold regenerate_audio. intros Hrun. do 2 step_run Hrun.
  apply bind_Ok_inv in Hrun as (chunks & st2 & _ & Hrun).
  by apply ret_Ok_inv in Hrun as [-> _].
Qed.

Lemma handle_status (m : M response) (st : state) (P : response → Prop) :
  (∀ r st1, m st = (Ok r, st1) → P r) →
  (∀ e, P {| body := jsonify [("error", JStr (exn_str e))]; status := 500 |}) →
  P (handle m st).1.
Proof.
  intros HOk HRaise. unfold handle.
  destruct (m st) as [[r|e] st1] eqn:Hrun; [by eapply HOk|apply HRaise].
Qed.

Lemma handle_lift_Ok {A : Type} (r : result A) (f : A → M response)
    (st : state) (a : A) :
  r = Ok a → handle (lift r ≫= f) st = handle (f a) st.
Proof. by intros ->. Qed.

(** X11: [regenerate_scene_part] answers 400 exactly when one of
    [part], [scene] and [config] is missing or empty, or when [part] is
    none of [script], [media] and [audio]; it has then called no
    service, and the message tells which of the two it was, a missing
    item first. *)
Theorem regenerate_scene_part_rejects (data : gmap str json) (st : state) :
  (status (regenerate_scene_part (JObj data) st).1 = 400
   ↔ has_all_parts data && known_part data = false) ∧
  (has_all_parts data && known_part data = false →
   regenerate_scene_part (JObj data) st = (rejection data, st)).
Proof.
  unfold has_all_parts, known_part, rejection, has_all_parts.
  unfold regenerate_scene_part.
  rewrite (handle_lift_Ok (dict_get (JObj data) "part" JNull) _ st _ eq_refl).
  rewrite (handle_lift_Ok (dict_get (JObj data) "scene" JNull) _ st _ eq_refl).
  rewrite (handle_lift_Ok (dict_get (JObj data) "config" JNull) _ st _ eq_refl).
  cbv beta zeta.
  destruct (truthy (default JNull (data !! py "part"))
            && truthy (default JNull (data !! py "scene"))
            && truthy (default JNull (data !! py "config"))); cbn [negb andb];
    [|done].
  destruct (eq_str (default JNull (data !! py "part")) "script"); cbn [orb].
  { split; [|done]. split; [|done].
    apply (handle_status _ st (λ r, status r = 400 → _)); [|done].
    intros r st1 Hrun. by apply regenerate_script_Ok in Hrun as (? & ? & -> & _). }
  destruct (eq_str (default JNull (data !! py "part")) "media"); cbn [orb].
  { split; [|done]. split; [|done].
    apply (handle_status _ st (λ r, status r = 400 → _)); [|done].
    intros r st1 Hrun. apply regenerate_media_Ok in Hrun. by rewrite Hrun. }
  destruct (eq_str (default JNull (data !! py "part")) "audio"); cbn [orb].
  { split; [|done]. split; [|done].
    apply (handle_status _ st (λ r, status r = 400 → _)); [|done].
    intros r st1 Hrun. apply regenerate_audio_Ok in Hrun. by rewrite Hrun. }
  done.
Qed.

End statuses.


(** ** SEO: rejections, calls and values *)

Section strip_facts.

Lemma lstrip_head (s : str) (c : char) :
  head (lstrip s) = Some c → isspace c = false.
Proof.
  induction s as [|a s IH]; cbn [lstrip]; [done|].
  destruct (isspace a) eqn:Ha; [done|]. by intros [= <-].
Qed.

Lemma lstrip_last (s : str) (c : char) :
  last (lstrip s) = Some c → last s = Some c.
Proof.
  induction s as [|a s IH]; cbn [lstrip]; [done|].
  destruct (isspace a); [|done].
  intros Hlast. rewrite last_cons, (IH Hlast). done.
Qed.

Lemma strip_trimmed (s : str) : trimmed (strip s).
Proof.
  unfold trimmed, strip. split; intros c.
  - rewrite head_reverse. intros Hc%lstrip_last.
    rewrite last_reverse in Hc. by eapply lstrip_head.
  - rewrite last_reverse. apply lstrip_head.
Qed.

End strip_facts.

Section seo_more.
Context `{Services}.

Lemma seo_field_Ok (key : string) (p : prompt) (d d' : gmap str json)
    (st st' : state) :
  seo_field key p d st = (Ok d', st') → seo_step true key d d' st st'.
Proof.
  unfold seo_field. intros Hrun.
  apply bind_Ok_inv in Hrun as (content & st2 & Hchat & Hrun).
  step_run Hrun. apply ret_Ok_inv in Hrun as [-> ->].
  apply content_strip_Ok in Hstep as (s & -> & ->).
  unfold chat in Hchat. injection Hchat as _ <-. by eexists _, _.
Qed.

Lemma seo_block_Ok (c : bool) (key : string) (block : M (gmap str json))
    (d d' : gmap str json) (st st' : state) :
  (∀ d' st', block st = (Ok d', st') → seo_step true key d d' st st') →
  (if c then block else mret d) st = (Ok d', st') →
  seo_step c key d d' st st'.
Proof.
  intros Hblock Hrun. destruct c; [by apply Hblock|].
  by apply ret_Ok_inv in Hrun as [-> ->].
Qed.

(** A run of [generate_seo] that does not end in an exception: the
    rejection, or the three blocks one after the other. *)
Lemma generate_seo_run (data : gmap str json) (st : state) :
  let seo_type := default (jstr "all") (data !! py "type") in
  if has_guion_and_nicho data then
    (∃ d1 d2 d3 st1 st2 st3,
       seo_step (eq_str seo_type "all" || eq_str seo_type "titulo")
         "titulo" ∅ d1 st st1 ∧
       seo_step (eq_str seo_type "all" || eq_str seo_type "descripcion")
         "descripcion" d1 d2 st1 st2 ∧
       seo_step (eq_str seo_type "all" || eq_str seo_type "hashtags")
         "hashtags" d2 d3 st2 st3 ∧
       generate_seo (JObj data) st = ({| body := JObj d3; status := 200 |}, st3))
    ∨ is_error_response 500 (generate_seo (JObj data) st).1
  else
    generate_seo (JObj data) st
    = ({| body := jsonify [("error", JStr msg_guion_y_nicho)]; status := 400 |}, st).
Proof.
  intros seo_type. unfold has_guion_and_nicho, generate_seo, handle.
  rewrite (bind_lift_Ok (dict_get (JObj data) "guion" JNull) _ st _ eq_refl).
  rewrite (bind_lift_Ok (dict_get (JObj data) "nicho" JNull) _ st _ eq_refl).
  rewrite (bind_lift_Ok (dict_get (JObj data) "type" (JStr (py "all")))
             _ st _ eq_refl).
  cbv beta zeta.
  destruct (truthy (default JNull (data !! py "guion")));
    destruct (truthy (default JNull (data !! py "nicho")));
    cbn [negb orb andb]; try done.
  match goal with |- context [match ?run st with _ => _ end] =>
    destruct (run st) as [[r|e] st'] eqn:Hrun end; cbn [fst];
    [|right; split; [done|by eexists]].
  left.
  apply bind_Ok_inv in Hrun as (d1 & st1 & Hd1 & Hrun).
  apply bind_Ok_inv in Hrun as (d2 & st2 & Hd2 & Hrun).
  apply bind_Ok_inv in Hrun as (d3 & st3 & Hd3 & Hrun).
  apply ret_Ok_inv in Hrun as [-> ->].
  exists d1, d2, d3, st1, st2, st3.
  split; [|split; [|split; [|done]]].
  - eapply seo_block_Ok; [|exact Hd1].
    intros d' st0 Hblock. step_run Hblock. by eapply seo_field_Ok.
  - eapply seo_block_Ok; [|exact Hd2].
    intros d' st0 Hblock. by eapply seo_field_Ok.
  - eapply seo_block_Ok; [|exact Hd3].
    intros d' st0 Hblock. step_run Hblock. by eapply seo_field_Ok.
Qed.

(** X12: [generate_seo] answers 400 exactly when [guion] or [nicho] is
    missing or empty; it has then called no service. *)
Theorem generate_seo_rejects (data : gmap str json) (st : state) :
  (status (generate_seo (JObj data) st).1 = 400
   ↔ has_guion_and_nicho data = false) ∧
  (has_guion_and_nicho data = false →
   generate_seo (JObj data) st
   = ({| body := jsonify [("error", JStr msg_guion_y_nicho)]; status := 400 |},
      st)).
Proof.
  pose proof (generate_seo_run data st) as Hrun. cbv zeta in Hrun.
  destruct (has_guion_and_nicho data).
  - split; [|done]. split; [|done].
    destruct Hrun as [(d1 & d2 & d3 & st1 & st2 & st3 & _ & _ & _ & ->)
                     |[Hstatus _]]; [done|by rewrite Hstatus].
  - by rewrite Hrun.
Qed.

(** X13: a [type] that is none of [all], [titulo], [descripcion] and
    [hashtags] is not rejected: the answer is 200 with an empty object,
    and no service is called. *)
Theorem generate_seo_unknown_type (data : gmap str json) (st : state) :
  has_guion_and_nicho data = true →
  known_seo_type data = false →
  generate_seo (JObj data) st = ({| body := jsonify []; status := 200 |}, st).
Proof.
  intros Hhas Hknown. unfold known_seo_type in Hknown. cbv zeta in Hknown.
  rewrite !orb_false_iff in Hknown. destruct Hknown as [[[Hall Ht] Hd] Hh].
  unfold has_guion_and_nicho in Hhas. apply andb_true_iff in Hhas as [Hg Hn].
  unfold generate_seo, handle.
  rewrite (bind_lift_Ok (dict_get (JObj data) "guion" JNull) _ st _ eq_refl).
  rewrite (bind_lift_Ok (dict_get (JObj data) "nicho" JNull) _ st _ eq_refl).
  rewrite (bind_lift_Ok (dict_get (JObj data) "type" (JStr (py "all")))
             _ st _ eq_refl).
  cbv beta zeta. rewrite Hg, Hn. cbn [negb orb].
  change (JStr (py "all")) with (jstr "all").
  by rewrite Hall, Ht, Hd, Hh.
Qed.

(** X14: when [generate_seo] answers 200, it has made one completion
    request for each field of the returned object, and no other call. *)
Theorem generate_seo_one_call_per_field (data : gmap str json) (st : state) :
  status (generate_seo (JObj data) st).1 = 200 →
  ∃ seo_data made,
    (generate_seo (JObj data) st).1 = {| body := JObj seo_data; status := 200 |} ∧
    (generate_seo (JObj data) st).2
    = {| calls := calls st ++ made; draws := draws st; uuids := uuids st |} ∧
    length made = size seo_data ∧
    Forall (λ c, is_chat c = true) made.
Proof.
  pose proof (generate_seo_run data st) as Hrun. cbv zeta in Hrun.
  destruct (has_guion_and_nicho data); [|by rewrite Hrun].
  destruct Hrun as [(d1 & d2 & d3 & st1 & st2 & st3 & H1 & H2 & H3 & ->)
                   |[Hstatus _]]; [|by rewrite Hstatus].
  intros _. exists d3. cbn [fst snd].
  destruct (_ || _) in H1; destruct (_ || _) in H2; destruct (_ || _) in H3;
    cbn [seo_step] in H1, H2, H3;
    repeat match goal with
    | H : ∃ _, _ |- _ => destruct H as (? & ? & -> & ->)
    | H : _ ∧ _ |- _ => destruct H as [-> ->]
    end; cbn [calls draws uuids]; rewrite <- ?app_assoc;
    eexists; (split; [done|]);
    (split; [try (rewrite app_nil_r; by destruct st); reflexivity|]);
    (split; [|by repeat constructor]);
    rewrite ?map_size_insert_None, ?map_size_empty; try done;
    by rewrite ?lookup_insert_ne.
Qed.

(** X15: every value of the object that [generate_seo] returns with a
    200 is a string that neither starts nor ends with white space. *)
Theorem generate_seo_values_trimmed (data : gmap str json) (st : state)
    (key : str) (value : json) :
  status (generate_seo (JObj data) st).1 = 200 →
  (∃ seo_data, body (generate_seo (JObj data) st).1 = JObj seo_data ∧
               seo_data !! key = Some value) →
  ∃ text, value = JStr text ∧ trimmed text.
Proof.
  pose proof (generate_seo_run data st) as Hrun. cbv zeta in Hrun.
  destruct (has_guion_and_nicho data); [|by rewrite Hrun].
  destruct Hrun as [(d1 & d2 & d3 & st1 & st2 & st3 & H1 & H2 & H3 & ->)
                   |[Hstatus _]]; [|by rewrite Hstatus].
  intros _ (seo_data & [= <-] & Hvalue).
  assert (∀ c k d d' st st', seo_step c k d d' st st' →
            map_Forall (λ _ v, ∃ text, v = JStr text ∧ trimmed text) d →
            map_Forall (λ _ v, ∃ text, v = JStr text ∧ trimmed text) d')
    as Hstep.
  { intros [] k d d' st0 st0' Hs Hd; cbn [seo_step] in Hs.
    - destruct Hs as (content & q & -> & _).
      apply map_Forall_insert_2; [|done].
      eexists. split; [done|apply strip_trimmed].
    - by destruct Hs as [-> _]. }
  eapply (Hstep _ _ _ _ _ _ H3); [|exact Hvalue].
  eapply (Hstep _ _ _ _ _ _ H2). eapply (Hstep _ _ _ _ _ _ H1).
  apply map_Forall_empty.
Qed.

End seo_more.


Lemma regenerate_scene_part_rejects_run :
  has_all_parts regenerate_thumbnail_request
    && known_part regenerate_thumbnail_request = false ∧
  @regenerate_scene_part ascii_builtins failing_services
    (JObj regenerate_thumbnail_request) initial_state
  = ({| body := jsonify [("error", JStr msg_parte_no_valida)]; status := 400 |},
     initial_state).
Proof.
  split; [by vm_compute|].
  by rewrite (proj2 (@regenerate_scene_part_rejects ascii_builtins
                       failing_services regenerate_thumbnail_request
                       initial_state) eq_refl).
Defined.

Lemma generate_seo_rejects_run :
  has_guion_and_nicho (<[py "nicho" := jstr ""]> (seo_request "all")) = false ∧
  @generate_seo seo_services
    (JObj (<[py "nicho" := jstr ""]> (seo_request "all"))) initial_state
  = ({| body := jsonify [("error", JStr msg_guion_y_nicho)]; status := 400 |},
     initial_state).
Proof.
  assert (has_guion_and_nicho (<[py "nicho" := jstr ""]> (seo_request "all"))
          = false) as Hno by (by vm_compute).
  split; [done|].
  by rewrite (proj2 (@generate_seo_rejects seo_services
                       (<[py "nicho" := jstr ""]> (seo_request "all"))
                       initial_state) Hno).
Defined.

Lemma generate_seo_unknown_type_run :
  has_guion_and_nicho seo_request_resumen = true ∧
  known_seo_type seo_request_resumen = false ∧
  @generate_seo seo_services (JObj seo_request_resumen) initial_state
  = ({| body := jsonify []; status := 200 |}, initial_state).
Proof.
  split; [by vm_compute|]. split; [by vm_compute|].
  by apply (@generate_seo_unknown_type seo_services seo_request_resumen
              initial_state); vm_compute.
Defined.

Lemma generate_seo_one_call_per_field_run :
  status (@generate_seo seo_services (JObj (seo_request "all")) initial_state).1
    = 200 ∧
  ∃ seo_data made,
    (@generate_seo seo_services (JObj (seo_request "all")) initial_state).1
      = {| body := JObj seo_data; status := 200 |} ∧
    (@generate_seo seo_services (JObj (seo_request "all")) initial_state).2
      = {| calls := made; draws := 0; uuids := 0 |} ∧
    length made = size seo_data ∧
    Forall (λ c, is_chat c = true) made.
Proof.
  split; [by vm_compute|].
  apply (@generate_seo_one_call_per_field seo_services (seo_request "all")
           initial_state). by vm_compute.
Defined.

Lemma generate_seo_values_trimmed_run :
  status (@generate_seo seo_services (JObj (seo_request "titulo")) initial_state).1
    = 200 ∧
  ∃ text, jstr "Lo que nadie te dijo del ahorro" = JStr text ∧ trimmed text.
Proof.
  split; [by vm_compute|].
  apply (@generate_seo_values_trimmed seo_services (seo_request "titulo")
           initial_state (py "titulo")); [by vm_compute|].
  eexists. split; [reflexivity|]. by vm_compute.
Defined.


(** ** The number of scenes asked for *)

Section scene_count_more.

(** X16: for a duration of magnitude below [7 * 2^50] seconds the
    target is computed, it is at least 1, it is 1 up to 10 seconds (zero
    and negative durations included), and from 4 seconds on that many
    scenes of 7 seconds differ from the duration by at most 3 seconds. *)
Theorem num_escenas_esperadas_covers (d : Z) :
  - (7 * 2 ^ 50) < d < 7 * 2 ^ 50 →
  ∃ n, num_escenas_esperadas d = Ok n ∧ 1 ≤ n ∧
       (d ≤ 10 → n = 1) ∧ (4 ≤ d → -3 ≤ d - 7 * n ≤ 3).
Proof.
  intros Hd. exists (Z.max 1 (round_half_even d 7)).
  split.
  { unfold num_escenas_esperadas, segundos_por_escena.
    destruct (round_truediv_7 d Hd) as (x & -> & Hx). simpl.
    by rewrite Hx. }
  pose proof (round_half_even_near d 7 ltac:(lia)) as Hnear.
  split; [lia|]. split; lia.
Qed.

End scene_count_more.

Lemma num_escenas_esperadas_covers_30 :
  - (7 * 2 ^ 50) < 30 < 7 * 2 ^ 50 ∧
  ∃ n, num_escenas_esperadas 30 = Ok n ∧ 1 ≤ n ∧
       (30 ≤ 10 → n = 1) ∧ (4 ≤ 30 → -3 ≤ 30 - 7 * n ≤ 3).
Proof. split; [lia|]. apply (num_escenas_esperadas_covers 30). lia. Defined.

(** ** The first endpoint: failures, scenes and calls *)

Section initial_content.
Context `{Builtins} `{Services}.

Lemma selection_calls_gets (query : str) (res : json) (made : list call) :
  made ∈ selection_calls query res →
  Forall (λ c, is_get c = true) made ∧ (1 ≤ length made ≤ 2)%nat.
Proof.
  unfold selection_calls. rewrite !elem_of_cons, elem_of_nil.
  intros [->|[->|[->|[]]]]; (split; [by repeat constructor|simpl; lia]).
Qed.

Lemma new_scene_Ok (res scene out : json) (st st1 : state) :
  new_scene res scene st = (Ok out, st1) →
  scene_from scene out ∧
  ∃ made, calls st1 = calls st ++ made ∧
          Forall (λ c, is_get c = true) made ∧ (1 ≤ length made ≤ 2)%nat ∧
          draws st1 = S (draws st) ∧
          (uuids st ≤ uuids st1 ≤ S (uuids st))%nat.
Proof.
  unfold new_scene. intros Hrun.
  step_run Hrun. destruct scene as [| | | | | |m]; try done.
  injection Hstep as <-. do 2 step_run Hrun.
  apply bind_Ok_inv in Hrun as ([use_video media_url] & st2 & Hsearch & Hrun).
  match type of Hsearch with draw_and_search ?keywords _ _ = _ =>
    destruct (draw_and_search_state keywords res st)
      as (r & made & Hstate & Hmade) end.
  rewrite Hstate in Hsearch. injection Hsearch as _ <-.
  apply selection_calls_gets in Hmade as [Hgets Hlen].
  step_run Hrun.
  match goal with Hs : dict_get _ "id" _ = Ok _ |- _ => injection Hs as <- end.
  apply bind_Ok_inv in Hrun as (scene_id & st3 & Hid & Hrun).
  step_run Hrun.
  match goal with Hs : dict_get _ "script" _ = Ok _ |- _ => injection Hs as <- end.
  apply ret_Ok_inv in Hrun as [-> ->].
  destruct (truthy (default JNull (m !! py "id"))) eqn:Htruthy.
  - apply ret_Ok_inv in Hid as [-> ->]. split.
    + exists m, (default JNull (m !! py "id")), use_video, media_url.
      by rewrite Htruthy.
    + exists made. cbn [calls draws uuids]. repeat split; try done; lia.
  - apply bind_Ok_inv in Hid as (fresh & st4 & Hfresh & Hid).
    apply ret_Ok_inv in Hid as [-> ->].
    unfold new_uuid in Hfresh. injection Hfresh as <- <-. split.
    + exists m, (JStr (uuid4 (uuids st))), use_video, media_url.
      rewrite Htruthy. split; [done|]. split; [done|by eexists].
    + exists made. cbn [calls draws uuids]. repeat split; try done; lia.
Qed.

Lemma for_each_new_scene_Ok (res : json) (scenes out : list json)
    (st st1 : state) :
  for_each (new_scene res) scenes st = (Ok out, st1) →
  Forall2 scene_from scenes out ∧
  ∃ made, calls st1 = calls st ++ made ∧
          Forall (λ c, is_get c = true) made ∧
          (length scenes ≤ length made ≤ 2 * length scenes)%nat ∧
          draws st1 = (draws st + length scenes)%nat ∧
          (uuids st ≤ uuids st1 ≤ uuids st + length scenes)%nat.
Proof.
  revert out st st1. induction scenes as [|scene scenes IH];
    cbn [for_each]; intros out st st1 Hrun.
  - apply ret_Ok_inv in Hrun as [-> ->]. split; [constructor|].
    exists []. rewrite app_nil_r. cbn [length]. repeat split; try done; lia.
  - apply bind_Ok_inv in Hrun as (o & st2 & Hscene & Hrun).
    apply bind_Ok_inv in Hrun as (out' & st3 & Hrest & Hrun).
    apply ret_Ok_inv in Hrun as [-> ->].
    apply new_scene_Ok in Hscene
      as (Hfrom & made & Hcalls & Hgets & Hlen & Hdraws & Huuids).
    apply IH in Hrest
      as (Hall & made' & Hcalls' & Hgets' & Hlen' & Hdraws' & Huuids').
    split; [by constructor|].
    exists (made ++ made'). rewrite Hcalls', Hcalls, <- app_assoc.
    rewrite length_app. cbn [length].
    split; [done|]. split; [by apply Forall_app|]. lia.
Qed.

(** A run of [generate_initial_content] that ends in a 200. *)
Lemma generate_initial_content_200 (data : json) (st : state) :
  status (generate_initial_content data st).1 = 200 →
  ∃ q content parsed scenes res out,
    chat_completions_create (calls st) q = Ok content ∧
    loads content = Ok parsed ∧
    (dict_get parsed "scenes" (JArr []) ≫= iterate) = Ok scenes ∧
    for_each (new_scene res) scenes (record_call (CallChat q) st)
    = (Ok out, (generate_initial_content data st).2) ∧
    (generate_initial_content data st).1
    = {| body := jsonify [("scenes", JArr out)]; status := 200 |}.
Proof.
  unfold generate_initial_content, handle.
  match goal with |- context [match ?run st with _ => _ end] =>
    destruct (run st) as [[r|e] st1] eqn:Hrun end; cbn [fst snd]; [|done].
  do 7 step_run Hrun.
  destruct (negb (truthy (JStr v0))).
  { by apply ret_Ok_inv in Hrun as [-> _]. }
  step_run Hrun.
  apply bind_Ok_inv in Hrun as (content & st2 & Hchat & Hrun).
  do 3 step_run Hrun.
  apply bind_Ok_inv in Hrun as (out & st3 & Hloop & Hrun).
  apply ret_Ok_inv in Hrun as [-> ->]. intros _.
  pose proof (chat_state _ _ _ _ Hchat) as ->.
  unfold chat in Hchat. injection Hchat as Hchat.
  eexists _, content, _, _, _, out.
  split; [exact Hchat|]. split; [eassumption|].
  split; [|done].
  match goal with Hs : dict_get _ "scenes" _ = Ok _ |- _ => rewrite Hs end.
  done.
Qed.

(** X17: when the completion fails, or its content is not JSON, the
    first endpoint answers 500 after that one call: no search is made,
    and nothing is drawn. *)
Theorem generate_initial_content_completion_fails (request : gmap str json)
    (guion : str) (d n : Z) (e : exn) (st : state) :
  let q := division_request n (default JNull (request !! py "nicho"))
             (default JNull (request !! py "idioma")) (strip guion) in
  default (JStr []) (request !! py "guionPersonalizado") = JStr guion →
  strip guion ≠ [] →
  py_int (default JNull (request !! py "duracion")) = Ok d →
  num_escenas_esperadas d = Ok n →
  (chat_completions_create (calls st) q ≫= loads) = Raise e →
  is_error_response 500 (generate_initial_content (JObj request) st).1 ∧
  (generate_initial_content (JObj request) st).2 = record_call (CallChat q) st.
Proof.
  intros q Hguion Hne Hduracion Hn Hfail.
  unfold generate_initial_content, handle.
  rewrite (bind_lift_Ok (dict_get (JObj request) "guionPersonalizado" (JStr []))
             _ st _ eq_refl); cbv beta.
  rewrite Hguion.
  rewrite (bind_lift_Ok (py_strip (JStr guion)) _ st _ eq_refl); cbv beta.
  rewrite (bind_lift_Ok (dict_get (JObj request) "duracion" JNull) _ st _ eq_refl);
    cbv beta.
  rewrite (bind_lift_Ok _ _ st _ Hduracion); cbv beta.
  rewrite (bind_lift_Ok (dict_get (JObj request) "resolucion" JNull) _ st _ eq_refl);
    cbv beta.
  rewrite (bind_lift_Ok (dict_get (JObj request) "nicho" JNull) _ st _ eq_refl);
    cbv beta.
  rewrite (bind_lift_Ok (dict_get (JObj request) "idioma" JNull) _ st _ eq_refl);
    cbv beta.
  assert (truthy (JStr (strip guion)) = true) as ->
    by (simpl; by rewrite bool_decide_false).
  cbn [negb]. cbv iota.
  rewrite (bind_lift_Ok _ _ st _ Hn); cbv beta.
  fold (division_request n (default JNull (request !! py "nicho"))
          (default JNull (request !! py "idioma")) (strip guion)).
  fold q.
  destruct (chat_completions_create (calls st) q) as [content|e'] eqn:Hchat.
  - erewrite bind_Ok by (unfold chat; by rewrite Hchat). cbv beta.
    cbn [mbind result_bind] in Hfail.
    erewrite bind_Raise by (unfold lift; by rewrite Hfail).
    cbn [fst snd]. split; [|done]. split; [done|by eexists].
  - erewrite bind_Raise by (unfold chat; by rewrite Hchat).
    cbn [fst snd]. split; [|done]. split; [done|by eexists].
Qed.

(** X18: a 200 of the first endpoint has one scene for each scene of
    the completion, in the same order, with the same script (empty when
    the completion gave none), the same [id] when the completion gave
    one and a string otherwise, and no audio. *)
Theorem generate_initial_content_scene_by_scene (data : json) (st : state) :
  status (generate_initial_content data st).1 = 200 →
  ∃ q content parsed scenes,
    chat_completions_create (calls st) q = Ok content ∧
    loads content = Ok parsed ∧
    (dict_get parsed "scenes" (JArr []) ≫= iterate) = Ok scenes ∧
    Forall2 scene_from scenes
      (response_scenes (generate_initial_content data st).1).
Proof.
  intros Hstatus.
  destruct (generate_initial_content_200 data st Hstatus)
    as (q & content & parsed & scenes & res & out
        & Hchat & Hloads & Hscenes & Hloop & ->).
  exists q, content, parsed, scenes. rewrite response_scenes_ok.
  by apply for_each_new_scene_Ok in Hloop as [Hall _].
Qed.

(** X19: a 200 of the first endpoint with [k] scenes has made one
    completion request followed by between [k] and [2 k] searches and no
    other call, has drawn [k] random numbers and at most [k]
    identifiers. *)
Theorem generate_initial_content_calls (data : json) (st : state) :
  status (generate_initial_content data st).1 = 200 →
  let k := length (response_scenes (generate_initial_content data st).1) in
  let st' := (generate_initial_content data st).2 in
  ∃ q searches,
    calls st' = calls st ++ CallChat q :: searches ∧
    Forall (λ c, is_get c = true) searches ∧
    (k ≤ length searches ≤ 2 * k)%nat ∧
    draws st' = (draws st + k)%nat ∧
    (uuids st ≤ uuids st' ≤ uuids st + k)%nat.
Proof.
  intros Hstatus.
  destruct (generate_initial_content_200 data st Hstatus)
    as (q & content & parsed & scenes & res & out
        & Hchat & Hloads & Hscenes & Hloop & ->).
  cbv zeta. rewrite response_scenes_ok.
  apply for_each_new_scene_Ok in Hloop
    as (Hall & made & Hcalls & Hgets & Hlen & Hdraws & Huuids).
  apply Forall2_length in Hall. rewrite <- Hall.
  exists q, made. rewrite Hcalls. unfold record_call in *.
  cbn [calls draws uuids] in *. rewrite <- app_assoc.
  repeat split; try done; lia.
Qed.

End initial_content.


Lemma generate_initial_content_completion_fails_run :
  is_error_response 500
    (@generate_initial_content ascii_builtins chat_down_services
       request_gato initial_state).1 ∧
  (@generate_initial_content ascii_builtins chat_down_services
     request_gato initial_state).2
  = {| calls := [CallChat (division_request 1 (jstr "tendencias") (jstr "es")
                             (py "Un gato duerme al sol."))];
       draws := 0; uuids := 0 |}.
Proof.
  destruct (@generate_initial_content_completion_fails ascii_builtins
              chat_down_services
              (list_to_map (prod_map py id <$>
                 [("guionPersonalizado", jstr "Un gato duerme al sol.");
                  ("duracion", JInt 7); ("resolucion", jstr "9:16");
                  ("nicho", jstr "tendencias"); ("idioma", jstr "es")]))
              (py "Un gato duerme al sol.") 7 1
              (Exn OpenAIError (py "Connection error.")) initial_state)
    as [Herror Hstate]; [by vm_compute..|].
  split; [exact Herror|]. etrans; [exact Hstate|]. by vm_compute.
Defined.

Lemma generate_initial_content_scene_by_scene_run :
  status (@generate_initial_content (scripted_builtins (Ok parsed_gato))
            image_only_services request_gato initial_state).1 = 200 ∧
  ∃ q content parsed scenes,
    @chat_completions_create image_only_services [] q = Ok content ∧
    @loads (scripted_builtins (Ok parsed_gato)) content = Ok parsed ∧
    (dict_get parsed "scenes" (JArr []) ≫= iterate) = Ok scenes ∧
    Forall2 scene_from scenes
      (response_scenes
         (@generate_initial_content (scripted_builtins (Ok parsed_gato))
            image_only_services request_gato initial_state).1).
Proof.
  split; [by vm_compute|].
  apply (@generate_initial_content_scene_by_scene
           (scripted_builtins (Ok parsed_gato)) image_only_services
           request_gato initial_state).
  by vm_compute.
Defined.

Lemma generate_initial_content_calls_run :
  status (@generate_initial_content (scripted_builtins (Ok parsed_gato))
            image_only_services request_gato initial_state).1 = 200 ∧
  ∃ q searches,
    calls (@generate_initial_content (scripted_builtins (Ok parsed_gato))
             image_only_services request_gato initial_state).2
    = CallChat q :: searches ∧
    Forall (λ c, is_get c = true) searches ∧
    (1 ≤ length searches ≤ 2)%nat.
Proof.
  split; [by vm_compute|].
  destruct (@generate_initial_content_calls
              (scripted_builtins (Ok parsed_gato)) image_only_services
              request_gato initial_state ltac:(by vm_compute))
    as (q & searches & Hcalls & Hgets & Hlen & _).
  exists q, searches. split; [exact Hcalls|]. split; [exact Hgets|].
  exact Hlen.
Defined.


(** ** The script regeneration, and the statuses of all endpoints *)

Section statuses_more.
Context `{Builtins} `{Services}.

(** X20: a script regeneration answered 200 returns the one field
    [newScript], a string that neither starts nor ends with white
    space, after exactly one completion request and no other call. *)
Theorem regenerate_script_answer (data : gmap str json) (st : state) :
  data !! py "part" = Some (jstr "script") →
  status (regenerate_scene_part (JObj data) st).1 = 200 →
  ∃ text q,
    regenerate_scene_part (JObj data) st
    = ({| body := jsonify [("newScript", JStr text)]; status := 200 |},
       record_call (CallChat q) st) ∧
    trimmed text.
Proof.
  intros Hpart. unfold regenerate_scene_part.
  rewrite (handle_lift_Ok (dict_get (JObj data) "part" JNull) _ st (jstr "script"))
    by (simpl; by rewrite Hpart).
  rewrite (handle_lift_Ok (dict_get (JObj data) "scene" JNull) _ st _ eq_refl).
  rewrite (handle_lift_Ok (dict_get (JObj data) "config" JNull) _ st _ eq_refl).
  change (truthy (jstr "script")) with true.
  change (eq_str (jstr "script") "script") with true. cbn [andb].
  destruct (truthy (default JNull (data !! py "scene"))
            && truthy (default JNull (data !! py "config"))); cbn [negb];
    [|done].
  cbv iota. unfold handle.
  destruct (regenerate_script _ _ st) as [[r|e] st1] eqn:Hrun; [|done].
  apply regenerate_script_Ok in Hrun as (content & q & -> & ->).
  intros _. exists (strip content), q. split; [done|apply strip_trimmed].
Qed.

(** X21: a [nicho] that is a list or an object cannot be looked up
    in the table of tones: the script regeneration is answered 500
    before any request is made. *)
Theorem regenerate_script_unhashable_nicho (data scene config : gmap str json)
    (text : str) (nicho : json) (st : state) :
  data !! py "part" = Some (jstr "script") →
  data !! py "scene" = Some (JObj scene) →
  scene !! py "script" = Some (JStr text) →
  data !! py "config" = Some (JObj config) →
  config !! py "nicho" = Some nicho →
  (∃ l, nicho = JArr l) ∨ (∃ m, nicho = JObj m) →
  is_error_response 500 (regenerate_scene_part (JObj data) st).1 ∧
  (regenerate_scene_part (JObj data) st).2 = st.
Proof.
  intros Hpart Hscene Hscript Hconfig Hnicho Hunhashable.
  unfold regenerate_scene_part.
  rewrite (handle_lift_Ok (dict_get (JObj data) "part" JNull) _ st (jstr "script"))
    by (simpl; by rewrite Hpart).
  rewrite (handle_lift_Ok (dict_get (JObj data) "scene" JNull) _ st (JObj scene))
    by (simpl; by rewrite Hscene).
  rewrite (handle_lift_Ok (dict_get (JObj data) "config" JNull) _ st (JObj config))
    by (simpl; by rewrite Hconfig).
  rewrite (truthy_obj_lookup _ _ _ Hscript), (truthy_obj_lookup _ _ _ Hnicho).
  change (truthy (jstr "script")) with true.
  change (eq_str (jstr "script") "script") with true.
  cbn [andb negb]. cbv iota. unfold regenerate_script.
  rewrite (handle_lift_Ok (dict_get (JObj scene) "script" (JStr [])) _ st
             (JStr text)) by (simpl; by rewrite Hscript).
  rewrite (handle_lift_Ok (py_extract_keywords (JStr text) 3) _ st _ eq_refl).
  cbv zeta.
  rewrite (handle_lift_Ok (dict_get (JObj config) "tema" JNull) _ st _ eq_refl).
  rewrite (handle_lift_Ok (dict_get (JObj config) "nicho" JNull) _ st nicho)
    by (simpl; by rewrite Hnicho).
  unfold handle.
  assert (∃ e, definir_tono_por_nicho nicho = Raise e) as [e He].
  { destruct Hunhashable as [[l ->]|[m ->]]; by eexists. }
  erewrite bind_Raise by (unfold lift; by rewrite He).
  cbn [fst snd]. split; [|done]. split; [done|by eexists].
Qed.

Lemma answers_error (code : Z) (msg : str) :
  code = 400 ∨ code = 500 →
  answers_as_documented
    {| body := jsonify [("error", JStr msg)]; status := code |}.
Proof.
  intros [->| ->]; [right; left|right; right]; (split; [done|by eexists]).
Qed.

(** X22: whatever the request body is, each of the four endpoints
    answers 200, or 400 or 500 with a body made of the one field
    [error], a string: no exception leaves a handler. *)
Theorem endpoints_answer_as_documented (data : json) (st : state) :
  answers_as_documented (generate_initial_content data st).1 ∧
  answers_as_documented (generate_audio data st).1 ∧
  answers_as_documented (regenerate_scene_part data st).1 ∧
  answers_as_documented (generate_seo data st).1.
Proof.
  repeat split.
  - unfold generate_initial_content. apply handle_status;
      [|intros e; apply answers_error; by right].
    intros r st1 Hrun. do 7 step_run Hrun.
    destruct (negb (truthy _)).
    { apply ret_Ok_inv in Hrun as [-> _]. apply answers_error. by left. }
    step_run Hrun.
    apply bind_Ok_inv in Hrun as (content & st2 & _ & Hrun).
    do 3 step_run Hrun.
    apply bind_Ok_inv in Hrun as (out & st3 & _ & Hrun).
    apply ret_Ok_inv in Hrun as [-> _]. by left.
  - unfold generate_audio. apply handle_status;
      [|intros e; apply answers_error; by right].
    intros r st1 Hrun. do 3 step_run Hrun.
    apply bind_Ok_inv in Hrun as (out & st3 & _ & Hrun).
    apply ret_Ok_inv in Hrun as [-> _]. by left.
  - unfold regenerate_scene_part. apply handle_status;
      [|intros e; apply answers_error; by right].
    intros r st1 Hrun. do 3 step_run Hrun.
    destruct (negb _).
    { apply ret_Ok_inv in Hrun as [-> _]. apply answers_error. by left. }
    destruct (eq_str _ "script").
    { apply regenerate_script_Ok in Hrun as (? & ? & -> & _). by left. }
    destruct (eq_str _ "media").
    { apply regenerate_media_Ok in Hrun. by left. }
    destruct (eq_str _ "audio").
    { apply regenerate_audio_Ok in Hrun. by left. }
    apply ret_Ok_inv in Hrun as [-> _]. apply answers_error. by left.
  - unfold generate_seo. apply handle_status;
      [|intros e; apply answers_error; by right].
    intros r st1 Hrun. do 3 step_run Hrun.
    destruct (negb _ || negb _).
    { apply ret_Ok_inv in Hrun as [-> _]. apply answers_error. by left. }
    apply bind_Ok_inv in Hrun as (d1 & st2 & _ & Hrun).
    apply bind_Ok_inv in Hrun as (d2 & st3 & _ & Hrun).
    apply bind_Ok_inv in Hrun as (d3 & st4 & _ & Hrun).
    apply ret_Ok_inv in Hrun as [-> _]. by left.
Qed.

End statuses_more.

Lemma regenerate_script_answer_run :
  status (@regenerate_scene_part ascii_builtins rewriting_services
            (JObj regenerate_script_request) initial_state).1 = 200 ∧
  ∃ text q,
    @regenerate_scene_part ascii_builtins rewriting_services
      (JObj regenerate_script_request) initial_state
    = ({| body := jsonify [("newScript", JStr text)]; status := 200 |},
       {| calls := [CallChat q]; draws := 0; uuids := 0 |}) ∧
    trimmed text.
Proof.
  split; [by vm_compute|].
  apply (@regenerate_script_answer ascii_builtins rewriting_services
           regenerate_script_request initial_state); by vm_compute.
Defined.

Lemma regenerate_script_unhashable_nicho_run :
  is_error_response 500
    (@regenerate_scene_part ascii_builtins rewriting_services
       (JObj regenerate_script_request_with_list) initial_state).1 ∧
  (@regenerate_scene_part ascii_builtins rewriting_services
     (JObj regenerate_script_request_with_list) initial_state).2
  = initial_state.
Proof.
  refine (@regenerate_script_unhashable_nicho ascii_builtins rewriting_services
            regenerate_script_request_with_list _ _ _ _ initial_state
            _ _ _ _ _ _); [reflexivity..|].
  left. by eexists.
Defined.


(** ** What a search does whatever the provider answers *)

Section search_always.
Context `{Builtins} `{Services}.

Lemma caught_Raise (r : result json) (e : exn) :
  caught r = Raise e → is_RequestException e = false.
Proof.
  unfold caught. destruct r as [v|e']; [done|].
  destruct (is_RequestException e') eqn:He'; [done|]. by intros [= <-].
Qed.

(** X23: each search makes exactly one request, whether it succeeds
    or fails, and never lets a [RequestException] out: an exception that
    leaves a search is of another class. *)
Theorem searches_make_one_request (query : str) (res : json) (st : state) :
  (buscar_imagen_pixabay query res st).2
    = record_call (CallGet (search_request false query res)) st ∧
  (buscar_video_pixabay query res st).2
    = record_call (CallGet (search_request true query res)) st ∧
  (∀ e, (buscar_imagen_pixabay query res st).1 = Raise e →
        is_RequestException e = false) ∧
  (∀ e, (buscar_video_pixabay query res st).1 = Raise e →
        is_RequestException e = false).
Proof.
  rewrite buscar_imagen_pixabay_unfold, buscar_video_pixabay_unfold.
  cbn [fst snd]. repeat split; intros e; apply caught_Raise.
Qed.

End search_always.


(** ** From the first endpoint to the audio batch *)

Section pipeline.
Context `{Builtins} `{Services}.

Lemma scene_record_needs_audio (scene_id script : json) (use_video : bool)
    (media_url : json) :
  needs_audio (scene_record scene_id script use_video media_url)
  = has_script (scene_record scene_id script use_video media_url).
Proof.
  unfold scene_record, jsonify, needs_audio, has_script. simpl.
  do 4 (rewrite (lookup_insert_ne _ _ (py "audioBase64")) by done).
  rewrite lookup_insert_eq. simpl. by rewrite andb_true_r.
Qed.

Lemma filter_Forall_ext {A : Type} (P Q : A → Prop)
    `{∀ x, Decision (P x)} `{∀ x, Decision (Q x)} (l : list A) :
  Forall (λ x, P x ↔ Q x) l → filter P l = filter Q l.
Proof.
  induction 1 as [|x l HPQ _ IH]; [done|].
  rewrite !filter_cons, IH.
  destruct (decide (P x)), (decide (Q x)); try done; tauto.
Qed.

Lemma generate_initial_content_need_audio (data : json) (st : state) :
  Forall (λ scene, needs_audio scene = has_script scene)
    (response_scenes (generate_initial_content data st).1).
Proof.
  unfold generate_initial_content.
  apply (handle_status _ st
           (λ r, Forall (λ scene, needs_audio scene = has_script scene)
                   (response_scenes r)));
    [|intros e; by rewrite response_scenes_error].
  intros r st1 Hrun. do 7 step_run Hrun.
  destruct (negb (truthy _)).
  { apply ret_Ok_inv in Hrun as [-> _]. by rewrite response_scenes_error. }
  step_run Hrun.
  apply bind_Ok_inv in Hrun as (content & st2 & _ & Hrun).
  do 3 step_run Hrun.
  apply bind_Ok_inv in Hrun as (out & st3 & Hloop & Hrun).
  apply ret_Ok_inv in Hrun as [-> _]. rewrite response_scenes_ok.
  eapply for_each_Forall; [|exact Hloop].
  intros scene st4 o st5 Hscene.
  apply new_scene_record in Hscene as (scene_id & script & use_video & url & ->).
  apply scene_record_needs_audio.
Qed.

(** X24: the audio batch run on the scenes that the first endpoint
    returned synthesises every scene whose script is not empty, in
    order, and makes no other call: none of them is skipped for having
    audio already. *)
Theorem audio_batch_after_initial_content (data : json)
    (request : gmap str json) (st st1 : state) :
  let scenes := response_scenes (generate_initial_content data st).1 in
  request !! py "scenes" = Some (JArr scenes) →
  status (generate_audio (JObj request) st1).1 = 200 →
  calls (generate_audio (JObj request) st1).2
  = calls st1 ++
    (CallSpeech ∘ scene_speech (default (jstr "nova") (request !! py "voice"))
       <$> filter (λ scene, Is_true (has_script scene)) scenes).
Proof.
  intros scenes Hscenes Hstatus.
  destruct (generate_audio_inv request scenes st1 Hscenes Hstatus)
    as (out & Hloop & _).
  apply for_each_with_audio_calls in Hloop. rewrite Hloop. cbn [calls].
  do 2 f_equal. apply filter_Forall_ext.
  eapply Forall_impl; [apply generate_initial_content_need_audio|].
  intros scene ->. done.
Qed.

End pipeline.

Lemma audio_batch_after_initial_content_run :
  status (@generate_audio pipeline_services (JObj audio_request_after_gato)
            initial_state).1 = 200 ∧
  calls (@generate_audio pipeline_services (JObj audio_request_after_gato)
           initial_state).2
  = [CallSpeech {| speech_model := "tts-1"; speech_voice := jstr "nova";
                   speech_input := jstr "Un gato duerme al sol." |}].
Proof.
  split; [by vm_compute|].
  rewrite (@audio_batch_after_initial_content (scripted_builtins (Ok parsed_gato))
             pipeline_services request_gato audio_request_after_gato
             initial_state initial_state); by vm_compute.
Defined.


(** ** What the title and the hashtags depend on *)

Section seo_prefix.
Context `{Services}.

(** X25: the title and the hashtags depend on the first 200
    characters of the script only: for a [type] other than [all] and
    [descripcion], two requests whose scripts agree on their first 200
    characters make the same calls and get the same answer. *)
Theorem generate_seo_reads_200_characters (data : gmap str json)
    (guion guion' : str) (seo_type : json) (st : state) :
  take 200 guion = take 200 guion' →
  guion ≠ [] →
  eq_str seo_type "all" = false →
  eq_str seo_type "descripcion" = false →
  generate_seo (JObj (seo_request_for guion seo_type data)) st
  = generate_seo (JObj (seo_request_for guion' seo_type data)) st.
Proof.
  intros Htake Hne Hall Hdesc.
  assert (guion' ≠ []) as Hne'.
  { intros ->. destruct guion; [done|]. by rewrite take_nil in Htake. }
  assert (∀ g, g ≠ [] →
            generate_seo (JObj (seo_request_for g seo_type data)) st
            = handle (
                let nicho := default JNull (data !! py "nicho") in
                if negb (truthy nicho) then
                  mret {| body := jsonify [("error", JStr msg_guion_y_nicho)];
                          status := 400 |}
                else
                  seo_data ← (if eq_str seo_type "titulo" then
                    seo_field "titulo" (PromptTitulo nicho (JStr (take 200 g))) ∅
                    else mret ∅);
                  seo_data ← mret seo_data;
                  seo_data ← (if eq_str seo_type "hashtags" then
                    seo_field "hashtags" (PromptHashtags nicho (JStr (take 200 g)))
                      seo_data
                    else mret seo_data);
                  mret {| body := JObj seo_data; status := 200 |}) st) as Hrun.
  { intros g Hg. unfold generate_seo, seo_request_for.
    rewrite (handle_lift_Ok _ _ st (JStr g))
      by (simpl; by rewrite lookup_insert_eq).
    rewrite (handle_lift_Ok _ _ st (default JNull (data !! py "nicho")))
      by (simpl; by do 2 (rewrite lookup_insert_ne by done)).
    rewrite (handle_lift_Ok _ _ st seo_type)
      by (simpl; rewrite lookup_insert_ne by done; by rewrite lookup_insert_eq).
    cbv zeta. rewrite Hall, Hdesc. cbn [orb].
    assert (truthy (JStr g) = true) as ->
      by (simpl; by rewrite bool_decide_false).
    cbn [negb orb]. done. }
  by rewrite (Hrun guion Hne), (Hrun guion' Hne'), Htake.
Qed.

End seo_prefix.

Lemma generate_seo_reads_200_characters_run :
  take 200 (long_script "x") = take 200 (long_script "y") ∧
  long_script "x" ≠ long_script "y" ∧
  @generate_seo seo_services
    (JObj (seo_request_for (long_script "x") (jstr "titulo") (seo_request "all")))
    initial_state
  = @generate_seo seo_services
      (JObj (seo_request_for (long_script "y") (jstr "titulo") (seo_request "all")))
      initial_state.
Proof.
  split; [by vm_compute|]. split; [by vm_compute|].
  by apply (@generate_seo_reads_200_characters seo_services); vm_compute.
Defined.
